(** * Exchange WebSocket clients (Binance, Bitfinex, Bittrex): a shallow embedding

    The three client classes of the repository are embedded as state-passing
    programs over explicit records.  Each client lives in its own module and
    keeps the names of the JavaScript source.  What the classes borrow from
    the JavaScript runtime (Map, plain objects, property access, timers, the
    microtask queue of an async function) is modelled once in [Js].  What
    they take from outside the language as the clients use it stays a
    parameter: the arithmetic of doubles ([Number]), the case tables and
    the characters of Unicode ([Unicode]), moment and md5 ([Libraries]) and
    the wall clock of a run ([Clock]). *)

From Stdlib Require Import ZArith List String Ascii Bool Lia.
From stdpp Require Import base option gmap strings list pretty.

Local Open Scope string_scope.
Local Open Scope Z_scope.

(** ** The JavaScript runtime the clients rely on *)
Module Js.

(** *** Completions: a call returns or throws *)

Inductive Exn :=
| TypeError
| LibraryError.    (* whatever else a library throws *)

Inductive Completion (A : Type) :=
| Returned (a : A)
| Thrown (e : Exn).
Arguments Returned {A} a.
Arguments Thrown {A} e.

(** State and exception monad: a method mutates [this] and its
    surroundings, and what it wrote before a throw stays written. *)
Definition M (St A : Type) : Type := St -> St * Completion A.

Definition ret {St A} (a : A) : M St A := fun s => (s, Returned a).

Definition bind {St A B} (c : M St A) (k : A -> M St B) : M St B :=
  fun s => match c s with
           | (s', Returned a) => k a s'
           | (s', Thrown e) => (s', Thrown e)
           end.

Definition throw {St A} (e : Exn) : M St A := fun s => (s, Thrown e).
Definition gets {St A} (f : St -> A) : M St A := fun s => (s, Returned (f s)).
Definition modify {St} (f : St -> St) : M St unit := fun s => (f s, Returned tt).

(** [try { c } catch (e) { }]: the exception is swallowed. *)
Definition try_ignore {St} (c : M St unit) : M St unit :=
  fun s => match c s with
           | (s', _) => (s', Returned tt)
           end.

Notation "x <- c ;; k" := (bind c (fun x => k))
  (at level 100, c at next level, right associativity).
Notation "c ;; k" := (bind c (fun _ => k))
  (at level 100, right associativity).

(** [for (let x of xs) body]. *)
Fixpoint for_of {St A} (xs : list A) (body : A -> M St unit) : M St unit :=
  match xs with
  | [] => ret tt
  | x :: rest => body x ;; for_of rest body
  end.

(** [xs.map(f)] where [f] may throw. *)
Fixpoint map_m {St A B} (f : A -> M St B) (xs : list A) : M St (list B) :=
  match xs with
  | [] => ret []
  | x :: rest => y <- f x ;; ys <- map_m f rest ;; ret (y :: ys)
  end.

Definition exec {St A} (c : M St A) (s : St) : St := fst (c s).
Definition outcome {St A} (c : M St A) (s : St) : Completion A := snd (c s).

(** *** JSON values, as [JSON.parse] returns them

    JavaScript numbers are IEEE doubles.  Their type stays abstract: the
    clients only hand numbers to the built-ins of [Number] below. *)
Section Json.
Context {number : Type}.

#[warnings="-register-all"] Inductive Json :=
| JNull
| JBool (b : bool)
| JNum (n : number)
| JStr (s : string)
| JArr (elems : list Json)
| JObj (props : list (string * Json)).

(** A JavaScript value met by the clients: a JSON value or [undefined]. *)
Definition Value := option Json.
End Json.
Arguments Json number : clear implicits.
Arguments Value number : clear implicits.

Class Number (number : Type) := {
  num_toString : number -> string;          (* String(n), template literals, property keys *)
  num_toFixed : number -> nat -> string;    (* n.toFixed(d) *)
  num_truthy : number -> bool;              (* false for 0 and NaN *)
  num_abs : number -> number;               (* Math.abs on a number *)
  to_number : Value number -> number;       (* the number ToNumber returns, when it returns *)
  num_gt0 : number -> bool;                 (* n > 0 *)
}.

(** *** Text

    A string is held as the bytes of its UTF-8 encoding.  What the clients
    do with the characters of ASCII (comparing, joining, splitting at "@",
    testing a suffix) reads on these bytes as it does on the code units of
    the runtime.  What depends on the characters beyond ASCII stays abstract:
    the table of cased letters [toLowerCase] consults, and the characters
    that indexing and iterating a string yield. *)
Class Unicode := {
  unicode_toLowerCase : string -> string;        (* s.toLowerCase() *)
  unicode_at : string -> nat -> option string;   (* s[i]; [None] past the end *)
  unicode_chars : string -> list string;         (* what [for (let ch of s)] iterates *)
}.

(** The text holds characters of ASCII alone. *)
Fixpoint ascii_only (s : string) : bool :=
  match s with
  | EmptyString => true
  | String (Ascii _ _ _ _ _ _ _ b7) rest => (negb b7 && ascii_only rest)%bool
  end.

Section Values.
Context {number : Type} `{Number number} {Un : Unicode}.
Local Abbreviation Json := (Json number).
Local Abbreviation Value := (Value number).

Definition undefined : Value := None.

Fixpoint assoc_prop (k : string) (props : list (string * Json)) : Value :=
  match props with
  | [] => None
  | (k', v) :: rest => if String.eqb k k' then Some v else assoc_prop k rest
  end.

(** [s[i]]. *)
Definition char_at (s : string) (i : nat) : Value :=
  if ascii_only s
  then match String.get i s with
       | Some c => Some (JStr (String c EmptyString))
       | None => None
       end
  else JStr <$> unicode_at s i.

(** [v.name]: [None] when the access throws (null has no properties). *)
Definition field_of (v : Json) (name : string) : option Value :=
  match v with
  | JNull => None
  | JObj props => Some (assoc_prop name props)
  | _ => Some undefined
  end.

(** [v[i]] for an integer literal [i]. *)
Definition index_of (v : Json) (i : nat) : option Value :=
  match v with
  | JNull => None
  | JObj props => Some (assoc_prop (pretty i) props)
  | JArr elems => Some (elems !! i)
  | JStr s => Some (char_at s i)
  | _ => Some undefined
  end.

Definition field {St} (v : Value) (name : string) : M St Value :=
  match v with
  | None => throw TypeError
  | Some j => match field_of j name with
              | Some r => ret r
              | None => throw TypeError
              end
  end.

Definition index {St} (v : Value) (i : nat) : M St Value :=
  match v with
  | None => throw TypeError
  | Some j => match index_of j i with
              | Some r => ret r
              | None => throw TypeError
              end
  end.

(** [v === "s"]. *)
Definition is_string (v : Value) (s : string) : bool :=
  match v with
  | Some (JStr t) => String.eqb t s
  | _ => false
  end.

Definition truthy (v : Value) : bool :=
  match v with
  | None | Some JNull => false
  | Some (JBool b) => b
  | Some (JNum n) => num_truthy n
  | Some (JStr s) => negb (String.eqb s "")
  | Some (JArr _) | Some (JObj _) => true
  end.

(** [Array.isArray(v)]. *)
Definition isArray (v : Value) : bool :=
  match v with
  | Some (JArr _) => true
  | _ => false
  end.

(** The elements [v.forEach(f)] and [v.map(f)] walk over: only arrays
    have the methods. *)
Definition elements {St} (v : Value) : M St (list Json) :=
  match v with
  | Some (JArr elems) => ret elems
  | _ => throw TypeError
  end.

(** The values a [for ... of] or an array destructuring iterates: the
    elements of an array, the characters of a string; nothing else met
    here is iterable. *)
Fixpoint ascii_chars (s : string) : list Json :=
  match s with
  | EmptyString => []
  | String c rest => JStr (String c EmptyString) :: ascii_chars rest
  end.

Definition chars (s : string) : list Json :=
  if ascii_only s then ascii_chars s else JStr <$> unicode_chars s.

Definition iterate {St} (v : Value) : M St (list Json) :=
  match v with
  | Some (JArr elems) => ret elems
  | Some (JStr s) => ret (chars s)
  | _ => throw TypeError
  end.

(** Whether the conversion of a value of JSON to a primitive returns.  An
    object is converted by its [toString] and [valueOf]: the ones it
    inherits from Object.prototype give "[object Object]", while an own
    property [toString], which in a value of JSON is no function, leaves the
    conversion without a primitive, and it throws a TypeError.  An array is
    joined, which converts each element that is not null. *)
Fixpoint converts (j : Json) : bool :=
  match j with
  | JObj props =>
      match assoc_prop "toString" props with
      | Some _ => false
      | None => true
      end
  | JArr elems => forallb converts elems
  | JNull | JBool _ | JNum _ | JStr _ => true
  end.

Definition convertible (v : Value) : bool :=
  match v with
  | None => true
  | Some j => converts j
  end.

(** ToString, as used for property keys and string concatenation: the
    string the conversion returns, when it returns. *)
Fixpoint to_string (j : Json) : string :=
  match j with
  | JNull => "null"
  | JBool true => "true"
  | JBool false => "false"
  | JNum n => num_toString n
  | JStr s => s
  | JArr elems =>
      String.concat ","
        (List.map (fun e => match e with JNull => "" | _ => to_string e end) elems)
  | JObj _ => "[object Object]"
  end.

Definition property_key (v : Value) : string :=
  match v with
  | None => "undefined"
  | Some j => to_string j
  end.

(** ToPropertyKey, the conversion of [v] in [object[v]]. *)
Definition ToPropertyKey {St} (v : Value) : M St string :=
  if convertible v then ret (property_key v) else throw TypeError.

(** ToNumber, the conversion of [v] in [Math.abs(v)] and [v > 0]. *)
Definition ToNumber {St} (v : Value) : M St number :=
  if convertible v then ret (to_number v) else throw TypeError.

(** [v.toFixed(d)]: only numbers have the method. *)
Definition toFixed {St} (v : Value) (d : nat) : M St string :=
  match v with
  | Some (JNum n) => ret (num_toFixed n d)
  | _ => throw TypeError
  end.

(** [s.toLowerCase()]: in a text of ASCII the letters A to Z are the
    cased ones. *)
Definition lower_char (c : ascii) : ascii :=
  let n := nat_of_ascii c in
  if ((65 <=? n)%nat && (n <=? 90)%nat)%bool then ascii_of_nat (n + 32) else c.

Fixpoint ascii_lower (s : string) : string :=
  match s with
  | EmptyString => EmptyString
  | String c rest => String (lower_char c) (ascii_lower rest)
  end.

Definition lower (s : string) : string :=
  if ascii_only s then ascii_lower s else unicode_toLowerCase s.

(** [v.toLowerCase()]: only strings have the method. *)

Definition toLowerCase {St} (v : Value) : M St string :=
  match v with
  | Some (JStr s) => ret (lower s)
  | _ => throw TypeError
  end.
End Values.

(** *** Strings *)

(** [s.endsWith(suffix)]. *)
Definition endsWith (s suffix : string) : bool :=
  let n := String.length s in
  let k := String.length suffix in
  ((k <=? n)%nat && String.eqb (String.substring (n - k) k s) suffix)%bool.

(** [s.split(sep)[0]] for a one-character separator. *)
Fixpoint split_head (sep : ascii) (s : string) : string :=
  match s with
  | EmptyString => EmptyString
  | String c rest => if Ascii.eqb c sep then EmptyString else String c (split_head sep rest)
  end.

(** *** Map: insertion-ordered, keys compared by SameValueZero *)
Section JsMap.
Context {K V : Type} `{EqDecision K}.

Definition Map := list (K * V).

Definition has (k : K) (m : Map) : bool :=
  existsb (fun kv => bool_decide (kv.1 = k)) m.

Fixpoint get (k : K) (m : Map) : option V :=
  match m with
  | [] => None
  | (k', v) :: rest => if decide (k' = k) then Some v else get k rest
  end.

Fixpoint set (k : K) (v : V) (m : Map) : Map :=
  match m with
  | [] => [(k, v)]
  | (k', v') :: rest => if decide (k' = k) then (k', v) :: rest else (k', v') :: set k v rest
  end.

Definition delete (k : K) (m : Map) : Map :=
  List.filter (fun kv => negb (bool_decide (kv.1 = k))) m.

Definition keys (m : Map) : list K := List.map fst m.
End JsMap.
Arguments Map K V : clear implicits.

(** *** Timers: [setTimeout] and [clearTimeout] on one event loop *)
Section Timers.
Context {C : Type}.

Record Timer := mkTimer { handle : nat; due : Z; callback : C }.

Record EventLoop := mkLoop {
  now : Z;               (* the clock, in ms *)
  fresh : nat;           (* the next timer handle *)
  queue : list Timer;    (* armed timers, oldest first *)
}.

Definition setTimeout (cb : C) (delay : Z) (l : EventLoop) : nat * EventLoop :=
  (fresh l,
   {| now := now l; fresh := S (fresh l);
      queue := queue l ++ [mkTimer (fresh l) (now l + delay) cb] |}).

(** [clearTimeout(h)]: [undefined] and handles that fired are ignored. *)
Definition clearTimeout (h : option nat) (l : EventLoop) : EventLoop :=
  match h with
  | None => l
  | Some n =>
      {| now := now l; fresh := fresh l;
         queue := List.filter (fun t => negb (Nat.eqb (handle t) n)) (queue l) |}
  end.

(** The first timer with the least deadline. *)
Fixpoint earliest (q : list Timer) : option Timer :=
  match q with
  | [] => None
  | t :: rest =>
      match earliest rest with
      | Some t' => if due t' <? due t then Some t' else Some t
      | None => Some t
      end
  end.

(** The timer to run next when the clock may advance to [t]. *)
Definition next_due (t : Z) (l : EventLoop) : option Timer :=
  match earliest (queue l) with
  | Some tm => if due tm <=? t then Some tm else None
  | None => None
  end.

(** Take a timer off the queue and move the clock to its deadline. *)
Definition dequeue (tm : Timer) (l : EventLoop) : EventLoop :=
  {| now := Z.max (now l) (due tm); fresh := fresh l;
     queue := List.filter (fun t => negb (Nat.eqb (handle t) (handle tm))) (queue l) |}.

Definition set_clock (t : Z) (l : EventLoop) : EventLoop :=
  {| now := Z.max (now l) t; fresh := fresh l; queue := queue l |}.
End Timers.
Arguments Timer C : clear implicits.
Arguments EventLoop C : clear implicits.

(** *** Plain objects used as dictionaries

    An object created by [{}] inherits the members of Object.prototype:
    a key that names one, and that the object does not hold itself, reads as
    that member.  (Nothing in the repository adds to Object.prototype.) *)
Definition object_prototype_members : list string :=
  ["constructor"; "__defineGetter__"; "__defineSetter__"; "hasOwnProperty";
   "__lookupGetter__"; "__lookupSetter__"; "isPrototypeOf"; "propertyIsEnumerable";
   "toString"; "valueOf"; "__proto__"; "toLocaleString"].

Definition inherited (k : string) : bool :=
  existsb (String.eqb k) object_prototype_members.

(** *** What a call leaves alone *)

(** [keeps R c]: the state a call of [c] ends in, returned or thrown, is
    related by [R] to the state it started in. *)
Definition keeps {St A} (R : St -> St -> Prop) (c : M St A) : Prop :=
  forall s, R s (exec c s).

(** [s.includes(ch)] for one character. *)
Fixpoint includes (ch : ascii) (s : string) : bool :=
  match s with
  | EmptyString => false
  | String c rest => (Ascii.eqb c ch || includes ch rest)%bool
  end.

End Js.

(** ** The normalized records the clients emit *)
Module Model.

(** A market, as the caller passes it to the subscribe methods. *)
Record Market := mkMarket { id : string; base : string; quote : string }.

#[global] Instance Market_eq_dec : EqDecision Market.
Proof. solve_decision. Defined.

Section Records.
Context {number : Type}.
Local Abbreviation Value := (Js.Value number).

(** Modelled from the spec: the classes Trade, Level2Point, Level2Snapshot,
    Level2Update, Level3Point, Level3Snapshot and Level3Update of
    [types/] are not among the sources.  Each is the plain record of the
    fields its constructor is handed (a field left out is [undefined]),
    and the class of a record is the constructor of [Payload]. *)
Record Trade := mkTrade {
  t_exchange : string; t_base : string; t_quote : string;
  tradeId : Value; unix : Value; side : Value; price : Value; amount : Value;
}.

Record Level2Point := mkLevel2Point {
  p_price : Value; p_size : Value; p_count : Value;
  p_meta_type : option Value;    (* the [type] of the fourth argument, when one is passed *)
}.

Record Level2 := mkLevel2 {
  exchange : string; l2_base : string; l2_quote : string;
  sequenceId : Value; lastSequenceId : Value;
  asks : list Level2Point; bids : list Level2Point;
}.

Record Level3Point := mkLevel3Point { orderId : Value; o_price : Value; o_size : Value }.

Record Level3 := mkLevel3 {
  l3_exchange : string; l3_base : string; l3_quote : string;
  l3_asks : list Level3Point; l3_bids : list Level3Point;
}.

Inductive Payload :=
| ATrade (t : Trade)
| ALevel2Snapshot (r : Level2)
| ALevel2Update (r : Level2)
| ALevel3Snapshot (r : Level3)
| ALevel3Update (r : Level3).

(** The record a level2 payload holds, whatever its class. *)
Definition level2_record (p : Payload) : option Level2 :=
  match p with
  | ALevel2Snapshot r | ALevel2Update r => Some r
  | ATrade _ | ALevel3Snapshot _ | ALevel3Update _ => None
  end.

(** [this.emit(name, payload)]. *)
Record Event := mkEvent { name : string; payload : option Payload }.

(** The events that carry market data. *)
Definition is_data (name : string) : bool :=
  existsb (String.eqb name) ["trade"; "l2snapshot"; "l2update"; "l3snapshot"; "l3update"].
End Records.
Arguments Trade number : clear implicits.
Arguments Level2Point number : clear implicits.
Arguments Level2 number : clear implicits.
Arguments Level3Point number : clear implicits.
Arguments Level3 number : clear implicits.
Arguments Payload number : clear implicits.
Arguments Event number : clear implicits.

End Model.

(** ** The ticker record *)
Module Ticker.
Import Js.

Section Ticker.
Context {number : Type} `{Number number}.
Local Abbreviation Value := (Js.Value number).

(** The fields, in the order the constructor assigns them. *)
Record Ticker := mkTicker {
  exchange : Value; quote : Value; base : Value; tradeId : Value; unix : Value;
  price : Value; amount : Value; buyOrderId : Value; sellOrderId : Value;
}.

(** [new Ticker(arg)]: the parameter is destructured, which throws on
    [undefined] and on [null]; a property the argument lacks is [undefined]. *)
Definition constructor (arg : Value) : Completion Ticker :=
  match arg with
  | None | Some JNull => Thrown TypeError
  | Some j =>
      let prop name := default undefined (field_of j name) in
      Returned {| exchange := prop "exchange"; quote := prop "quote"; base := prop "base";
                  tradeId := prop "tradeId"; unix := prop "unix"; price := prop "price";
                  amount := prop "amount"; buyOrderId := prop "buyOrderId";
                  sellOrderId := prop "sellOrderId" |}
  end.

(** [`${v}`]: the string a template literal converts the value to, when
    the conversion returns. *)
Definition template (v : Value) : string := property_key v.

Definition marketId (t : Ticker) : string :=
  template (base t) +:+ "/" +:+ template (quote t).

Definition fullId (t : Ticker) : string :=
  template (exchange t) +:+ ":" +:+ template (base t) +:+ "/" +:+ template (quote t).
End Ticker.
Arguments Ticker number : clear implicits.

End Ticker.

(** ** The connection watcher *)
Module Watcher.
Import Js.

(** Modelled from the spec: the class Watcher of [watcher.js] is not among
    the sources.  Spec 4.2: "start() arms an idle timer (exchange-configurable
    timeout); markAlive() resets it; stop() disarms it.  On timeout expiry,
    invokes the owning client's reconnect() and rearms.  Calling start() while
    already armed resets rather than duplicates the timer." *)
Record t := mk { intervalMs : Z; armed : option nat }.

Section Ops.
Context {C : Type} (expiry : C).

Definition stop (w : t) (l : EventLoop C) : t * EventLoop C :=
  (mk (intervalMs w) None, clearTimeout (armed w) l).

Definition start (w : t) (l : EventLoop C) : t * EventLoop C :=
  let '(w1, l1) := stop w l in
  let '(h, l2) := setTimeout expiry (intervalMs w1) l1 in
  (mk (intervalMs w1) (Some h), l2).

Definition markAlive (w : t) (l : EventLoop C) : t * EventLoop C :=
  match armed w with
  | Some _ => start w l
  | None => (w, l)
  end.
End Ops.

End Watcher.

(** ** Binance: subscriptions embedded in the connection URL *)
Module Binance.
Import Js Model.

(** The keys handed to the three subscription Maps: [_subscribe] and
    [_unsubscribe] test and set the lower-cased id, a string, while
    [_unsubscribe] deletes the market object itself. *)
Inductive MapKey :=
| KString (s : string)
| KMarket (m : Market).

#[global] Instance MapKey_eq_dec : EqDecision MapKey.
Proof. solve_decision. Defined.

(** [key + "@aggTrade"] converts the key to a string. *)
Definition key_to_string (k : MapKey) : string :=
  match k with
  | KString s => s
  | KMarket _ => "[object Object]"
  end.

(** The three Maps a method is handed. *)
Inductive Subs := TradeSubs | Level2SnapshotSubs | Level2UpdateSubs.

(** Modelled from the spec: the class SmartWss of [smart-wss.js], the
    ResilientSocket of spec 4.1, is not among the sources.  The client only
    constructs it on a path, wires its events, connects and closes it: the
    object is kept as its path, and what is done to it goes to [sockets]. *)
Record SmartWss := mkWss { wssPath : string }.

Inductive SocketOp :=
| SockConnect (path : string)      (* new SmartWss(path) ... .connect() *)
| SockClose (path : string).       (* .close() *)

(** The closures handed to timers. *)
Inductive Callback :=
| DebounceElapsed      (* the arrow function of [_reconnect] *)
| WatcherExpired.      (* the watcher's idle timer *)

Section Client.
Context {number : Type} `{Number number} {Un : Unicode}.
Local Abbreviation Json := (Js.Json number).
Local Abbreviation Value := (Js.Value number).
Local Abbreviation Event := (Model.Event number).

Record Client := mkClient {
  _name : string;
  _tradeSubs : Map MapKey Market;
  _level2SnapshotSubs : Map MapKey Market;
  _level2UpdateSubs : Map MapKey Market;
  _wss : option SmartWss;
  _reconnectDebounce : option nat;
  _watcher : Watcher.t;
  (* the surroundings of the object *)
  loop : EventLoop Callback;     (* the timers of the process *)
  emitted : list Event;          (* what [emit] was called with, oldest first *)
  sockets : list SocketOp;       (* what was done to SmartWss objects, oldest first *)
}.

Definition constructor : Client :=
  {| _name := "Binance";
     _tradeSubs := []; _level2SnapshotSubs := []; _level2UpdateSubs := [];
     _wss := None; _reconnectDebounce := None;
     _watcher := Watcher.mk 30000 None;
     loop := mkLoop 0 0 []; emitted := []; sockets := [] |}.

Definition subs (which : Subs) (c : Client) : Map MapKey Market :=
  match which with
  | TradeSubs => _tradeSubs c
  | Level2SnapshotSubs => _level2SnapshotSubs c
  | Level2UpdateSubs => _level2UpdateSubs c
  end.

Definition with_subs (which : Subs) (m : Map MapKey Market) (c : Client) : Client :=
  match which with
  | TradeSubs =>
      mkClient (_name c) m (_level2SnapshotSubs c) (_level2UpdateSubs c) (_wss c)
        (_reconnectDebounce c) (_watcher c) (loop c) (emitted c) (sockets c)
  | Level2SnapshotSubs =>
      mkClient (_name c) (_tradeSubs c) m (_level2UpdateSubs c) (_wss c)
        (_reconnectDebounce c) (_watcher c) (loop c) (emitted c) (sockets c)
  | Level2UpdateSubs =>
      mkClient (_name c) (_tradeSubs c) (_level2SnapshotSubs c) m (_wss c)
        (_reconnectDebounce c) (_watcher c) (loop c) (emitted c) (sockets c)
  end.

Definition with_wss (w : option SmartWss) (ops : list SocketOp) (c : Client) : Client :=
  mkClient (_name c) (_tradeSubs c) (_level2SnapshotSubs c) (_level2UpdateSubs c) w
    (_reconnectDebounce c) (_watcher c) (loop c) (emitted c) (sockets c ++ ops).

Definition with_debounce (h : option nat) (l : EventLoop Callback) (c : Client) : Client :=
  mkClient (_name c) (_tradeSubs c) (_level2SnapshotSubs c) (_level2UpdateSubs c) (_wss c)
    h (_watcher c) l (emitted c) (sockets c).

Definition with_watcher (wl : Watcher.t * EventLoop Callback) (c : Client) : Client :=
  mkClient (_name c) (_tradeSubs c) (_level2SnapshotSubs c) (_level2UpdateSubs c) (_wss c)
    (_reconnectDebounce c) wl.1 wl.2 (emitted c) (sockets c).

Definition with_loop (l : EventLoop Callback) (c : Client) : Client :=
  mkClient (_name c) (_tradeSubs c) (_level2SnapshotSubs c) (_level2UpdateSubs c) (_wss c)
    (_reconnectDebounce c) (_watcher c) l (emitted c) (sockets c).

Definition with_emitted (e : Event) (c : Client) : Client :=
  mkClient (_name c) (_tradeSubs c) (_level2SnapshotSubs c) (_level2UpdateSubs c) (_wss c)
    (_reconnectDebounce c) (_watcher c) (loop c) (emitted c ++ [e]) (sockets c).

(** [this.emit(name, payload)]; the watcher listens to the data events
    and marks the connection alive on each. *)
Definition emit (name : string) (payload : option (Payload number)) : M Client unit :=
  modify (with_emitted (mkEvent name payload));;
  if is_data name
  then modify (fun c => with_watcher (Watcher.markAlive WatcherExpired (_watcher c) (loop c)) c)
  else ret tt.

(** *** Protected methods *)

Definition _reconnect : M Client unit :=
  modify (fun c =>
    let l := clearTimeout (_reconnectDebounce c) (loop c) in
    let '(h, l') := setTimeout DebounceElapsed 100 l in
    with_debounce (Some h) l' c).

Definition _subscribe (market : Market) (map : Subs) : M Client unit :=
  let remote_id := lower (id market) in
  m <- gets (subs map);;
  if negb (has (KString remote_id) m)
  then modify (with_subs map (set (KString remote_id) market m));; _reconnect
  else ret tt.

Definition _unsubscribe (market : Market) (map : Subs) : M Client unit :=
  let remote_id := lower (id market) in
  m <- gets (subs map);;
  if has (KString remote_id) m
  then modify (with_subs map (delete (KMarket market) m));; _reconnect
  else ret tt.

Definition _close : M Client unit :=
  w <- gets _wss;;
  match w with
  | Some s => modify (with_wss None [SockClose (wssPath s)]);; emit "closed" None
  | None => ret tt
  end.

Definition streams_of (c : Client) : list string :=
  List.map (fun p => key_to_string p +:+ "@aggTrade") (keys (_tradeSubs c))
  ++ List.map (fun p => key_to_string p +:+ "@depth20") (keys (_level2SnapshotSubs c))
  ++ List.map (fun p => key_to_string p +:+ "@depth") (keys (_level2UpdateSubs c)).

Definition _connect : M Client unit :=
  w <- gets _wss;;
  match w with
  | None =>
      streams <- gets streams_of;;
      let wssPath :=
        "wss://stream.binance.com:9443/stream?streams=" +:+ String.concat "/" streams in
      modify (with_wss (Some (mkWss wssPath)) [SockConnect wssPath])
  | Some _ => ret tt
  end.

(** *** Public methods *)

Definition subscribeTrades (market : Market) := _subscribe market TradeSubs.
Definition unsubscribeTrades (market : Market) := _unsubscribe market TradeSubs.
Definition subscribeLevel2Snapshots (market : Market) := _subscribe market Level2SnapshotSubs.
Definition unsubscribeLevel2Snapshots (market : Market) := _unsubscribe market Level2SnapshotSubs.
Definition subscribeLevel2Updates (market : Market) := _subscribe market Level2UpdateSubs.
Definition unsubscribeLevel2Updates (market : Market) := _unsubscribe market Level2UpdateSubs.

Definition reconnect : M Client unit := _reconnect;; emit "reconnected" None.
Definition close : M Client unit := _close.

(** *** Socket events *)

Definition _onConnected : M Client unit :=
  modify (fun c => with_watcher (Watcher.start WatcherExpired (_watcher c) (loop c)) c);;
  emit "connected" None.

Definition _onDisconnected : M Client unit :=
  modify (fun c => with_watcher (Watcher.stop (_watcher c) (loop c)) c);;
  emit "disconnected" None.

(** *** Inbound frames

    [msg] is what [JSON.parse(raw)] returned; a frame that does not parse
    throws before the client is touched. *)

(** [v.endsWith(suffix)] and [v.split("@")[0]]: only strings have the methods. *)
Definition ends_with (v : Value) (suffix : string) : M Client bool :=
  match v with
  | Some (JStr s) => ret (endsWith s suffix)
  | _ => throw TypeError
  end.

Definition split_at_0 (v : Value) : M Client string :=
  match v with
  | Some (JStr s) => ret (split_head "@"%char s)
  | _ => throw TypeError
  end.

(** [market.base], [market.quote] on the result of [Map.get]. *)
Definition deref (market : option Market) : M Client Market :=
  match market with
  | Some m => ret m
  | None => throw TypeError
  end.

(** [p => new Level2Point(p[0], p[1])]. *)
Definition point (p : Json) : M Client (Level2Point number) :=
  p0 <- index (Some p) 0;;
  p1 <- index (Some p) 1;;
  ret (mkLevel2Point p0 p1 undefined None).

Definition _constructTradeFromMessage (msg : Json) : M Client (Trade number) :=
  data <- field (Some msg) "data";;
  symbol <- field data "s";;
  price <- field data "p";;
  size <- field data "q";;
  trade_id <- field data "f";;
  time <- field data "T";;
  buyer <- field data "m";;
  remote_id <- toLowerCase symbol;;
  market <- gets (fun c => get (KString remote_id) (_tradeSubs c));;
  let unix := time in
  let amount := size in
  let side := if truthy buyer then "buy" else "sell" in
  m <- deref market;;
  ret (mkTrade "Binance" (base m) (quote m) trade_id unix (Some (JStr side)) price amount).

Definition _constructLevel2Snapshot (msg : Json) : M Client (Payload number) :=
  stream <- field (Some msg) "stream";;
  remote_id <- split_at_0 stream;;
  market <- gets (fun c => get (KString remote_id) (_level2SnapshotSubs c));;
  data <- field (Some msg) "data";;
  sequenceId <- field data "lastUpdateId";;
  raw_asks <- field data "asks";;
  ps <- elements raw_asks;;
  asks <- map_m point ps;;
  raw_bids <- field data "bids";;
  ps <- elements raw_bids;;
  bids <- map_m point ps;;
  m <- deref market;;
  ret (ALevel2Update (mkLevel2 "Binance" (base m) (quote m) sequenceId undefined asks bids)).

Definition _constructLevel2Update (msg : Json) : M Client (Payload number) :=
  data <- field (Some msg) "data";;
  s <- field data "s";;
  remote_id <- toLowerCase s;;
  market <- gets (fun c => get (KString remote_id) (_level2UpdateSubs c));;
  sequenceId <- field data "U";;
  lastSequenceId <- field data "u";;
  raw_asks <- field data "a";;
  ps <- elements raw_asks;;
  asks <- map_m point ps;;
  raw_bids <- field data "b";;
  ps <- elements raw_bids;;
  bids <- map_m point ps;;
  m <- deref market;;
  ret (ALevel2Snapshot (mkLevel2 "Binance" (base m) (quote m) sequenceId lastSequenceId asks bids)).

Definition _onMessage (msg : Json) : M Client unit :=
  (* trades *)
  stream <- field (Some msg) "stream";;
  is_trade <- ends_with stream "aggTrade";;
  (if is_trade
   then trade <- _constructTradeFromMessage msg;; emit "trade" (Some (ATrade trade))
   else ret tt);;
  (* l2snapshot *)
  is_snapshot <- ends_with stream "depth20";;
  (if is_snapshot
   then snapshot <- _constructLevel2Snapshot msg;; emit "l2snapshot" (Some snapshot)
   else ret tt);;
  (* l2update *)
  is_update <- ends_with stream "depth";;
  (if is_update
   then update <- _constructLevel2Update msg;; emit "l2update" (Some update)
   else ret tt).

(** *** The event loop around the client *)

(** What a timer runs when it fires.  The debounce timer runs the arrow
    function of [_reconnect]; the watcher's timer calls [reconnect()] and
    arms itself again. *)
Definition fire (cb : Callback) : M Client unit :=
  match cb with
  | DebounceElapsed => _close;; _connect
  | WatcherExpired =>
      reconnect;;
      modify (fun c => with_watcher (Watcher.start WatcherExpired (_watcher c) (loop c)) c)
  end.

(** Let the clock reach [t], running every timer that falls due on the
    way, earliest first.  [None]: more than [fuel] timers fell due. *)
Fixpoint advance (fuel : nat) (t : Z) (c : Client) : option Client :=
  match next_due t (loop c) with
  | None => Some (with_loop (set_clock t (loop c)) c)
  | Some tm =>
      match fuel with
      | O => None
      | S fuel' => advance fuel' t (exec (fire (callback tm)) (with_loop (dequeue tm (loop c)) c))
      end
  end.

(** A call made by the owner of the client [delay] ms after the previous one. *)
Inductive Call :=
| CallSubscribe (map : Subs) (market : Market)
| CallUnsubscribe (map : Subs) (market : Market).

Definition call (k : Call) : M Client unit :=
  match k with
  | CallSubscribe map market => _subscribe market map
  | CallUnsubscribe map market => _unsubscribe market map
  end.

(** Wait [delay] ms, then make the call. *)
Definition after (fuel : nat) (delay : Z) (k : M Client unit) (c : Client) : option Client :=
  match advance fuel (now (loop c) + delay) c with
  | Some c' => Some (exec k c')
  | None => None
  end.

Fixpoint run (fuel : nat) (calls : list (Z * Call)) (c : Client) : option Client :=
  match calls with
  | [] => Some c
  | (delay, k) :: rest =>
      match after fuel delay (call k) c with
      | Some c' => run fuel rest c'
      | None => None
      end
  end.

(** *** Vocabulary of the statements about bursts of calls *)

(** The guard of [_subscribe] and of [_unsubscribe]: whether the call goes
    on to [_reconnect]. *)
Definition passes (k : Call) (c : Client) : bool :=
  match k with
  | CallSubscribe map market => negb (has (KString (lower (id market))) (subs map c))
  | CallUnsubscribe map market => has (KString (lower (id market))) (subs map c)
  end.

(** The times at which the calls of a sequence pass their guard, the first
    call being made [delay] ms after [t]. *)
Fixpoint passing (t : Z) (calls : list (Z * Call)) (c : Client) : list Z :=
  match calls with
  | [] => []
  | (delay, k) :: rest =>
      (if passes k c then [t + delay] else []) ++ passing (t + delay) rest (exec (call k) c)
  end.



(** The reconnect cycles a log of socket operations shows: each opens one socket. *)
Definition connects (ops : list SocketOp) : nat :=
  length (List.filter (fun op => match op with SockConnect _ => true | SockClose _ => false end) ops).

(** What one run of the debounce callback does to the sockets. *)
Definition cycle (c : Client) : list SocketOp :=
  match _wss c with
  | Some s => [SockClose (wssPath s)]
  | None => []
  end ++ [SockConnect ("wss://stream.binance.com:9443/stream?streams="
                        +:+ String.concat "/" (streams_of c))].

(** Whether a timer is the one [_reconnectDebounce] holds. *)
Definition is_debounce (c : Client) (tm : Timer Callback) : bool :=
  bool_decide (_reconnectDebounce c = Some (handle tm)).

(** The deadline of the pending debounce timer. *)
Definition deadline (c : Client) : option Z :=
  match List.filter (is_debounce c) (queue (loop c)) with
  | tm :: _ => Some (due tm)
  | [] => None
  end.

(** Until the horizon [H] nothing but the debounce timer can fall due, and
    that one not before [B]. *)
Definition settled (H B : Z) (c : Client) : Prop :=
  Forall (fun tm => (handle tm < fresh (loop c))%nat
                    /\ if is_debounce c tm
                       then callback tm = DebounceElapsed /\ B <= due tm
                            /\ deadline c = Some (due tm)
                       else H < due tm)
    (queue (loop c)).

(** No debounce timer is pending and no other timer falls due until [H]. *)
Definition idle_until (H : Z) (c : Client) : Prop :=
  Forall (fun tm => (handle tm < fresh (loop c))%nat
                    /\ is_debounce c tm = false /\ H < due tm)
    (queue (loop c)).

Definition same_subs (c1 c2 : Client) : Prop :=
  forall map, subs map c1 = subs map c2.

(** The point [point] builds from an element that is not null. *)
Definition point_of (p : Json) : Level2Point number :=
  mkLevel2Point (default undefined (index_of p 0)) (default undefined (index_of p 1))
    undefined None.

(** What [emit] leaves behind for a data event. *)
Definition emitted_data (name : string) (p : Payload number) (c : Client) : Client :=
  let c' := with_emitted (mkEvent name (Some p)) c in
  with_watcher (Watcher.markAlive WatcherExpired (_watcher c') (loop c')) c'.

(** The path [_connect] builds for a list of streams. *)
Definition url (streams : list string) : string :=
  "wss://stream.binance.com:9443/stream?streams=" +:+ String.concat "/" streams.
(** *** The life of a client *)

(** What happens to a client: its owner calls a method, its socket reports
    an event, time passes and the timers that fall due run. *)
Inductive Action :=
| Owner (k : Call)
| OwnerReconnect
| OwnerClose
| SocketOpen
| SocketDisconnected
| SocketMessage (msg : Json)
| Elapse (ms : Z).

Definition perform (fuel : nat) (a : Action) (c : Client) : option Client :=
  match a with
  | Owner k => Some (exec (call k) c)
  | OwnerReconnect => Some (exec reconnect c)
  | OwnerClose => Some (exec close c)
  | SocketOpen => Some (exec _onConnected c)
  | SocketDisconnected => Some (exec _onDisconnected c)
  | SocketMessage msg => Some (exec (_onMessage msg) c)
  | Elapse ms => advance fuel (now (loop c) + ms) c
  end.

Fixpoint play (fuel : nat) (actions : list Action) (c : Client) : option Client :=
  match actions with
  | [] => Some c
  | a :: rest =>
      match perform fuel a c with
      | Some c' => play fuel rest c'
      | None => None
      end
  end.

(** The socket a log of operations leaves open, [open] being open at its
    start.  [None]: the log opens a socket while another is open, or closes
    a socket that is not the open one. *)
Fixpoint replay (open : option string) (ops : list SocketOp) : option (option string) :=
  match ops with
  | [] => Some open
  | SockConnect path :: rest =>
      match open with
      | None => replay (Some path) rest
      | Some _ => None
      end
  | SockClose path :: rest =>
      match open with
      | Some path' => if String.eqb path path' then replay None rest else None
      | None => None
      end
  end.

(** The armed timers that run the arrow function of [_reconnect]. *)
Definition debounces (c : Client) : list (Timer Callback) :=
  List.filter (fun tm => match callback tm with
                         | DebounceElapsed => true
                         | WatcherExpired => false
                         end) (queue (loop c)).

(** The log of socket operations is in order, and the socket it leaves
    open is the one [_wss] holds. *)
Definition one_socket (c : Client) : Prop :=
  replay None (sockets c) = Some (wssPath <$> _wss c).

(** The handles of the armed timers were handed out by [setTimeout] and
    are distinct, and [_reconnectDebounce] holds the handle of every armed
    debounce timer. *)
Definition debounce_held (c : Client) : Prop :=
  Forall (fun tm => (handle tm < fresh (loop c))%nat) (queue (loop c))
  /\ NoDup (List.map handle (queue (loop c)))
  /\ Forall (fun tm => callback tm = DebounceElapsed
                       -> _reconnectDebounce c = Some (handle tm)) (queue (loop c)).
End Client.
Arguments Client number : clear implicits.
Arguments Action number : clear implicits.

End Binance.

(** ** Bittrex: one hub subscription per market, shared by trades and level2 updates *)
Module Bittrex.
Import Js Model.

(** The two Maps a method is handed. *)
Inductive Subs := TradeSubs | Level2UpdateSubs.

(** What [_connectCloudflare] resolves with. *)
Record Metadata := mkMetadata { cookie : string; user_agent : string }.

#[global] Instance Metadata_eq_dec : EqDecision Metadata.
Proof. solve_decision. Defined.

(** The promise cached in [_cloudflare]. *)
Inductive Promise :=
| Pending
| Fulfilled (metadata : Metadata)
| Rejected.

(** A value held in [_subCount]: an integer, NaN ([undefined - 1]), or the
    text [(member || 0) + 1] makes of a member of Object.prototype, the
    source of a built-in followed by 1s, which is no number. *)
Inductive Count :=
| Num (n : Z)
| NaN
| Text.

(** What [this._subCount[remote_id]] evaluates to: the counter the
    object holds, the member of Object.prototype it inherits under that
    name, or [undefined]. *)
Inductive Reading :=
| Own (count : Count)
| Member
| Missing.

Definition count_read (sc : gmap string Count) (k : string) : Reading :=
  match sc !! k with
  | Some count => Own count
  | None => if inherited k then Member else Missing
  end.

(** [this._subCount[remote_id] = count]: the accessor [__proto__] of
    Object.prototype ignores a number and a string, and every other name
    becomes a property of the object. *)
Definition count_write (k : string) (count : Count) (sc : gmap string Count)
  : gmap string Count :=
  if String.eqb k "__proto__" then sc else <[k := count]> sc.

(** [(count || 0) + 1]. *)
Definition incr (count : Reading) : Count :=
  match count with
  | Own (Num n) => Num (n + 1)
  | Own NaN | Missing => Num 1
  | Own Text | Member => Text
  end.

(** [count - 1]. *)
Definition decr (count : Reading) : Count :=
  match count with
  | Own (Num n) => Num (n - 1)
  | Own NaN | Own Text | Member | Missing => NaN
  end.

(** [count > 1]. *)
Definition count_gt1 (count : Reading) : bool :=
  match count with
  | Own (Num n) => 1 <? n
  | Own NaN | Own Text | Member | Missing => false
  end.

Definition count_truthy (count : Reading) : bool :=
  match count with
  | Own (Num n) => negb (n =? 0)
  | Own NaN | Missing => false
  | Own Text | Member => true
  end.

(** What was done to signalr clients (the package is external); a client
    is named by the order of its construction. *)
Inductive HubOp :=
| HubStart (wss : nat) (headers : Metadata)      (* new signalr.client(...), headers, .start() *)
| HubEnd (wss : nat)                             (* .end() *)
| HubCall (wss : nat) (hub method remote_id : string).   (* .call(hub, method, remote_id) *)

#[global] Instance HubOp_eq_dec : EqDecision HubOp.
Proof. solve_decision. Defined.


(** The closures handed to timers. *)
Inductive Callback :=
| RetryElapsed         (* the arrow function of [_onDisconnected] *)
| WatcherExpired.      (* the watcher's idle timer *)

(** What the class takes from moment and crypto.  moment reads the wall
    clock when it is handed [undefined] (and whenever else it sees fit), and
    what it does with a value that is no time is its own business: its
    result is a function of the clock and of the value, and may be thrown. *)
Class Libraries (number : Type) := {
  moment_utc_valueOf : number -> Value number -> Completion number;
      (* moment.utc(v).valueOf(), the wall clock reading the given time *)
  md5_hex : string -> string;
      (* crypto md5 of a string, in hex *)
}.

(** The wall clock of a run: the time it reads at the moment of the n-th
    call of moment. *)
Class Clock (number : Type) := {
  date_now : nat -> number;
}.

Section Client.
Context {number : Type} `{Number number} {Un : Unicode} `{Libraries number}
  {Clk : Clock number}.
Local Abbreviation Json := (Js.Json number).
Local Abbreviation Value := (Js.Value number).
Local Abbreviation Event := (Model.Event number).

Record Client := mkClient {
  _retryTimeoutMs : Z;
  _cloudflare : option Promise;
  _tradeSubs : Map string Market;
  _level2UpdateSubs : Map string Market;
  _watcher : Watcher.t;
  _wss : option nat;
  _subCount : option (gmap string Count);
  _reconnectHandle : option nat;
  loop : EventLoop Callback;
  emitted : list Event;
  hub : list HubOp;
  created : nat;
  handshakes : nat;
  awaiting : nat;
  rejections : nat;
  reads : nat;           (* the calls of moment made so far *)
}.

(** [new BittrexClient()]; [intervalMs] is the default interval of the
    watcher, which [new Watcher(this)] leaves to the missing class. *)
Definition constructor (intervalMs : Z) : Client :=
  {| _retryTimeoutMs := 15000;
     _cloudflare := None;
     _tradeSubs := []; _level2UpdateSubs := [];
     _watcher := Watcher.mk intervalMs None;
     _wss := None; _subCount := None; _reconnectHandle := None;
     loop := mkLoop 0 0 []; emitted := []; hub := []; created := 0;
     handshakes := 0; awaiting := 0; rejections := 0; reads := 0 |}.

Definition subs (which : Subs) (c : Client) : Map string Market :=
  match which with
  | TradeSubs => _tradeSubs c
  | Level2UpdateSubs => _level2UpdateSubs c
  end.

Definition set_cloudflare (p : option Promise) (c : Client) : Client :=
  mkClient (_retryTimeoutMs c) (p) (_tradeSubs c) (_level2UpdateSubs c) (_watcher c) (_wss c)
    (_subCount c) (_reconnectHandle c) (loop c) (emitted c) (hub c) (created c)
    (handshakes c) (awaiting c) (rejections c) (reads c).

Definition set_wss (w : option nat) (c : Client) : Client :=
  mkClient (_retryTimeoutMs c) (_cloudflare c) (_tradeSubs c) (_level2UpdateSubs c)
    (_watcher c) (w) (_subCount c) (_reconnectHandle c) (loop c) (emitted c) (hub c)
    (created c) (handshakes c) (awaiting c) (rejections c) (reads c).

Definition set_subCount (sc : option (gmap string Count)) (c : Client) : Client :=
  mkClient (_retryTimeoutMs c) (_cloudflare c) (_tradeSubs c) (_level2UpdateSubs c)
    (_watcher c) (_wss c) (sc) (_reconnectHandle c) (loop c) (emitted c) (hub c) (created c)
    (handshakes c) (awaiting c) (rejections c) (reads c).

Definition set_reconnectHandle (h : option nat) (l : EventLoop Callback) (c : Client) : Client :=
  mkClient (_retryTimeoutMs c) (_cloudflare c) (_tradeSubs c) (_level2UpdateSubs c)
    (_watcher c) (_wss c) (_subCount c) (h) (l) (emitted c) (hub c) (created c)
    (handshakes c) (awaiting c) (rejections c) (reads c).

Definition set_watcher (wl : Watcher.t * EventLoop Callback) (c : Client) : Client :=
  mkClient (_retryTimeoutMs c) (_cloudflare c) (_tradeSubs c) (_level2UpdateSubs c) (wl.1)
    (_wss c) (_subCount c) (_reconnectHandle c) (wl.2) (emitted c) (hub c) (created c)
    (handshakes c) (awaiting c) (rejections c) (reads c).

Definition set_loop (l : EventLoop Callback) (c : Client) : Client :=
  mkClient (_retryTimeoutMs c) (_cloudflare c) (_tradeSubs c) (_level2UpdateSubs c)
    (_watcher c) (_wss c) (_subCount c) (_reconnectHandle c) (l) (emitted c) (hub c)
    (created c) (handshakes c) (awaiting c) (rejections c) (reads c).

Definition push_emitted (e : Event) (c : Client) : Client :=
  mkClient (_retryTimeoutMs c) (_cloudflare c) (_tradeSubs c) (_level2UpdateSubs c)
    (_watcher c) (_wss c) (_subCount c) (_reconnectHandle c) (loop c) (emitted c ++ [e])
    (hub c) (created c) (handshakes c) (awaiting c) (rejections c) (reads c).

Definition push_hub (ops : list HubOp) (c : Client) : Client :=
  mkClient (_retryTimeoutMs c) (_cloudflare c) (_tradeSubs c) (_level2UpdateSubs c)
    (_watcher c) (_wss c) (_subCount c) (_reconnectHandle c) (loop c) (emitted c)
    (hub c ++ ops) (created c) (handshakes c) (awaiting c) (rejections c) (reads c).

Definition set_created (n : nat) (c : Client) : Client :=
  mkClient (_retryTimeoutMs c) (_cloudflare c) (_tradeSubs c) (_level2UpdateSubs c)
    (_watcher c) (_wss c) (_subCount c) (_reconnectHandle c) (loop c) (emitted c) (hub c) (n)
    (handshakes c) (awaiting c) (rejections c) (reads c).

Definition set_handshakes (n : nat) (c : Client) : Client :=
  mkClient (_retryTimeoutMs c) (_cloudflare c) (_tradeSubs c) (_level2UpdateSubs c)
    (_watcher c) (_wss c) (_subCount c) (_reconnectHandle c) (loop c) (emitted c) (hub c)
    (created c) (n) (awaiting c) (rejections c) (reads c).

Definition set_awaiting (n : nat) (c : Client) : Client :=
  mkClient (_retryTimeoutMs c) (_cloudflare c) (_tradeSubs c) (_level2UpdateSubs c)
    (_watcher c) (_wss c) (_subCount c) (_reconnectHandle c) (loop c) (emitted c) (hub c)
    (created c) (handshakes c) (n) (rejections c) (reads c).

Definition set_rejections (n : nat) (c : Client) : Client :=
  mkClient (_retryTimeoutMs c) (_cloudflare c) (_tradeSubs c) (_level2UpdateSubs c)
    (_watcher c) (_wss c) (_subCount c) (_reconnectHandle c) (loop c) (emitted c) (hub c)
    (created c) (handshakes c) (awaiting c) (n) (reads c).

Definition set_reads (n : nat) (c : Client) : Client :=
  mkClient (_retryTimeoutMs c) (_cloudflare c) (_tradeSubs c) (_level2UpdateSubs c)
    (_watcher c) (_wss c) (_subCount c) (_reconnectHandle c) (loop c) (emitted c) (hub c)
    (created c) (handshakes c) (awaiting c) (rejections c) n.

Definition with_subs (which : Subs) (m : Map string Market) (c : Client) : Client :=
  match which with
  | TradeSubs =>
      mkClient (_retryTimeoutMs c) (_cloudflare c) m (_level2UpdateSubs c) (_watcher c)
        (_wss c) (_subCount c) (_reconnectHandle c) (loop c) (emitted c) (hub c) (created c)
        (handshakes c) (awaiting c) (rejections c) (reads c)
  | Level2UpdateSubs =>
      mkClient (_retryTimeoutMs c) (_cloudflare c) (_tradeSubs c) m (_watcher c) (_wss c)
        (_subCount c) (_reconnectHandle c) (loop c) (emitted c) (hub c) (created c)
        (handshakes c) (awaiting c) (rejections c) (reads c)
  end.

(** [this.emit(name, payload)]; the watcher listens to the data events
    and marks the connection alive on each. *)
Definition emit (name : string) (payload : option (Payload number)) : M Client unit :=
  modify (push_emitted (mkEvent name payload));;
  if is_data name
  then modify (fun c => set_watcher (Watcher.markAlive WatcherExpired (_watcher c) (loop c)) c)
  else ret tt.

Definition watcher_start : M Client unit :=
  modify (fun c => set_watcher (Watcher.start WatcherExpired (_watcher c) (loop c)) c).

Definition watcher_stop : M Client unit :=
  modify (fun c => set_watcher (Watcher.stop (_watcher c) (loop c)) c).

(** [this._wss.call("CoreHub", method, remote_id)]: throws when [_wss] is undefined. *)
Definition wss_call (method remote_id : string) : M Client unit :=
  w <- gets _wss;;
  match w with
  | Some wss => modify (push_hub [HubCall wss "CoreHub" method remote_id])
  | None => throw TypeError
  end.

(** *** Connecting

    [_connect] is an async function: it runs to its [await] inside the
    caller and the rest runs as a microtask once [_cloudflare] settles. *)

Definition _connectCloudflare : M Client Promise :=
  modify (fun c => set_handshakes (S (handshakes c)) c);;
  ret Pending.

Definition _connect : M Client unit :=
  w <- gets _wss;;
  match w with
  | Some _ => ret tt
  | None =>
      cf <- gets _cloudflare;;
      (match cf with
       | None => p <- _connectCloudflare;; modify (set_cloudflare (Some p))
       | Some _ => ret tt
       end);;
      modify (fun c => set_awaiting (S (awaiting c)) c)
  end.

(** The rest of [_connect], after [await this._cloudflare]. *)
Definition _connect_resumed : M Client unit :=
  cf <- gets _cloudflare;;
  match cf with
  | Some (Fulfilled metadata) =>
      w <- gets _wss;;
      match w with
      | Some _ => ret tt
      | None =>
          wss <- gets created;;
          modify (set_created (S wss));;
          modify (set_wss (Some wss));;
          modify (push_hub [HubStart wss metadata])
      end
  | Some Rejected => modify (fun c => set_rejections (S (rejections c)) c)
  | Some Pending | None => ret tt
  end.

Fixpoint times (n : nat) (c : M Client unit) : M Client unit :=
  match n with
  | O => ret tt
  | S n' => c;; times n' c
  end.

(** The microtasks run once the current call has returned: every
    suspended [_connect] resumes if the promise has settled. *)
Definition microtasks : M Client unit :=
  cf <- gets _cloudflare;;
  match cf with
  | Some (Fulfilled _) | Some Rejected =>
      n <- gets awaiting;;
      modify (set_awaiting 0);;
      times n _connect_resumed
  | Some Pending | None => ret tt
  end.

(** A call from the event loop: the call itself, then the microtasks. *)
Definition job (c : M Client unit) : M Client unit :=
  fun s => match c s with
           | (s', r) => (exec microtasks s', r)
           end.

(** The callback of [cloudscraper.get]: [None] is an error. *)
Definition cloudflare_done (res : option Metadata) : M Client unit :=
  cf <- gets _cloudflare;;
  match cf with
  | Some Pending =>
      modify (set_cloudflare (Some match res with
                                   | Some metadata => Fulfilled metadata
                                   | None => Rejected
                                   end))
  | _ => ret tt
  end.

(** *** Public methods *)

Definition close (emitEvent : bool) : M Client unit :=
  watcher_stop;;
  w <- gets _wss;;
  (match w with
   | Some wss =>
       try_ignore (modify (push_hub [HubEnd wss]));;
       modify (set_wss None)
   | None => ret tt
   end);;
  if emitEvent then emit "closed" None else ret tt.

Definition reconnect (emitEvent : bool) : M Client unit :=
  close false;;
  _connect;;
  if emitEvent then emit "reconnected" None else ret tt.

(** *** Protected methods *)

Definition _resetSubCount : M Client unit := modify (set_subCount (Some ∅)).

(** [this._subCount[remote_id]] and [this._subCount[remote_id] = count]:
    both throw while [_subCount] is undefined. *)
Definition subCount_at (remote_id : string) : M Client Reading :=
  counts <- gets _subCount;;
  match counts with
  | Some sc => ret (count_read sc remote_id)
  | None => throw TypeError
  end.

Definition subCount_set (remote_id : string) (count : Count) : M Client unit :=
  counts <- gets _subCount;;
  match counts with
  | Some sc => modify (set_subCount (Some (count_write remote_id count sc)))
  | None => throw TypeError
  end.

Definition _sendSub (remote_id : string) : M Client unit :=
  (* increment market counter *)
  count <- subCount_at remote_id;;
  subCount_set remote_id (incr count);;
  (* if we have more than one sub, ignore the request *)
  count <- subCount_at remote_id;;
  if count_gt1 count then ret tt
  else
    (* initiate snapshot request *)
    l2 <- gets _level2UpdateSubs;;
    (if has remote_id l2 then wss_call "QueryExchangeState" remote_id else ret tt);;
    (* initiate the subscription *)
    wss_call "SubscribeToExchangeDeltas" remote_id.

Definition _sendUnsub (remote_id : string) : M Client unit :=
  (* decrement market count *)
  count <- subCount_at remote_id;;
  subCount_set remote_id (decr count);;
  (* if we still have subs, then leave channel open *)
  count <- subCount_at remote_id;;
  if count_truthy count then ret tt
  else wss_call "UnsubscribeToExchangeDeltas" remote_id.

Definition _subscribe (market : Market) (map : Subs) : M Client unit :=
  _connect;;
  let remote_id := id market in
  m <- gets (subs map);;
  if negb (has remote_id m)
  then
    modify (with_subs map (set remote_id market m));;
    w <- gets _wss;;
    match w with
    | Some _ => _sendSub remote_id
    | None => ret tt
    end
  else ret tt.

Definition _unsubscribe (market : Market) (map : Subs) : M Client unit :=
  let remote_id := id market in
  m <- gets (subs map);;
  if has remote_id m
  then
    modify (with_subs map (delete remote_id m));;
    w <- gets _wss;;
    match w with
    | Some _ => _sendUnsub remote_id
    | None => ret tt
    end
  else ret tt.

Definition subscribeTrades (market : Market) := _subscribe market TradeSubs.
Definition subscribeLevel2Updates (market : Market) := _subscribe market Level2UpdateSubs.
Definition unsubscribeTrades (market : Market) := _unsubscribe market TradeSubs.
Definition unsubscribeLevel2Updates (market : Market) := _unsubscribe market Level2UpdateSubs.

(** *** Service handlers of the signalr client *)

Definition _onConnected : M Client unit :=
  modify (fun c => set_reconnectHandle (_reconnectHandle c)
                     (clearTimeout (_reconnectHandle c) (loop c)) c);;
  emit "connected" None;;
  modify (set_subCount (Some ∅));;
  watcher_start;;
  trades <- gets _tradeSubs;;
  for_of (keys trades) _sendSub;;
  updates <- gets _level2UpdateSubs;;
  for_of (keys updates) _sendSub.

Definition _onDisconnected : M Client unit :=
  modify (fun c => set_reconnectHandle (_reconnectHandle c)
                     (clearTimeout (_reconnectHandle c) (loop c)) c);;
  watcher_stop;;
  emit "disconnected" None;;
  modify (fun c =>
    let '(h, l) := setTimeout RetryElapsed (_retryTimeoutMs c) (loop c) in
    set_reconnectHandle (Some h) l c).

(** *** Inbound frames *)

(** [map.has(v)], [map.get(v)] for a value read off a frame: the keys
    are strings, so only a string can be found. *)
Definition has_value (v : Value) (m : Map string Market) : bool :=
  match v with
  | Some (JStr s) => has s m
  | _ => false
  end.

Definition get_value (v : Value) (m : Map string Market) : option Market :=
  match v with
  | Some (JStr s) => get s m
  | _ => None
  end.

Definition deref (market : option Market) : M Client Market :=
  match market with
  | Some m => ret m
  | None => throw TypeError
  end.

(** [moment.utc(v).valueOf()]: a call of the library, at the time the
    wall clock reads then. *)
Definition moment_utc (v : Value) : M Client number :=
  n <- gets reads;;
  modify (set_reads (S n));;
  match moment_utc_valueOf (date_now n) v with
  | Returned ms => ret ms
  | Thrown e => throw e
  end.

Definition _getTradeId (msg : Json) : M Client string :=
  timeStamp <- field (Some msg) "TimeStamp";;
  ms <- moment_utc timeStamp;;
  orderType <- field (Some msg) "OrderType";;
  let buysell := if is_string orderType "BUY" then "1" else "0" in
  rate <- field (Some msg) "Rate";;
  price <- toFixed rate 8;;
  quantity <- field (Some msg) "Quantity";;
  amount <- toFixed quantity 8;;
  let preimage := num_toString ms +:+ ":" +:+ buysell +:+ ":" +:+ price +:+ ":" +:+ amount in
  let tradeId := md5_hex preimage in
  ret tradeId.

Definition _constructTradeFromMessage (msg : Json) (marketName : Value)
  : M Client (Trade number) :=
  market <- gets (fun c => get_value marketName (_tradeSubs c));;
  tradeId <- _getTradeId msg;;
  timeStamp <- field (Some msg) "TimeStamp";;
  unix <- moment_utc timeStamp;;
  rate <- field (Some msg) "Rate";;
  price <- toFixed rate 8;;
  quantity <- field (Some msg) "Quantity";;
  amount <- toFixed quantity 8;;
  orderType <- field (Some msg) "OrderType";;
  let side := if is_string orderType "BUY" then "buy" else "sell" in
  m <- deref market;;
  ret (mkTrade "Bittrex" (base m) (quote m) (Some (JStr tradeId)) (Some (JNum unix))
         (Some (JStr side)) (Some (JStr price)) (Some (JStr amount))).

(** [p => new Level2Point(p.Rate.toFixed(8), p.Quantity.toFixed(8), undefined, { type: p.Type })]. *)
Definition point (p : Json) : M Client (Level2Point number) :=
  rate <- field (Some p) "Rate";;
  price <- toFixed rate 8;;
  quantity <- field (Some p) "Quantity";;
  size <- toFixed quantity 8;;
  type <- field (Some p) "Type";;
  ret (mkLevel2Point (Some (JStr price)) (Some (JStr size)) undefined (Some type)).

Definition level2_of (msg : Json) : M Client (Level2 number) :=
  marketName <- field (Some msg) "MarketName";;
  market <- gets (fun c => get_value marketName (_level2UpdateSubs c));;
  sequenceId <- field (Some msg) "Nounce";;
  buys <- field (Some msg) "Buys";;
  ps <- elements buys;;
  bids <- map_m point ps;;
  sells <- field (Some msg) "Sells";;
  ps <- elements sells;;
  asks <- map_m point ps;;
  m <- deref market;;
  ret (mkLevel2 "Bittrex" (base m) (quote m) sequenceId undefined asks bids).

Definition _constructLevel2Snapshot (msg : Json) : M Client (Payload number) :=
  r <- level2_of msg;; ret (ALevel2Snapshot r).

Definition _constructLevel2Update (msg : Json) : M Client (Payload number) :=
  r <- level2_of msg;; ret (ALevel2Update r).

(** [result.MarketName = remote_id] (class bodies are strict code: the
    assignment throws unless [result] is an object; an array result
    keeps the property beside its elements, which JSON cannot show, and
    is left out). *)
Fixpoint set_prop (k : string) (v : Json) (props : list (string * Json))
  : list (string * Json) :=
  match props with
  | [] => [(k, v)]
  | (k', v') :: rest =>
      if String.eqb k k' then (k', v) :: rest else (k', v') :: set_prop k v rest
  end.

(** The callback handed to [.done] for the QueryExchangeState call of
    [_sendSub]: [err] is whether the call failed. *)
Definition _onExchangeState (remote_id : string) (err : bool) (result : Value)
  : M Client unit :=
  if err then ret tt
  else
    match result with
    | Some (JObj props) =>
        let result := JObj (set_prop "MarketName" (JStr remote_id) props) in
        snapshot <- _constructLevel2Snapshot result;;
        emit "l2snapshot" (Some snapshot)
    | _ => throw TypeError
    end.

(** [_onMessage(raw)]: [utf8Data] is [None] when [raw.utf8Data] is falsy,
    and otherwise what [JSON.parse(raw.utf8Data)] returned. *)
Definition _onMessage (utf8Data : option Json) : M Client unit :=
  match utf8Data with
  | None => ret tt
  | Some raw =>
      messages <- field (Some raw) "M";;
      if negb (truthy messages) then ret tt
      else
        msgs <- iterate messages;;
        for_of msgs (fun msg =>
          method <- field (Some msg) "M";;
          if is_string method "updateExchangeState"
          then
            args <- field (Some msg) "A";;
            datas <- elements args;;
            for_of datas (fun data =>
              marketName <- field (Some data) "MarketName";;
              trades <- gets _tradeSubs;;
              (if has_value marketName trades
               then
                 fills <- field (Some data) "Fills";;
                 fs <- elements fills;;
                 for_of fs (fun fill =>
                   trade <- _constructTradeFromMessage fill marketName;;
                   emit "trade" (Some (ATrade trade)))
               else ret tt);;
              updates <- gets _level2UpdateSubs;;
              if has_value marketName updates
              then
                l2update <- _constructLevel2Update data;;
                emit "l2update" (Some l2update)
              else ret tt)
          else ret tt)
  end.

(** *** The event loop around the client *)

(** What a timer runs when it fires.  The retry timer runs the arrow
    function of [_onDisconnected]; the watcher's timer calls [reconnect()]
    and arms itself again. *)
Definition fire (cb : Callback) : M Client unit :=
  match cb with
  | RetryElapsed => reconnect false
  | WatcherExpired => reconnect true;; watcher_start
  end.

(** Let the clock reach [t], running every timer that falls due on the
    way, earliest first.  [None]: more than [fuel] timers fell due. *)
Fixpoint advance (fuel : nat) (t : Z) (c : Client) : option Client :=
  match next_due t (loop c) with
  | None => Some (set_loop (set_clock t (loop c)) c)
  | Some tm =>
      match fuel with
      | O => None
      | S fuel' =>
          advance fuel' t (exec (job (fire (callback tm))) (set_loop (dequeue tm (loop c)) c))
      end
  end.

(** *** Vocabulary of the statements *)

(** The counter [_subCount] holds as its own property [remote_id]. *)
Definition count_of (c : Client) (remote_id : string) : option Count :=
  match _subCount c with
  | Some sc => sc !! remote_id
  | None => None
  end.

Definition subscribe_call (wss : nat) (remote_id : string) : HubOp :=
  HubCall wss "CoreHub" "SubscribeToExchangeDeltas" remote_id.

Definition unsubscribe_call (wss : nat) (remote_id : string) : HubOp :=
  HubCall wss "CoreHub" "UnsubscribeToExchangeDeltas" remote_id.

Definition query_call (wss : nat) (remote_id : string) : HubOp :=
  HubCall wss "CoreHub" "QueryExchangeState" remote_id.

Definition other (map : Subs) : Subs :=
  match map with
  | TradeSubs => Level2UpdateSubs
  | Level2UpdateSubs => TradeSubs
  end.



(** The promise is rejected and nothing waits for it. *)
Definition handshake_failed (c : Client) : Prop :=
  _cloudflare c = Some Rejected /\ _wss c = None /\ awaiting c = 0%nat.

(** The calls that reach [_connect]. *)
Inductive Trigger :=
| TriggerSubscribe (market : Market) (map : Subs)
| TriggerReconnect (emitEvent : bool)
| TriggerRetry.

Definition trigger (t : Trigger) : M Client unit :=
  match t with
  | TriggerSubscribe market map => _subscribe market map
  | TriggerReconnect emitEvent => reconnect emitEvent
  | TriggerRetry => fire RetryElapsed
  end.
(** *** The life of a client *)

(** What happens to a client: its owner calls a method, the handshake or
    a hub call completes, the signalr client reports an event, time passes
    and the timers that fall due run.  Each is one job of the event loop. *)
Inductive Action :=
| Subscribe (map : Subs) (market : Market)
| Unsubscribe (map : Subs) (market : Market)
| Reconnect (emitEvent : bool)
| Close (emitEvent : bool)
| Handshake (res : option Metadata)
| HubConnected
| HubDisconnected
| HubMessage (utf8Data : option Json)
| ExchangeState (remote_id : string) (err : bool) (result : Value)
| Elapse (ms : Z).

Definition perform (fuel : nat) (a : Action) (c : Client) : option Client :=
  match a with
  | Subscribe map market => Some (exec (job (_subscribe market map)) c)
  | Unsubscribe map market => Some (exec (job (_unsubscribe market map)) c)
  | Reconnect emitEvent => Some (exec (job (reconnect emitEvent)) c)
  | Close emitEvent => Some (exec (job (close emitEvent)) c)
  | Handshake res => Some (exec (job (cloudflare_done res)) c)
  | HubConnected => Some (exec (job _onConnected) c)
  | HubDisconnected => Some (exec (job _onDisconnected) c)
  | HubMessage utf8Data => Some (exec (job (_onMessage utf8Data)) c)
  | ExchangeState remote_id err result =>
      Some (exec (job (_onExchangeState remote_id err result)) c)
  | Elapse ms => advance fuel (now (loop c) + ms) c
  end.

Fixpoint play (fuel : nat) (actions : list Action) (c : Client) : option Client :=
  match actions with
  | [] => Some c
  | a :: rest =>
      match perform fuel a c with
      | Some c' => play fuel rest c'
      | None => None
      end
  end.

(** The actions of a life in which the hub has not reported [connected]. *)
Definition before_connected (a : Action) : bool :=
  match a with
  | HubConnected => false
  | _ => true
  end.

(** The signalr client a log of operations leaves started, [live] being
    started at its start.  [None]: the log starts a client while another is
    live, or ends or calls a client that is not the live one. *)
Fixpoint replay (live : option nat) (ops : list HubOp) : option (option nat) :=
  match ops with
  | [] => Some live
  | HubStart wss _ :: rest =>
      match live with
      | None => replay (Some wss) rest
      | Some _ => None
      end
  | HubEnd wss :: rest =>
      match live with
      | Some wss' => if Nat.eqb wss wss' then replay None rest else None
      | None => None
      end
  | HubCall wss _ _ _ :: rest =>
      match live with
      | Some wss' => if Nat.eqb wss wss' then replay live rest else None
      | None => None
      end
  end.

(** The armed timers that run the arrow function of [_onDisconnected]. *)
Definition retries (c : Client) : list (Timer Callback) :=
  List.filter (fun tm => match callback tm with
                         | RetryElapsed => true
                         | WatcherExpired => false
                         end) (queue (loop c)).

(** *** Vocabulary of the statements about frames and lives *)

(** An element of [A] names a market that neither Map holds. *)
Definition foreign (c : Client) (data : Json) : bool :=
  match field_of data "MarketName" with
  | Some marketName =>
      (negb (has_value marketName (_tradeSubs c))
       && negb (has_value marketName (_level2UpdateSubs c)))%bool
  | None => false
  end.

(** A hub message that is no updateExchangeState, or one whose every
    element is foreign. *)
Definition quiet (c : Client) (msg : Json) : bool :=
  match field_of msg "M" with
  | Some method =>
      if is_string method "updateExchangeState"
      then match field_of msg "A" with
           | Some (Some (JArr datas)) => forallb (foreign c) datas
           | _ => false
           end
      else true
  | None => false
  end.

(** A fill whose rate and quantity are numbers, and the trade
    [_constructTradeFromMessage] builds from it for a market. *)
Definition filled (fill : Json) : bool :=
  match field_of fill "Rate", field_of fill "Quantity" with
  | Some (Some (JNum _)), Some (Some (JNum _)) => true
  | _, _ => false
  end.

(** moment reads the time stamp of the fill as [ms], whatever the wall
    clock reads. *)
Definition stamped (fill : Json) (ms : number) : Prop :=
  forall now,
    moment_utc_valueOf now (default undefined (field_of fill "TimeStamp")) = Returned ms.

Definition trade_of (market : Market) (fill : Json) (ms : number) : Trade number :=
  let prop name := default undefined (field_of fill name) in
  let fixed8 v := match v with Some (JNum n) => num_toFixed n 8 | _ => "" end in
  let buy := is_string (prop "OrderType") "BUY" in
  mkTrade "Bittrex" (base market) (quote market)
    (Some (JStr (md5_hex (num_toString ms +:+ ":"
                          +:+ (if buy then "1" else "0") +:+ ":"
                          +:+ fixed8 (prop "Rate") +:+ ":" +:+ fixed8 (prop "Quantity")))))
    (Some (JNum ms))
    (Some (JStr (if buy then "buy" else "sell")))
    (Some (JStr (fixed8 (prop "Rate")))) (Some (JStr (fixed8 (prop "Quantity")))).

(** An entry of [Buys] or [Sells] whose rate and quantity are numbers,
    and the point built from it. *)
Definition quoted (p : Json) : bool :=
  match field_of p "Rate", field_of p "Quantity" with
  | Some (Some (JNum _)), Some (Some (JNum _)) => true
  | _, _ => false
  end.

Definition entry_of (p : Json) : Level2Point number :=
  let prop name := default undefined (field_of p name) in
  let fixed8 v := match v with Some (JNum n) => num_toFixed n 8 | _ => "" end in
  mkLevel2Point (Some (JStr (fixed8 (prop "Rate")))) (Some (JStr (fixed8 (prop "Quantity"))))
    undefined (Some (prop "Type")).

(** A handshake was made exactly when [_cloudflare] holds its promise. *)
Definition handshake_cached (c : Client) : Prop :=
  handshakes c = match _cloudflare c with
                 | Some _ => 1%nat
                 | None => 0%nat
                 end.

(** The log of hub operations is in order, and the signalr client it
    leaves started is the one [_wss] holds. *)
Definition one_hub (c : Client) : Prop := replay None (hub c) = Some (_wss c).

(** The handles of the armed timers were handed out by [setTimeout] and
    are distinct, and [_reconnectHandle] holds the handle of every armed
    retry timer. *)
Definition retry_held (c : Client) : Prop :=
  Forall (fun tm => (handle tm < fresh (loop c))%nat) (queue (loop c))
  /\ NoDup (List.map handle (queue (loop c)))
  /\ Forall (fun tm => callback tm = RetryElapsed
                       -> _reconnectHandle c = Some (handle tm)) (queue (loop c)).
End Client.
Arguments Client number : clear implicits.
Arguments Action number : clear implicits.

End Bittrex.

(** ** Bitfinex: channel ids assigned by acknowledgment *)
Module Bitfinex.
Import Js Model.

Section Client.
Context {number : Type} `{Number number} {Un : Unicode}.
Local Abbreviation Json := (Js.Json number).
Local Abbreviation Value := (Js.Value number).
Local Abbreviation Event := (Model.Event number).

(** Modelled from the spec: the class BasicClient of [basic-client.js] is
    not among the sources; of it the record keeps what [_onMessage] and its
    handlers touch, the subscription Maps of spec 3 (from the wire key to the
    Market) and the events handed to [emit].

    [_channels] is the plain object of the constructor: the properties it
    holds, from their keys to the acknowledgment frames, and its prototype,
    which is Object.prototype ([None]) until an acknowledgment whose chanId
    reads "__proto__" installs itself in its place (its properties are kept). *)
Record Client := mkClient {
  _channels : gmap string Json;
  _tradeSubs : Map string Market;
  _level2UpdateSubs : Map string Market;
  _level3UpdateSubs : Map string Market;
  emitted : list Event;
  _channels_prototype : option (list (string * Json));
}.

Definition constructor : Client :=
  {| _channels := ∅; _tradeSubs := []; _level2UpdateSubs := [];
     _level3UpdateSubs := []; emitted := []; _channels_prototype := None |}.

Definition set_channels (ch : gmap string Json) (c : Client) : Client :=
  mkClient ch (_tradeSubs c) (_level2UpdateSubs c) (_level3UpdateSubs c) (emitted c)
    (_channels_prototype c).

Definition set_prototype (proto : option (list (string * Json))) (c : Client) : Client :=
  mkClient (_channels c) (_tradeSubs c) (_level2UpdateSubs c) (_level3UpdateSubs c)
    (emitted c) proto.

Definition with_emitted (e : Event) (c : Client) : Client :=
  mkClient (_channels c) (_tradeSubs c) (_level2UpdateSubs c) (_level3UpdateSubs c)
    (emitted c ++ [e]) (_channels_prototype c).

Definition emit (name : string) (payload : option (Payload number)) : M Client unit :=
  modify (with_emitted (mkEvent name payload)).

(** What [this._channels[key]] evaluates to: a value of JSON or
    [undefined], or a built-in (a member of Object.prototype, or
    Object.prototype itself). *)
Inductive Slot :=
| Data (v : Value)
| Builtin.

(** A built-in is an object, and has none of the properties the class reads. *)
Definition slot_truthy (slot : Slot) : bool :=
  match slot with
  | Data v => truthy v
  | Builtin => true
  end.

Definition slot_field (slot : Slot) (name : string) : M Client Value :=
  match slot with
  | Data v => field v name
  | Builtin => ret undefined
  end.

(** The property is looked for in the object, then in the object installed
    as its prototype, then in Object.prototype, whose accessor [__proto__]
    gives the prototype of the object. *)
Definition lookup (key : string) (c : Client) : Slot :=
  match _channels c !! key with
  | Some v => Data (Some v)
  | None =>
      match _channels_prototype c with
      | Some props =>
          match assoc_prop key props with
          | Some v => Data (Some v)
          | None =>
              if String.eqb key "__proto__" then Data (Some (JObj props))
              else if inherited key then Builtin
              else Data undefined
          end
      | None => if inherited key then Builtin else Data undefined
      end
  end.

(** [this._channels[v]]. *)
Definition channel_of (v : Value) : M Client Slot :=
  key <- ToPropertyKey v;;
  gets (lookup key).

(** [this._channels[key] = msg].  Every key but "__proto__" becomes a
    property of the object.  So does "__proto__" when the object, or the one
    installed as its prototype, holds a property of that name; otherwise the
    assignment reaches the accessor of Object.prototype, which installs [msg]
    as the prototype of the object.  ([msg] is a frame whose [event] is
    "subscribed": an object.) *)
Definition assign (key : string) (msg : Json) (c : Client) : Client :=
  if negb (String.eqb key "__proto__")
  then set_channels (<[key := msg]> (_channels c)) c
  else
    let held :=
      match _channels c !! key, _channels_prototype c with
      | Some _, _ => true
      | None, Some props =>
          match assoc_prop key props with
          | Some _ => true
          | None => false
          end
      | None, None => false
      end in
    if held then set_channels (<[key := msg]> (_channels c)) c
    else match msg with
         | JObj props => set_prototype (Some props) c
         | _ => c
         end.

Definition get_value (v : Value) (m : Map string Market) : option Market :=
  match v with
  | Some (JStr s) => get s m
  | _ => None
  end.

Definition deref (market : option Market) : M Client Market :=
  match market with
  | Some m => ret m
  | None => throw TypeError
  end.

(** [Math.abs(v).toFixed(8)] and [v > 0]: the calls, which convert [v] to
    a number, and what they give when the conversion returns. *)
Definition abs_fixed8 (v : Value) : Value :=
  Some (JStr (num_toFixed (num_abs (to_number v)) 8)).

Definition positive (v : Value) : bool := num_gt0 (to_number v).

Definition Math_abs_toFixed8 (v : Value) : M Client Value :=
  n <- ToNumber v;;
  ret (Some (JStr (num_toFixed (num_abs n) 8))).

Definition greater_than_0 (v : Value) : M Client bool :=
  n <- ToNumber v;;
  ret (num_gt0 n).

Definition fixed (v : Value) (d : nat) : M Client Value :=
  s <- toFixed v d;; ret (Some (JStr s)).

Definition _onTradeMessage (msg : Json) : M Client unit :=
  elems <- iterate (Some msg);;
  let chanId := elems !! 0%nat in
  let id := elems !! 3%nat in
  let unix := elems !! 4%nat in
  let price := elems !! 5%nat in
  let amount := elems !! 6%nat in
  channel <- channel_of chanId;;
  remote_id <- slot_field channel "pair";;
  market <- gets (fun c => get_value remote_id (_tradeSubs c));;
  m <- deref market;;
  let trade := mkTrade "Bitfinex" (base m) (quote m) id unix undefined price amount in
  emit "trade" (Some (ATrade trade)).

(** One turn of the loop of [_onLevel2Snapshot]. *)
Definition level2_entry (acc : list (Level2Point number) * list (Level2Point number))
  (val : Json) : M Client (list (Level2Point number) * list (Level2Point number)) :=
  v0 <- index (Some val) 0;;
  price <- fixed v0 8;;
  v2 <- index (Some val) 2;;
  size <- Math_abs_toFixed8 v2;;
  v1 <- index (Some val) 1;;
  count <- fixed v1 0;;
  let result := mkLevel2Point price size count None in
  bid <- greater_than_0 v2;;
  if bid then ret ((acc.1 ++ [result])%list, acc.2)
  else ret (acc.1, (acc.2 ++ [result])%list).

Fixpoint fold_m {A B} (f : A -> B -> M Client A) (acc : A) (xs : list B) : M Client A :=
  match xs with
  | [] => ret acc
  | x :: rest => acc' <- f acc x;; fold_m f acc' rest
  end.

Definition _onLevel2Snapshot (msg : Json) : M Client unit :=
  m0 <- index (Some msg) 0;;
  channel <- channel_of m0;;
  remote_id <- slot_field channel "pair";;
  market <- gets (fun c => get_value remote_id (_level2UpdateSubs c));;
  m1 <- index (Some msg) 1;;
  vals <- iterate m1;;
  sides <- fold_m level2_entry ([], []) vals;;
  m <- deref market;;
  let result := mkLevel2 "Bitfinex" (base m) (quote m) undefined undefined sides.2 sides.1 in
  emit "l2snapshot" (Some (ALevel2Snapshot result)).

Definition _onLevel2Update (msg : Json) : M Client unit :=
  m0 <- index (Some msg) 0;;
  channel <- channel_of m0;;
  remote_id <- slot_field channel "pair";;
  market <- gets (fun c => get_value remote_id (_level2UpdateSubs c));;
  m1 <- index (Some msg) 1;;
  _ <- field m1 "toFixed";;
  price <- fixed m1 8;;
  m3 <- index (Some msg) 3;;
  size <- Math_abs_toFixed8 m3;;
  m2 <- index (Some msg) 2;;
  count <- fixed m2 0;;
  let point := mkLevel2Point price size count None in
  bid <- greater_than_0 m3;;
  let bids := if bid then [point] else [] in
  let asks := if bid then [] else [point] in
  m <- deref market;;
  let update := mkLevel2 "Bitfinex" (base m) (quote m) undefined undefined asks bids in
  emit "l2update" (Some (ALevel2Update update)).

(** One turn of the [forEach] of [_onLevel3Snapshot]. *)
Definition level3_entry (acc : list (Level3Point number) * list (Level3Point number))
  (p : Json) : M Client (list (Level3Point number) * list (Level3Point number)) :=
  p0 <- index (Some p) 0;;
  p1 <- index (Some p) 1;;
  price <- fixed p1 8;;
  p2 <- index (Some p) 2;;
  size <- Math_abs_toFixed8 p2;;
  let point := mkLevel3Point p0 price size in
  bid <- greater_than_0 p2;;
  if bid then ret ((acc.1 ++ [point])%list, acc.2)
  else ret (acc.1, (acc.2 ++ [point])%list).

Definition _onLevel3Snapshot (msg : Json) (channel : Slot) : M Client unit :=
  remote_id <- slot_field channel "pair";;
  market <- gets (fun c => get_value remote_id (_level3UpdateSubs c));;
  m1 <- index (Some msg) 1;;
  ps <- elements m1;;
  sides <- fold_m level3_entry ([], []) ps;;
  m <- deref market;;
  let result := mkLevel3 "Bitfinex" (base m) (quote m) sides.2 sides.1 in
  emit "l3snapshot" (Some (ALevel3Snapshot result)).

Definition _onLevel3Update (msg : Json) (channel : Slot) : M Client unit :=
  remote_id <- slot_field channel "pair";;
  market <- gets (fun c => get_value remote_id (_level3UpdateSubs c));;
  m1 <- index (Some msg) 1;;
  m2 <- index (Some msg) 2;;
  price <- fixed m2 8;;
  m3 <- index (Some msg) 3;;
  size <- Math_abs_toFixed8 m3;;
  let point := mkLevel3Point m1 price size in
  bid <- greater_than_0 m3;;
  let bids := if bid then [point] else [] in
  let asks := if bid then [] else [point] in
  m <- deref market;;
  let result := mkLevel3 "Bitfinex" (base m) (quote m) asks bids in
  emit "l3update" (Some (ALevel3Update result)).

(** [_onMessage(raw)], on [msg = JSON.parse(raw)]. *)
Definition _onMessage (msg : Json) : M Client unit :=
  (* capture channel metadata *)
  event <- field (Some msg) "event";;
  if is_string event "subscribed"
  then
    chanId <- field (Some msg) "chanId";;
    key <- ToPropertyKey chanId;;
    modify (assign key msg)
  else
    (* lookup channel *)
    m0 <- index (Some msg) 0;;
    channel <- channel_of m0;;
    if negb (slot_truthy channel) then ret tt
    else
      (* ignore heartbeats *)
      m1 <- index (Some msg) 1;;
      if is_string m1 "hb" then ret tt
      else
        kind <- slot_field channel "channel";;
        prec <- slot_field channel "prec";;
        (* trades *)
        if (is_string kind "trades" && is_string m1 "tu")%bool
        then _onTradeMessage msg
        (* level3 *)
        else if (is_string kind "book" && is_string prec "R0")%bool
        then (if isArray m1 then _onLevel3Snapshot msg channel else _onLevel3Update msg channel)
        (* level2 *)
        else if is_string kind "book"
        then (if isArray m1 then _onLevel2Snapshot msg else _onLevel2Update msg)
        else ret tt.

(** *** Vocabulary of the statements *)

(** The frame is a 'subscribed' acknowledgment. *)
Definition is_ack (msg : Json) : bool :=
  match field_of msg "event" with
  | Some event => is_string event "subscribed"
  | None => false
  end.

(** The frame is a heartbeat: its second element is "hb". *)
Definition is_heartbeat (msg : Json) : bool :=
  match index_of msg 1 with
  | Some m1 => is_string m1 "hb"
  | None => false
  end.

(** The leading element of the frame converts to a property key. *)
Definition keyed (msg : Json) : bool :=
  match index_of msg 0 with
  | Some m0 => convertible m0
  | None => false
  end.

(** The leading channel id of the frame has no entry in the registry:
    [this._channels[msg[0]]] is falsy or a built-in. *)
Definition unregistered (c : Client) (msg : Json) : bool :=
  match index_of msg 0 with
  | Some m0 =>
      match lookup (property_key m0) c with
      | Data v => negb (truthy v)
      | Builtin => true
      end
  | None => false
  end.

(** A call left the registry and the Maps as they were. *)
Definition kept (c c' : Client) : Prop :=
  _channels c' = _channels c /\ _channels_prototype c' = _channels_prototype c
  /\ _tradeSubs c' = _tradeSubs c
  /\ _level2UpdateSubs c' = _level2UpdateSubs c /\ _level3UpdateSubs c' = _level3UpdateSubs c.

(** An entry [price, count, amount] of a book snapshot whose price and
    count are numbers and whose amount converts to a number, the side
    [_onLevel2Snapshot] files it under and the point it builds from it. *)
Definition priced (val : Json) : bool :=
  match index_of val 0, index_of val 1, index_of val 2 with
  | Some (Some (JNum _)), Some (Some (JNum _)), Some amount => convertible amount
  | _, _, _ => false
  end.

Definition is_bid (val : Json) : bool := positive (default undefined (index_of val 2)).

Definition book_point (val : Json) : Level2Point number :=
  let fixed_at i d :=
    match default undefined (index_of val i) with
    | Some (JNum n) => Some (JStr (num_toFixed n d))
    | _ => undefined
    end in
  mkLevel2Point (fixed_at 0%nat 8%nat) (abs_fixed8 (default undefined (index_of val 2)))
    (fixed_at 1%nat 0%nat) None.
End Client.
Arguments Client number : clear implicits.

(** *** Outbound frames *)
Section Outbound.
Context {number : Type} `{Number number} {Un : Unicode}.
Local Abbreviation Json := (Js.Json number).
Local Abbreviation Value := (Js.Value number).

(** Modelled from the spec: [_wss] is the socket BasicClient holds, the
    ResilientSocket of spec 4.1, which is not among the sources.  It is
    kept beside the client as the frames handed to its [send], oldest first,
    each as the value handed to [JSON.stringify]; [None] is a client that
    holds no socket. *)
Record Wired := mkWired { client : Client number; _wss : option (list Json) }.

(** [this._wss.send(JSON.stringify(frame))]. *)
Definition wss_send (frame : Json) : M Wired unit :=
  fun w => match _wss w with
           | Some frames => (mkWired (client w) (Some (frames ++ [frame])%list), Returned tt)
           | None => (w, Thrown TypeError)
           end.

Definition _sendSubTrades (remote_id : string) : M Wired unit :=
  wss_send (JObj [("event", JStr "subscribe"); ("channel", JStr "trades");
                  ("pair", JStr remote_id)]).

Definition _sendSubLevel2Updates (remote_id : string) : M Wired unit :=
  wss_send (JObj [("event", JStr "subscribe"); ("channel", JStr "book");
                  ("pair", JStr remote_id); ("length", JStr "100")]).

Definition _sendSubLevel3Updates (remote_id : string) : M Wired unit :=
  wss_send (JObj [("event", JStr "subscribe"); ("channel", JStr "book");
                  ("pair", JStr remote_id); ("prec", JStr "R0"); ("length", JStr "100")]).

Definition _sendUnsubscribe (chanId : Value) : M Wired unit :=
  match chanId with
  | Some id =>
      if truthy chanId
      then wss_send (JObj [("event", JStr "unsubscribe"); ("chanId", id)])
      else ret tt
  | None => ret tt
  end.

(** [Object.values(this._channels)] lists the values of the keys that are
    array indices by ascending index, then those of the other keys as the
    keys were created.  The registry keeps no order of creation: the
    methods that walk it are handed the listing, and [enumerates] says of a
    listing that it lists the registry, in whatever order. *)
Definition enumerates (values : list Json) (c : Client number) : Prop :=
  values ≡ₚ (map_to_list (_channels c)).*2.

(** [_findChannel(type, remote_id)], walking [values]. *)
Fixpoint _findChannel (values : list Json) (type remote_id : string) : M Wired Value :=
  match values with
  | [] => ret undefined
  | chan :: rest =>
      pair <- field (Some chan) "pair";;
      if is_string pair remote_id
      then
        channel <- field (Some chan) "channel";;
        prec <- field (Some chan) "prec";;
        if (String.eqb type "trades" && is_string channel "trades")%bool
        then field (Some chan) "chanId"
        else if (String.eqb type "level2updates" && is_string channel "book"
                 && negb (is_string prec "R0"))%bool
        then field (Some chan) "chanId"
        else if (String.eqb type "level3updates" && is_string channel "book"
                 && is_string prec "R0")%bool
        then field (Some chan) "chanId"
        else _findChannel rest type remote_id
      else _findChannel rest type remote_id
  end.

Definition _sendUnsubTrades (values : list Json) (remote_id : string) : M Wired unit :=
  chanId <- _findChannel values "trades" remote_id;;
  _sendUnsubscribe chanId.

Definition _sendUnsubLevel2Updates (values : list Json) (remote_id : string) : M Wired unit :=
  chanId <- _findChannel values "level2updates" remote_id;;
  _sendUnsubscribe chanId.

Definition _sendUnsubLevel3Updates (values : list Json) (remote_id : string) : M Wired unit :=
  chanId <- _findChannel values "level3updates" remote_id;;
  _sendUnsubscribe chanId.

(** *** Vocabulary of the statements about outbound frames *)

(** Whether [_findChannel] stops at a channel: its pair is [remote_id] and
    its kind is the one [type] asks for. *)
Definition serves (type remote_id : string) (chan : Json) : bool :=
  let prop name := default undefined (field_of chan name) in
  (is_string (prop "pair") remote_id
   && ((String.eqb type "trades" && is_string (prop "channel") "trades")
       || (String.eqb type "level2updates" && is_string (prop "channel") "book"
           && negb (is_string (prop "prec") "R0"))
       || (String.eqb type "level3updates" && is_string (prop "channel") "book"
           && is_string (prop "prec") "R0")))%bool.

(** The frame [_sendUnsubscribe] sends for a channel id. *)
Definition unsubscribe_frame (id : Json) : Json :=
  JObj [("event", JStr "unsubscribe"); ("chanId", id)].
End Outbound.
Arguments Wired number : clear implicits.

End Bitfinex.

(** ** Integral numbers

    The doubles that hold an integer, with NaN: enough to run the clients
    on concrete frames whose numbers are sequence ids, channel ids and
    whole prices. *)
Module Integral.
Import Js.

Definition number := option Z.    (* [None] is NaN *)

Definition fraction (d : nat) : string :=
  match d with
  | O => ""
  | S _ => "." +:+ String.concat "" (repeat "0" d)
  end.

#[global] Instance integral : Number number := {|
  num_toString n := match n with Some z => pretty z | None => "NaN" end;
  num_toFixed n d := match n with Some z => pretty z +:+ fraction d | None => "NaN" end;
  num_truthy n := match n with Some z => negb (z =? 0) | None => false end;
  num_abs n := Z.abs <$> n;
  to_number v :=
    match v with
    | Some (JNum n) => n
    | Some JNull => Some 0
    | Some (JBool b) => Some (if b then 1 else 0)
    | _ => None
    end;
  num_gt0 n := match n with Some z => 0 <? z | None => false end;
|}.

(** Stand-in for the tables of Unicode, on texts of the Basic Multilingual
    Plane in UTF-8: a character is a lead byte with the continuation bytes
    that follow it, and the cased letters beyond ASCII it knows are those of
    Latin-1, U+00C0 to U+00DE without the multiplication sign U+00D7 (the
    bytes C3 80 to C3 9E without C3 97), whose lower case is 32 further on. *)
Definition continuation (c : ascii) : bool :=
  let n := nat_of_ascii c in ((128 <=? n)%nat && (n <=? 191)%nat)%bool.

Definition continues (s : string) : bool :=
  match s with
  | String d _ => continuation d
  | EmptyString => false
  end.

Fixpoint utf8_chars (s : string) : list string :=
  match s with
  | EmptyString => []
  | String c rest =>
      match utf8_chars rest with
      | g :: gs =>
          if continues rest then String c g :: gs else String c EmptyString :: g :: gs
      | [] => [String c EmptyString]
      end
  end.

Fixpoint latin1_lower (s : string) : string :=
  match s with
  | EmptyString => EmptyString
  | String c rest =>
      match rest with
      | String d rest' =>
          let n := nat_of_ascii d in
          if ((nat_of_ascii c =? 195)%nat && (128 <=? n)%nat && (n <=? 158)%nat
              && negb (n =? 151)%nat)%bool
          then String c (String (ascii_of_nat (n + 32)) (latin1_lower rest'))
          else String (lower_char c) (latin1_lower rest)
      | EmptyString => String (lower_char c) EmptyString
      end
  end.

Definition unicode : Unicode := {|
  unicode_toLowerCase s := latin1_lower s;
  unicode_at s i := utf8_chars s !! i;
  unicode_chars s := utf8_chars s;
|}.

(** Stand-ins for moment and md5 on these numbers: a time stamp is the
    number of milliseconds itself, a missing one is the wall clock, and the
    digest is left symbolic. *)
#[global] Instance libraries : Bittrex.Libraries number := {|
  Bittrex.moment_utc_valueOf now v :=
    match v with
    | None => Returned now
    | Some _ => Returned (to_number v)
    end;
  Bittrex.md5_hex preimage := "md5(" +:+ preimage +:+ ")";
|}.

(** Stand-ins for the wall clock of a run that starts at [t0]: it reads
    one millisecond more at each reading. *)
Definition clock_from (t0 : Z) : Bittrex.Clock number := {|
  Bittrex.date_now n := Some (t0 + Z.of_nat n);
|}.

Definition clock : Bittrex.Clock number := clock_from 1519905600000.

End Integral.

(** ** Concrete markets and frames *)
Module Scenario.
Import Js Model Integral.

#[export] Existing Instance Integral.unicode.
#[export] Existing Instance Integral.clock.

Definition btcusdt : Market := mkMarket "BTCUSDT" "BTC" "USDT".
Definition btc_eth : Market := mkMarket "BTC-ETH" "ETH" "BTC".

(** One market under an id in capitals and under the same id in small
    letters, one of its letters beyond ASCII. *)
Definition ETHUSDT : Market := mkMarket "ÉTHUSDT" "ÉTH" "USDT".
Definition ethusdt : Market := mkMarket "éthusdt" "ÉTH" "USDT".

Definition num (z : Z) : Json number := JNum (Some z).

(** A Binance client subscribed to the level2 snapshots and updates of BTCUSDT. *)
Definition binance_subscribed : Binance.Client number :=
  exec (Binance.subscribeLevel2Snapshots btcusdt;; Binance.subscribeLevel2Updates btcusdt)
    Binance.constructor.

(** A partial-book frame and the depth-update frame that follows it: the
    update covers the ids 157 to 160, the snapshot was taken at 160. *)
Definition depth20_frame : Json number :=
  JObj [("stream", JStr "btcusdt@depth20");
        ("data", JObj [("lastUpdateId", num 160);
                       ("bids", JArr [JArr [JStr "0.0024"; JStr "10"]]);
                       ("asks", JArr [JArr [JStr "0.0026"; JStr "100"]])])].

Definition depth_frame : Json number :=
  JObj [("stream", JStr "btcusdt@depth");
        ("data", JObj [("e", JStr "depthUpdate"); ("E", num 123456789);
                       ("s", JStr "BTCUSDT"); ("U", num 157); ("u", num 160);
                       ("b", JArr [JArr [JStr "0.0024"; JStr "10"]]);
                       ("a", JArr [JArr [JStr "0.0026"; JStr "100"]])])].


(** A market whose id holds an "@", and the partial-book frame on its stream. *)
Definition btc_at_usdt : Market := mkMarket "BTC@USDT" "BTC" "USDT".

Definition at_depth20_frame : Json number :=
  JObj [("stream", JStr "btc@usdt@depth20");
        ("data", JObj [("lastUpdateId", num 160);
                       ("bids", JArr [JArr [JStr "0.0024"; JStr "10"]]);
                       ("asks", JArr [JArr [JStr "0.0026"; JStr "100"]])])].

(** A Bittrex client whose handshake succeeded, connected and subscribed
    to the trades and the level2 updates of BTC-ETH. *)
Definition bittrex_connected : Bittrex.Client number :=
  let c0 := Bittrex.constructor 90000 in
  let c1 := exec (Bittrex.job (Bittrex.subscribeTrades btc_eth)) c0 in
  let c2 := exec (Bittrex.job (Bittrex.subscribeLevel2Updates btc_eth)) c1 in
  let c3 := exec (Bittrex.job (Bittrex.cloudflare_done
                                 (Some (Bittrex.mkMetadata "cf=1" "agent")))) c2 in
  exec (Bittrex.job Bittrex._onConnected) c3.

(** Two fills that differ in their id only. *)
Definition fill_one : Json number :=
  JObj [("Id", num 1001); ("TimeStamp", num 1519905600500); ("Quantity", num 2);
        ("Rate", num 7); ("OrderType", JStr "BUY")].

Definition fill_two : Json number :=
  JObj [("Id", num 1002); ("TimeStamp", num 1519905600500); ("Quantity", num 2);
        ("Rate", num 7); ("OrderType", JStr "BUY")].


(** A fill that carries no time stamp. *)
Definition fill_unstamped : Json number :=
  JObj [("Id", num 1003); ("Quantity", num 2); ("Rate", num 7); ("OrderType", JStr "BUY")].

(** An updateExchangeState frame for BTC-ETH that carries the two fills. *)
Definition exchange_state_frame : Json number :=
  JObj [("C", JStr "d-5ED873F4-C,0|Ejin,0|Ejio,2|I:,67FC");
        ("M", JArr [JObj [("H", JStr "CoreHub"); ("M", JStr "updateExchangeState");
                          ("A", JArr [JObj [("MarketName", JStr "BTC-ETH");
                                            ("Nounce", num 26620);
                                            ("Buys", JArr []); ("Sells", JArr []);
                                            ("Fills", JArr [fill_one; fill_two])]])]])].

(** A Bittrex client whose handshake succeeded, connected, with no subscription. *)
Definition bittrex_idle : Bittrex.Client number :=
  let c0 := Bittrex.constructor 90000 in
  let c1 := exec (Bittrex.job Bittrex._connect) c0 in
  let c2 := exec (Bittrex.job (Bittrex.cloudflare_done
                                 (Some (Bittrex.mkMetadata "cf=1" "agent")))) c1 in
  exec (Bittrex.job Bittrex._onConnected) c2.

(** A Binance client subscribed to the trades of BTCUSDT, 100 ms later,
    once the socket opened by the debounce callback is open: the watcher
    is armed. *)
Definition binance_connected : Binance.Client number :=
  match Binance.advance 1 100 (exec (Binance.subscribeTrades btcusdt) Binance.constructor) with
  | Some c => exec Binance._onConnected c
  | None => Binance.constructor
  end.



(** A Bitfinex client subscribed to the trades of BTCUSD, after the
    acknowledgment that assigns channel 5. *)
Definition btcusd : Market := mkMarket "BTCUSD" "BTC" "USD".

Definition ack_frame : Json number :=
  JObj [("event", JStr "subscribed"); ("channel", JStr "trades"); ("chanId", num 5);
        ("pair", JStr "BTCUSD")].

Definition bitfinex_acknowledged : Bitfinex.Client number :=
  exec (Bitfinex._onMessage ack_frame)
    (Bitfinex.mkClient ∅ [("BTCUSD", btcusd)] [] [] [] None).

(** A heartbeat on channel 5, and a trade on channel 6, which no
    acknowledgment has announced yet. *)
Definition heartbeat_frame : Json number := JArr [num 5; JStr "hb"].

(** A heartbeat that leads with an object holding a property [toString]. *)
Definition unkeyed_heartbeat_frame : Json number :=
  JArr [JObj [("toString", num 1)]; JStr "hb"].

Definition early_frame : Json number :=
  JArr [num 6; JStr "tu"; JStr "1234-BTCUSD"; num 99; num 1519905600; num 7; num 2].

(** A trade on channel 5. *)
Definition trade_frame : Json number :=
  JArr [num 5; JStr "tu"; JStr "1234-BTCUSD"; num 99; num 1519905600; num 7; num 2].

(** A 'te' frame on channel 5: the same trade, before its 'tu' frame. *)
Definition te_frame : Json number :=
  JArr [num 5; JStr "te"; JStr "1234-BTCUSD"; num 1519905600; num 7; num 2].

(** A Bitfinex client subscribed to the level2 updates of BTCUSD, after
    the acknowledgment that assigns channel 7 to its book at precision P0,
    and a snapshot of that book with one bid and one ask. *)
Definition book_ack_frame : Json number :=
  JObj [("event", JStr "subscribed"); ("channel", JStr "book"); ("chanId", num 7);
        ("pair", JStr "BTCUSD"); ("prec", JStr "P0"); ("freq", JStr "F0"); ("len", JStr "100")].

Definition bitfinex_book : Bitfinex.Client number :=
  exec (Bitfinex._onMessage book_ack_frame)
    (Bitfinex.mkClient ∅ [] [("BTCUSD", btcusd)] [] [] None).

Definition book_snapshot_frame : Json number :=
  JArr [num 7; JArr [JArr [num 7000; num 2; num 3]; JArr [num 7001; num 1; num (-4)]]].

(** An update of that book: 3 orders at 7002, 5 on the ask side. *)
Definition book_update_frame : Json number := JArr [num 7; num 7002; num 3; num (-5)].

(** A Bitfinex client subscribed to the level3 updates of BTCUSD, after
    the acknowledgment that assigns channel 8 to its raw book, and an update
    of the order 1234567. *)
Definition order_ack_frame : Json number :=
  JObj [("event", JStr "subscribed"); ("channel", JStr "book"); ("chanId", num 8);
        ("pair", JStr "BTCUSD"); ("prec", JStr "R0"); ("len", JStr "100")].

Definition bitfinex_orders : Bitfinex.Client number :=
  exec (Bitfinex._onMessage order_ack_frame)
    (Bitfinex.mkClient ∅ [] [] [("BTCUSD", btcusd)] [] None).

Definition order_update_frame : Json number := JArr [num 8; num 1234567; num 7002; num 5].

(** A Bitfinex client after an acknowledgment that assigns channel 0. *)
Definition zero_ack_frame : Json number :=
  JObj [("event", JStr "subscribed"); ("channel", JStr "trades"); ("chanId", num 0);
        ("pair", JStr "BTCUSD")].

Definition bitfinex_zero : Bitfinex.Client number :=
  exec (Bitfinex._onMessage zero_ack_frame)
    (Bitfinex.mkClient ∅ [("BTCUSD", btcusd)] [] [] [] None).

(** An aggregate-trade frame for BTCUSDT: the trades 100 to 105, the
    buyer being the maker. *)
Definition aggTrade_frame : Json number :=
  JObj [("stream", JStr "btcusdt@aggTrade");
        ("data", JObj [("e", JStr "aggTrade"); ("E", num 123456789); ("s", JStr "BTCUSDT");
                       ("a", num 12345); ("p", JStr "0.001"); ("q", JStr "100");
                       ("f", num 100); ("l", num 105); ("T", num 123456785);
                       ("m", JBool true); ("M", JBool true)])].

(** An aggregate-trade frame that names its market in capitals, one of
    them beyond ASCII. *)
Definition aggTrade_frame_capitals : Json number :=
  JObj [("stream", JStr "éthusdt@aggTrade");
        ("data", JObj [("e", JStr "aggTrade"); ("E", num 123456789); ("s", JStr "ÉTHUSDT");
                       ("a", num 12345); ("p", JStr "0.001"); ("q", JStr "100");
                       ("f", num 100); ("l", num 105); ("T", num 123456785);
                       ("m", JBool false); ("M", JBool true)])].

(** A day in the life of a Binance client: two subscribes, the socket
    opens and delivers a trade, a [reconnect()] and an unsubscribe within one
    debounce window, a [close()], and the debounce timer that outlives it. *)
Definition binance_day : list (Binance.Action number) :=
  [Binance.Owner (Binance.CallSubscribe Binance.TradeSubs btcusdt);
   Binance.Owner (Binance.CallSubscribe Binance.Level2UpdateSubs btcusdt);
   Binance.Elapse 100;
   Binance.SocketOpen;
   Binance.SocketMessage aggTrade_frame;
   Binance.OwnerReconnect;
   Binance.Owner (Binance.CallUnsubscribe Binance.TradeSubs btcusdt);
   Binance.Elapse 50;
   Binance.OwnerClose;
   Binance.Elapse 100;
   Binance.SocketDisconnected].

Definition binance_evening : Binance.Client number :=
  default Binance.constructor (Binance.play 4 binance_day Binance.constructor).

(** A Bittrex client subscribed to the trades of BTC-ETH whose handshake
    succeeded: the signalr client is created and started, and has not
    reported [connected] yet. *)
Definition bittrex_starting : Bittrex.Client number :=
  let c0 := Bittrex.constructor 90000 in
  let c1 := exec (Bittrex.job (Bittrex.subscribeTrades btc_eth)) c0 in
  exec (Bittrex.job (Bittrex.cloudflare_done (Some (Bittrex.mkMetadata "cf=1" "agent")))) c1.

(** The same client once the connection has reported [connected]. *)
Definition bittrex_trading : Bittrex.Client number :=
  exec (Bittrex.job Bittrex._onConnected) bittrex_starting.

Definition eth_ltc : Market := mkMarket "ETH-LTC" "LTC" "ETH".

(** A market that bears the name of a member of Object.prototype. *)
Definition constructor_market : Market := mkMarket "constructor" "TOR" "CONSTRUC".

(** A Bittrex client that was connected with BTC-ETH in both Maps, was
    closed, had BTC-ETH unsubscribed from both, and was told to reconnect:
    the next signalr client is created and has not reported [connected] yet. *)
Definition bittrex_stale : Bittrex.Client number :=
  default (Bittrex.constructor 90000)
    (Bittrex.play 4
       [Bittrex.Subscribe Bittrex.TradeSubs btc_eth;
        Bittrex.Subscribe Bittrex.Level2UpdateSubs btc_eth;
        Bittrex.Handshake (Some (Bittrex.mkMetadata "cf=1" "agent"));
        Bittrex.HubConnected;
        Bittrex.Close true;
        Bittrex.Unsubscribe Bittrex.TradeSubs btc_eth;
        Bittrex.Unsubscribe Bittrex.Level2UpdateSubs btc_eth;
        Bittrex.Reconnect true]
       (Bittrex.constructor 90000)).

(** A day in the life of a Bittrex client: two subscribes before the
    handshake completes, the connection comes up and delivers two fills, it
    drops, the retry timer reconnects 15 s later, and the owner closes. *)
Definition bittrex_day : list (Bittrex.Action number) :=
  [Bittrex.Subscribe Bittrex.TradeSubs btc_eth;
   Bittrex.Subscribe Bittrex.Level2UpdateSubs btc_eth;
   Bittrex.Handshake (Some (Bittrex.mkMetadata "cf=1" "agent"));
   Bittrex.HubConnected;
   Bittrex.HubMessage (Some exchange_state_frame);
   Bittrex.HubDisconnected;
   Bittrex.HubDisconnected;
   Bittrex.Elapse 15000;
   Bittrex.HubConnected;
   Bittrex.Unsubscribe Bittrex.TradeSubs btc_eth;
   Bittrex.Reconnect true;
   Bittrex.Close true].

Definition bittrex_evening : Bittrex.Client number :=
  default (Bittrex.constructor 90000)
    (Bittrex.play 4 bittrex_day (Bittrex.constructor 90000)).

(** The object a ticker of BTCUSDT on Binance is built from. *)
Definition ticker_object : Json number :=
  JObj [("exchange", JStr "Binance"); ("base", JStr "BTC"); ("quote", JStr "USDT");
        ("tradeId", num 100); ("unix", num 123456785); ("price", JStr "0.001");
        ("amount", JStr "100")].

(** The answer to the QueryExchangeState call for BTC-ETH: it names no
    market, the client writes the name it asked for. *)
Definition exchange_state_answer : Json number :=
  JObj [("MarketName", JNull); ("Nounce", num 26619);
        ("Buys", JArr [JObj [("Quantity", num 7); ("Rate", num 2)]]);
        ("Sells", JArr [JObj [("Quantity", num 21); ("Rate", num 3)]]);
        ("Fills", JArr [])].

End Scenario.

(** * Properties *)

(** ** Facts about the runtime model *)
Module JsFacts.
Import Js.

Lemma length_append (a b : string) :
  String.length (a +:+ b) = (String.length a + String.length b)%nat.
Proof. induction a as [| ch a IH]; simpl; [reflexivity | rewrite IH; reflexivity]. Qed.

Lemma substring_skip (a b : string) j k :
  String.substring (String.length a + j) k (a +:+ b) = String.substring j k b.
Proof. induction a as [| ch a IH]; simpl; [reflexivity | exact IH]. Qed.

(** [(a + b).endsWith(suffix)] is decided by [b] when [suffix] is no longer than [b]. *)
Lemma endsWith_append (a b suffix : string) :
  (String.length suffix <= String.length b)%nat ->
  endsWith (a +:+ b) suffix = endsWith b suffix.
Proof.
  intros Hl. unfold endsWith. rewrite length_append.
  replace (String.length a + String.length b - String.length suffix)%nat
    with (String.length a + (String.length b - String.length suffix))%nat by lia.
  rewrite substring_skip.
  destruct (Nat.leb_spec (String.length suffix) (String.length b)); [| lia].
  destruct (Nat.leb_spec (String.length suffix) (String.length a + String.length b)); [| lia].
  reflexivity.
Qed.

(** [(a + "@" + b).split("@")[0]] is [a] when [a] has no "@". *)
Lemma split_head_append (a b : string) :
  split_head "@"%char a = a ->
  split_head "@"%char (a +:+ String "@"%char b) = a.
Proof.
  induction a as [| ch a IH]; simpl; intros Ha; [reflexivity |].
  destruct (Ascii.eqb ch "@"); [discriminate |].
  injection Ha as Ha. rewrite (IH Ha). reflexivity.
Qed.

(** A text without "@" is the head of its own split. *)
Lemma split_head_whole (a : string) :
  includes "@"%char a = false -> split_head "@"%char a = a.
Proof.
  induction a as [| ch a IH]; simpl; intros Ha; [reflexivity |].
  apply orb_false_iff in Ha as [Hch Ha]. rewrite Hch, (IH Ha). reflexivity.
Qed.

Lemma substring_empty i k : String.substring i k "" = "".
Proof. destruct i, k; reflexivity. Qed.

Lemma substring_from_start (q : string) : forall (p s : string),
  String.substring 0 (String.length p + String.length q) s = p +:+ q ->
  String.substring (String.length p) (String.length q) s = q.
Proof.
  induction p as [| ch p IH]; intros s Hs; simpl in *; [exact Hs |].
  destruct s as [| ch' s]; [discriminate |].
  injection Hs as _ Hs. apply IH. exact Hs.
Qed.

Lemma substring_tail (p q : string) : forall (s : string) i,
  String.substring i (String.length p + String.length q) s = p +:+ q ->
  String.substring (i + String.length p) (String.length q) s = q.
Proof.
  induction s as [| ch s IH]; intros i Hs.
  - rewrite substring_empty in *. destruct p; [| discriminate]. simpl in Hs.
    exact Hs.
  - destruct i as [| i].
    + apply substring_from_start. exact Hs.
    + simpl in *. apply IH. exact Hs.
Qed.

(** A string that ends with [p + q] ends with [q]. *)
Lemma endsWith_tail (s p q : string) :
  endsWith s (p +:+ q) = true -> endsWith s q = true.
Proof.
  unfold endsWith. rewrite length_append. intros Hs.
  apply andb_true_iff in Hs as [Hle Hs].
  apply Nat.leb_le in Hle. apply String.eqb_eq in Hs.
  apply substring_tail in Hs.
  replace (String.length s - (String.length p + String.length q) + String.length p)%nat
    with (String.length s - String.length q)%nat in Hs by lia.
  rewrite Hs, String.eqb_refl, andb_true_r. apply Nat.leb_le. lia.
Qed.

(** [(a + b).endsWith(p + q)] fails as soon as [b], no shorter than [q],
    does not end with [q]. *)
Lemma endsWith_append_false (a b p q : string) :
  (String.length q <= String.length b)%nat ->
  endsWith b q = false ->
  endsWith (a +:+ b) (p +:+ q) = false.
Proof.
  intros Hl Hb. destruct (endsWith (a +:+ b) (p +:+ q)) eqn:He; [| reflexivity].
  apply endsWith_tail in He. rewrite endsWith_append in He by exact Hl. congruence.
Qed.

Section MapFacts.
Context {K V : Type} `{EqDecision K}.


Lemma has_get (k : K) (m : Map K V) : has k m = true <-> is_Some (get k m).
Proof.
  induction m as [| [k' v] m IH]; simpl.
  - split; [discriminate | intros [? ?]; discriminate].
  - destruct (decide (k' = k)) as [-> | Hne].
    + rewrite bool_decide_eq_true_2 by reflexivity. simpl. split; eauto.
    + rewrite bool_decide_eq_false_2 by assumption. simpl. exact IH.
Qed.

Lemma has_delete (k : K) (m : Map K V) : has k (delete k m) = false.
Proof.
  induction m as [| [k' v] m IH]; simpl; [reflexivity |].
  destruct (decide (k' = k)) as [-> | Hne].
  - rewrite bool_decide_eq_true_2 by reflexivity. simpl. exact IH.
  - rewrite bool_decide_eq_false_2 by assumption. simpl.
    rewrite bool_decide_eq_false_2 by assumption. simpl. exact IH.
Qed.

Lemma has_delete_ne (k k' : K) (m : Map K V) :
  k <> k' -> has k' (delete k m) = has k' m.
Proof.
  intros Hne. induction m as [| [k0 v] m IH]; simpl; [reflexivity |].
  destruct (decide (k0 = k)) as [-> | Hne0].
  - rewrite bool_decide_eq_true_2 by reflexivity. simpl.
    rewrite bool_decide_eq_false_2 by assumption. simpl. exact IH.
  - rewrite bool_decide_eq_false_2 by assumption. simpl. rewrite IH. reflexivity.
Qed.

Lemma has_set (k k' : K) (v : V) (m : Map K V) :
  has k' (set k v m) = (bool_decide (k = k') || has k' m)%bool.
Proof.
  induction m as [| [k0 v0] m IH]; simpl.
  - rewrite orb_false_r. reflexivity.
  - destruct (decide (k0 = k)) as [-> | Hne0]; simpl.
    + destruct (bool_decide (k = k')); reflexivity.
    + rewrite IH. destruct (bool_decide (k0 = k')), (bool_decide (k = k')); reflexivity.
Qed.
End MapFacts.

End JsFacts.

(** ** Facts about the monad *)
Module MonadFacts.
Import Js.
Section MonadFacts.
Context {number : Type} {Un : Unicode} {St : Type}.

Lemma bind_returned {A B} (m : M St A) (k : A -> M St B) s s' a :
  m s = (s', Returned a) -> bind m k s = k a s'.
Proof. intros Hm. unfold bind. rewrite Hm. reflexivity. Qed.

Lemma field_returned (j : Json number) name v (s : St) :
  field_of j name = Some v -> field (Some j) name s = (s, Returned v).
Proof. intros Hf. unfold field. rewrite Hf. reflexivity. Qed.

Lemma index_returned (j : Json number) i (s : St) :
  j <> JNull -> index (Some j) i s = (s, Returned (default undefined (index_of j i))).
Proof. intros Hj. destruct j; try contradiction; reflexivity. Qed.
End MonadFacts.
End MonadFacts.

(** ** What a call leaves alone *)
Module Frames.
Import Js.

Section Keeps.
Context {number : Type} `{Number number} {Un : Unicode} {St : Type} (R : St -> St -> Prop).
Hypothesis R_refl : forall s, R s s.
Hypothesis R_trans : forall s1 s2 s3, R s1 s2 -> R s2 s3 -> R s1 s3.

Lemma keeps_ret {A} (a : A) : keeps R (ret a).
Proof. intros s. apply R_refl. Qed.

Lemma keeps_throw {A} e : keeps R (@throw St A e).
Proof. intros s. apply R_refl. Qed.

Lemma keeps_gets {A} (f : St -> A) : keeps R (gets f).
Proof. intros s. apply R_refl. Qed.

Lemma keeps_modify (f : St -> St) : (forall s, R s (f s)) -> keeps R (modify f).
Proof. intros Hf s. apply Hf. Qed.

Lemma keeps_bind {A B} (c : M St A) (k : A -> M St B) :
  keeps R c -> (forall a, keeps R (k a)) -> keeps R (bind c k).
Proof.
  intros Hc Hk s. specialize (Hc s). unfold exec, bind in *.
  destruct (c s) as [s' [a | e]]; simpl in *; [| exact Hc].
  eapply R_trans; [exact Hc | apply Hk].
Qed.

Lemma keeps_try_ignore (c : M St unit) : keeps R c -> keeps R (try_ignore c).
Proof.
  intros Hc s. specialize (Hc s). unfold exec, try_ignore in *.
  destruct (c s) as [s' r]. exact Hc.
Qed.

Lemma keeps_for_of {A} (xs : list A) (body : A -> M St unit) :
  (forall x, keeps R (body x)) -> keeps R (for_of xs body).
Proof.
  intros Hb. induction xs as [| x xs IH]; simpl.
  - apply keeps_ret.
  - apply keeps_bind; [apply Hb | intros _; exact IH].
Qed.

Lemma keeps_map_m {A B} (f : A -> M St B) (xs : list A) :
  (forall x, keeps R (f x)) -> keeps R (map_m f xs).
Proof.
  intros Hf. induction xs as [| x xs IH]; simpl.
  - apply keeps_ret.
  - apply keeps_bind; [apply Hf | intros y].
    apply keeps_bind; [exact IH | intros ys; apply keeps_ret].
Qed.

Lemma keeps_field (v : Value number) name : keeps R (field (St := St) v name).
Proof.
  unfold field. destruct v as [j |]; [| apply keeps_throw].
  destruct (field_of j name); [apply keeps_ret | apply keeps_throw].
Qed.

Lemma keeps_index (v : Value number) i : keeps R (index (St := St) v i).
Proof.
  unfold index. destruct v as [j |]; [| apply keeps_throw].
  destruct (index_of j i); [apply keeps_ret | apply keeps_throw].
Qed.

Lemma keeps_elements (v : Value number) : keeps R (elements (St := St) v).
Proof. destruct v as [[] |]; first [apply keeps_ret | apply keeps_throw]. Qed.

Lemma keeps_iterate (v : Value number) : keeps R (iterate (St := St) v).
Proof. destruct v as [[] |]; first [apply keeps_ret | apply keeps_throw]. Qed.

Lemma keeps_toFixed (v : Value number) d : keeps R (toFixed (St := St) v d).
Proof. destruct v as [[] |]; first [apply keeps_ret | apply keeps_throw]. Qed.

Lemma keeps_toLowerCase (v : Value number) : keeps R (toLowerCase (St := St) v).
Proof. destruct v as [[] |]; first [apply keeps_ret | apply keeps_throw]. Qed.

Lemma keeps_ToPropertyKey (v : Value number) : keeps R (ToPropertyKey (St := St) v).
Proof. unfold ToPropertyKey. destruct (convertible v); [apply keeps_ret | apply keeps_throw]. Qed.

Lemma keeps_ToNumber (v : Value number) : keeps R (ToNumber (St := St) v).
Proof. unfold ToNumber. destruct (convertible v); [apply keeps_ret | apply keeps_throw]. Qed.
End Keeps.

(** One step of a proof that a computation keeps [R], given that [R] is
    reflexive ([refl]) and transitive ([trans]). *)
Ltac keeps_step refl trans :=
  lazymatch goal with
  | |- keeps _ (bind _ _) => apply (keeps_bind _ trans); [| intros ?]
  | |- keeps _ (ret _) => apply (keeps_ret _ refl)
  | |- keeps _ (throw _) => apply (keeps_throw _ refl)
  | |- keeps _ (gets _) => apply (keeps_gets _ refl)
  | |- keeps _ (field _ _) => apply (keeps_field _ refl)
  | |- keeps _ (index _ _) => apply (keeps_index _ refl)
  | |- keeps _ (elements _) => apply (keeps_elements _ refl)
  | |- keeps _ (iterate _) => apply (keeps_iterate _ refl)
  | |- keeps _ (toFixed _ _) => apply (keeps_toFixed _ refl)
  | |- keeps _ (toLowerCase _) => apply (keeps_toLowerCase _ refl)
  | |- keeps _ (ToPropertyKey _) => apply (keeps_ToPropertyKey _ refl)
  | |- keeps _ (ToNumber _) => apply (keeps_ToNumber _ refl)
  | |- keeps _ (try_ignore _) => apply (keeps_try_ignore _)
  | |- keeps _ (for_of _ _) => apply (keeps_for_of _ refl trans); intros ?
  | |- keeps _ (map_m _ _) => apply (keeps_map_m _ refl trans); intros ?
  | |- keeps _ (if ?b then _ else _) => destruct b
  | |- keeps _ (match ?x with _ => _ end) => destruct x
  end.

End Frames.

(** ** Binance: the debounced reconnect *)
Module BinanceFacts.
Import Js Model Binance JsFacts.

Section TimerFacts.
Context {C : Type}.

Lemma filter_none {A} (f : A -> bool) (l : list A) :
  (forall x, In x l -> f x = false) -> List.filter f l = [].
Proof.
  induction l as [| a l IH]; intros Hf; simpl; [reflexivity |].
  rewrite (Hf a) by (left; reflexivity). apply IH. intros x Hx. apply Hf. right. exact Hx.
Qed.

Lemma earliest_in (q : list (Timer C)) tm : earliest q = Some tm -> In tm q.
Proof.
  revert tm. induction q as [| t q IH]; intros tm; simpl; [discriminate |].
  destruct (earliest q) as [t' |].
  - destruct (due t' <? due t); intros [= <-]; auto.
  - intros [= <-]. auto.
Qed.

Lemma earliest_least (q : list (Timer C)) tm :
  earliest q = Some tm -> forall x, In x q -> due tm <= due x.
Proof.
  revert tm. induction q as [| t q IH]; intros tm; simpl; [discriminate |].
  destruct (earliest q) as [t' |] eqn:He.
  - specialize (IH t' eq_refl).
    destruct (Z.ltb_spec (due t') (due t)); intros [= <-] x [<- | Hx];
      try lia; try (apply IH; exact Hx).
    specialize (IH x Hx). lia.
  - destruct q as [| t2 q]; [| simpl in He; destruct (earliest q) as [t3 |];
                                [destruct (due t3 <? due t2) |]; discriminate].
    intros [= <-] x [<- | []]. lia.
Qed.

Lemma earliest_some (q : list (Timer C)) : q <> [] -> is_Some (earliest q).
Proof.
  destruct q as [| t q]; [contradiction |]. intros _. simpl.
  destruct (earliest q) as [t' |]; [destruct (due t' <? due t) |]; eauto.
Qed.

(** Nothing is due at [t] when every deadline lies after [t]. *)
Lemma next_due_later (l : EventLoop C) t :
  Forall (fun tm => t < due tm) (queue l) -> next_due t l = None.
Proof.
  intros Hall. unfold next_due. destruct (earliest (queue l)) as [tm |] eqn:He; [| reflexivity].
  apply earliest_in in He. rewrite List.Forall_forall in Hall. specialize (Hall tm He).
  destruct (Z.leb_spec (due tm) t); [lia | reflexivity].
Qed.
End TimerFacts.

Section Facts.
Context {number : Type} {N : Number number} {Un : Unicode}.
Local Abbreviation Client := (Binance.Client number).

Lemma advance_idle fuel t (c : Client) :
  next_due t (loop c) = None ->
  advance fuel t c = Some (with_loop (set_clock t (loop c)) c).
Proof. intros Hn. destruct fuel; simpl; rewrite Hn; reflexivity. Qed.

Lemma settled_idle H B t (c : Client) :
  settled H B c -> t < B -> t <= H -> next_due t (loop c) = None.
Proof.
  intros Hs Ht HH. apply next_due_later. eapply Forall_impl; [exact Hs |].
  intros tm [_ Htm]. simpl in Htm. destruct (is_debounce c tm); lia.
Qed.



(** What [clearTimeout(this._reconnectDebounce)] leaves in the queue. *)
Lemma cleared H B (c : Client) :
  settled H B c ->
  Forall (fun tm => (handle tm < fresh (loop c))%nat /\ H < due tm)
    (queue (clearTimeout (_reconnectDebounce c) (loop c))).
Proof.
  unfold settled, is_debounce. intros Hs.
  destruct (_reconnectDebounce c) as [h |]; simpl.
  - rewrite List.Forall_forall in *. intros tm Hin. apply filter_In in Hin as [Hin Hne].
    destruct (Hs tm Hin) as [Hlt Htm]. split; [exact Hlt |].
    case_bool_decide as Hd; [| exact Htm].
    injection Hd as ->. rewrite Nat.eqb_refl in Hne. discriminate.
  - eapply Forall_impl; [exact Hs |]. intros tm [Hlt Htm]. split; [exact Hlt |].
    case_bool_decide; [discriminate | exact Htm].
Qed.

Lemma reconnect_step H B (c : Client) :
  settled H B c -> B - 100 <= now (loop c) ->
  let c' := exec _reconnect c in
  sockets c' = sockets c /\ emitted c' = emitted c /\ _wss c' = _wss c
  /\ now (loop c') = now (loop c) /\ same_subs c' c
  /\ settled H B c' /\ deadline c' = Some (now (loop c) + 100).
Proof.
  intros Hs Hb. pose proof (cleared H B c Hs) as Hq.
  destruct c as [n ts ss us w d wt [nw fr q] em so]; simpl in Hb, Hq.
  set (q' := queue (clearTimeout d (mkLoop nw fr q))) in *.
  assert (E : exec _reconnect (mkClient n ts ss us w d wt (mkLoop nw fr q) em so)
              = mkClient n ts ss us w (Some fr) wt
                  (mkLoop nw (S fr) (q' ++ [mkTimer fr (nw + 100) DebounceElapsed])) em so).
  { subst q'. destruct d; reflexivity. }
  cbv zeta. rewrite !E. clear E. cbn [sockets emitted _wss loop now].
  assert (Hdl : deadline (mkClient n ts ss us w (Some fr) wt
                            (mkLoop nw (S fr) (q' ++ [mkTimer fr (nw + 100) DebounceElapsed]))
                            em so) = Some (nw + 100)).
  { unfold deadline, is_debounce. simpl. rewrite List.filter_app. simpl.
    rewrite bool_decide_eq_true_2 by reflexivity.
    replace (List.filter (fun tm => bool_decide (Some fr = Some (handle tm))) q') with
      (@nil (Timer Callback)); [reflexivity |].
    symmetry. apply filter_none.
    rewrite List.Forall_forall in Hq. intros tm Hin. destruct (Hq tm Hin) as [Hlt _].
    case_bool_decide as Hf; [injection Hf as ->; lia | reflexivity]. }
  do 4 (split; [reflexivity |]). split; [intros []; reflexivity |].
  split; [| exact Hdl].
  unfold settled. rewrite Hdl. unfold is_debounce. simpl. apply Forall_app. split.
  - eapply Forall_impl; [exact Hq |]. intros tm [Hlt Hd]. split; [lia |].
    case_bool_decide as Hf; [injection Hf as ->; lia | exact Hd].
  - constructor; [| constructor]. simpl. split; [lia |].
    rewrite bool_decide_eq_true_2 by reflexivity. repeat split; try reflexivity. lia.
Qed.

Lemma subscribe_exec market map (c : Client) :
  exec (_subscribe market map) c =
  if has (KString (lower (id market))) (subs map c) then c
  else exec _reconnect
         (with_subs map (set (KString (lower (id market))) market (subs map c)) c).
Proof.
  unfold _subscribe, exec, bind, gets; simpl.
  destruct (has (KString (lower (id market))) (subs map c)); reflexivity.
Qed.

Lemma unsubscribe_exec market map (c : Client) :
  exec (_unsubscribe market map) c =
  if has (KString (lower (id market))) (subs map c)
  then exec _reconnect (with_subs map (delete (KMarket market) (subs map c)) c)
  else c.
Proof.
  unfold _unsubscribe, exec, bind, gets; simpl.
  destruct (has (KString (lower (id market))) (subs map c)); reflexivity.
Qed.



Lemma wait_step H B t (c : Client) fuel :
  settled H B c -> t < B -> t <= H ->
  exists c', advance fuel t c = Some c'
    /\ sockets c' = sockets c /\ emitted c' = emitted c /\ _wss c' = _wss c
    /\ now (loop c') = Z.max (now (loop c)) t /\ same_subs c' c
    /\ settled H B c' /\ deadline c' = deadline c.
Proof.
  intros Hs Ht HH. eexists. split; [apply advance_idle; eapply settled_idle; eassumption |].
  destruct c as [n ts ss us w d wt [nw fr q] em so]; simpl in *.
  repeat split; try reflexivity; try (intros []; reflexivity); try exact Hs.
Qed.



(** Nothing happens until [H] on a client none of whose timers falls due until then. *)
Lemma quiet_until H (c : Client) fuel t :
  Forall (fun tm => H < due tm) (queue (loop c)) -> t <= H ->
  exists c', advance fuel t c = Some c'
    /\ sockets c' = sockets c /\ emitted c' = emitted c /\ queue (loop c') = queue (loop c).
Proof.
  intros Hq Ht. eexists. split.
  - apply advance_idle. apply next_due_later.
    eapply Forall_impl; [exact Hq |]. intros tm Htm. simpl in Htm. lia.
  - destruct c as [n ts ss us w d wt [nw fr q] em so]; simpl in *. auto.
Qed.

Lemma quiet_forever (c : Client) fuel t :
  queue (loop c) = [] ->
  exists c', advance fuel t c = Some c'
    /\ sockets c' = sockets c /\ emitted c' = emitted c /\ queue (loop c') = [].
Proof.
  intros Hq. destruct (quiet_until t c fuel t) as (c' & Ha & S1 & S2 & S3);
    [rewrite Hq; constructor | lia |].
  exists c'. rewrite S3, Hq. auto.
Qed.

(** The cycle the debounce callback runs. *)
Lemma cycle_run (c : Client) (l : EventLoop Callback) :
  let c' := exec (fire DebounceElapsed) (with_loop l c) in
  sockets c' = (sockets c ++ cycle c)%list /\ queue (loop c') = queue l.
Proof.
  destruct c as [n ts ss us [[p] |] dh wt l0 em so]; simpl; unfold cycle, streams_of; simpl;
    rewrite <- ?app_assoc; split; reflexivity.
Qed.

(** The pending debounce timer fires once its deadline is reached, and
    nothing else does until [H]. *)
Lemma debounce_fires H B (c : Client) d fuel t :
  settled H B c -> deadline c = Some d -> d <= t -> t <= H ->
  exists c', advance (S fuel) t c = Some c'
    /\ sockets c' = (sockets c ++ cycle c)%list
    /\ Forall (fun tm => H < due tm) (queue (loop c')).
Proof.
  intros Hs Hd Hdt HtH.
  (* the debounce timer is in the queue *)
  assert (Htd : exists td, In td (queue (loop c)) /\ is_debounce c td = true /\ due td = d).
  { unfold deadline in Hd.
    destruct (List.filter (is_debounce c) (queue (loop c))) as [| td rest] eqn:Hf; [discriminate |].
    injection Hd as Hd. exists td.
    assert (Hin : In td (List.filter (is_debounce c) (queue (loop c)))) by (rewrite Hf; left; reflexivity).
    apply filter_In in Hin as [Hin Hdeb]. auto. }
  destruct Htd as (td & Hin & Hdeb & Hdue).
  (* so the earliest timer is due, and it is a debounce timer *)
  destruct (earliest_some (queue (loop c))) as [tm He]; [intros Hq; rewrite Hq in Hin; exact Hin |].
  pose proof (earliest_in _ _ He) as Htm.
  pose proof (earliest_least _ _ He td Hin) as Hle.
  unfold settled in Hs. rewrite List.Forall_forall in Hs.
  destruct (Hs tm Htm) as [_ Hkind].
  destruct (is_debounce c tm) eqn:Hdtm; [| lia].
  destruct Hkind as (Hcb & _ & _).
  assert (Hn : next_due t (loop c) = Some tm).
  { unfold next_due. rewrite He. destruct (Z.leb_spec (due tm) t); [reflexivity | lia]. }
  simpl. rewrite Hn, Hcb.
  destruct (cycle_run c (dequeue tm (loop c))) as [S1 S2].
  set (c1 := exec (fire DebounceElapsed) (with_loop (dequeue tm (loop c)) c)) in *.
  assert (Hq1 : Forall (fun x => H < due x) (queue (loop c1))).
  { rewrite S2. simpl. rewrite List.Forall_forall. intros x Hx.
    apply filter_In in Hx as [Hx Hne].
    destruct (Hs x Hx) as [_ Hk]. unfold is_debounce in *.
    apply bool_decide_eq_true in Hdtm.
    case_bool_decide as Hdx; [| exact Hk].
    rewrite Hdtm in Hdx. injection Hdx as Hdx. rewrite Hdx, Nat.eqb_refl in Hne. discriminate. }
  destruct (quiet_until H c1 fuel t Hq1 HtH) as (c' & Ha & Q1 & _ & Q3).
  exists c'. split; [exact Ha |]. rewrite Q1, Q3. auto.
Qed.


Lemma idle_settled H B (c : Client) :
  idle_until H c -> settled H B c /\ deadline c = None.
Proof.
  unfold idle_until, settled, deadline. intros Hi. split.
  - eapply Forall_impl; [exact Hi |]. intros tm (Hlt & Hd & Hdue). simpl. rewrite Hd. auto.
  - replace (List.filter (is_debounce c) (queue (loop c))) with (@nil (Timer Callback));
      [reflexivity |].
    symmetry. apply filter_none.
    rewrite List.Forall_forall in Hi. intros tm Hin. destruct (Hi tm Hin) as (_ & Hd & _).
    exact Hd.
Qed.


End Facts.
End BinanceFacts.

(** ** Binance: bursts on concrete calls *)
Module BinanceBursts.
Import Js Model Binance BinanceFacts Scenario.



(** A subscribe that repeats the one made 50 ms before, in small letters
    for its capitals, does not pass the guard: one call passes, at the start,
    and the cycle runs 100 ms after it, 50 ms after the repeat (the client
    was connected at 100 ms). *)
Example burst_in_two_cases :
  let calls := [(0, CallSubscribe TradeSubs ETHUSDT); (50, CallSubscribe TradeSubs ethusdt)] in
  lower (id ETHUSDT) = "éthusdt"
  /\ passing (now (loop binance_connected)) calls binance_connected
     = [now (loop binance_connected)]
  /\ now (loop binance_connected) = 100
  /\ (fun c => connects (sockets c)) <$> (run 2 calls binance_connected ≫= advance 0 199)
     = Some (connects (sockets binance_connected))
  /\ (fun c => connects (sockets c)) <$> (run 2 calls binance_connected ≫= advance 1 200)
     = Some (S (connects (sockets binance_connected))).
Proof. cbv zeta. repeat apply conj; vm_compute; reflexivity. Qed.

End BinanceBursts.

(** ** Binance: inbound frames *)
Module BinanceFrames.
Import Js Model JsFacts Binance MonadFacts.
Section Facts.
Context {number : Type} `{Number number} {Un : Unicode}.
Local Abbreviation Client := (Binance.Client number).
Local Abbreviation Json := (Js.Json number).

Ltac bind_with tac := erewrite bind_returned; [| tac].
Ltac bind_field := bind_with ltac:(apply field_returned; eassumption).

Lemma point_returned (p : Json) (c : Client) :
  p <> JNull -> point p c = (c, Returned (point_of p)).
Proof. intros Hp. destruct p; try contradiction; reflexivity. Qed.

Lemma points_returned (ps : list Json) (c : Client) :
  Forall (fun p => p <> JNull) ps ->
  map_m point ps c = (c, Returned (List.map point_of ps)).
Proof.
  induction 1 as [| p ps Hp _ IH]; simpl; [reflexivity |].
  bind_with ltac:(apply point_returned; assumption).
  bind_with ltac:(exact IH).
  reflexivity.
Qed.

Lemma snapshot_constructed (c : Client) m rid snapshot data L asks bids :
  split_head "@"%char rid = rid ->
  get (KString rid) (_level2SnapshotSubs c) = Some m ->
  field_of snapshot "stream" = Some (Some (JStr (rid +:+ "@depth20"))) ->
  field_of snapshot "data" = Some (Some data) ->
  field_of data "lastUpdateId" = Some L ->
  field_of data "asks" = Some (Some (JArr asks)) ->
  field_of data "bids" = Some (Some (JArr bids)) ->
  Forall (fun p => p <> JNull) asks ->
  Forall (fun p => p <> JNull) bids ->
  _constructLevel2Snapshot snapshot c =
  (c, Returned (ALevel2Update (mkLevel2 "Binance" (base m) (quote m) L undefined
                                 (List.map point_of asks) (List.map point_of bids)))).
Proof.
  intros Hrid Hget Hstream Hdata HL Hasks Hbids Ha Hb.
  unfold _constructLevel2Snapshot.
  bind_field. unfold split_at_0.
  bind_with ltac:(reflexivity).
  change (rid +:+ "@depth20") with (rid +:+ String "@"%char "depth20").
  rewrite (split_head_append rid "depth20" Hrid).
  unfold bind at 1. unfold gets. rewrite Hget.
  repeat bind_field.
  bind_with ltac:(reflexivity).
  bind_with ltac:(apply points_returned; assumption).
  bind_field.
  bind_with ltac:(reflexivity).
  bind_with ltac:(apply points_returned; assumption).
  reflexivity.
Qed.

Lemma update_constructed (c : Client) m symbol update data U u asks bids :
  get (KString (lower symbol)) (_level2UpdateSubs c) = Some m ->
  field_of update "data" = Some (Some data) ->
  field_of data "s" = Some (Some (JStr symbol)) ->
  field_of data "U" = Some U ->
  field_of data "u" = Some u ->
  field_of data "a" = Some (Some (JArr asks)) ->
  field_of data "b" = Some (Some (JArr bids)) ->
  Forall (fun p => p <> JNull) asks ->
  Forall (fun p => p <> JNull) bids ->
  _constructLevel2Update update c =
  (c, Returned (ALevel2Snapshot (mkLevel2 "Binance" (base m) (quote m) U u
                                   (List.map point_of asks) (List.map point_of bids)))).
Proof.
  intros Hget Hdata Hs HU Hu Hasks Hbids Ha Hb.
  unfold _constructLevel2Update.
  repeat bind_field.
  bind_with ltac:(reflexivity).
  unfold bind at 1. unfold gets. rewrite Hget.
  repeat bind_field.
  bind_with ltac:(reflexivity).
  bind_with ltac:(apply points_returned; assumption).
  bind_field.
  bind_with ltac:(reflexivity).
  bind_with ltac:(apply points_returned; assumption).
  reflexivity.
Qed.

Lemma emitted_data_frame name p (c : Client) :
  emitted (emitted_data name p c) = (emitted c ++ [mkEvent name (Some p)])%list
  /\ _tradeSubs (emitted_data name p c) = _tradeSubs c
  /\ _level2SnapshotSubs (emitted_data name p c) = _level2SnapshotSubs c
  /\ _level2UpdateSubs (emitted_data name p c) = _level2UpdateSubs c.
Proof. destruct c; repeat split; reflexivity. Qed.

Lemma snapshot_frame (c : Client) rid snapshot p :
  field_of snapshot "stream" = Some (Some (JStr (rid +:+ "@depth20"))) ->
  _constructLevel2Snapshot snapshot c = (c, Returned p) ->
  _onMessage snapshot c = (emitted_data "l2snapshot" p c, Returned tt).
Proof.
  intros Hstream Hc. unfold _onMessage.
  bind_field. unfold ends_with.
  rewrite !endsWith_append by (simpl; lia).
  bind_with ltac:(reflexivity).
  bind_with ltac:(reflexivity).
  bind_with ltac:(reflexivity).
  change (endsWith "@depth20" "depth20") with true. cbv iota.
  erewrite bind_returned.
  2: { bind_with ltac:(exact Hc). reflexivity. }
  bind_with ltac:(reflexivity).
  reflexivity.
Qed.

Lemma update_frame (c : Client) rid update p :
  field_of update "stream" = Some (Some (JStr (rid +:+ "@depth"))) ->
  _constructLevel2Update update c = (c, Returned p) ->
  _onMessage update c = (emitted_data "l2update" p c, Returned tt).
Proof.
  intros Hstream Hc. unfold _onMessage.
  bind_field. unfold ends_with.
  assert (E1 : endsWith (rid +:+ "@depth") "aggTrade" = false)
    by (apply (endsWith_append_false rid "@depth" "ag" "gTrade"); [simpl; lia | reflexivity]).
  assert (E2 : endsWith (rid +:+ "@depth") "depth20" = false)
    by (apply (endsWith_append_false rid "@depth" "d" "epth20"); [simpl; lia | reflexivity]).
  rewrite E1, E2, endsWith_append by (simpl; lia).
  bind_with ltac:(reflexivity).
  bind_with ltac:(reflexivity).
  bind_with ltac:(reflexivity).
  bind_with ltac:(reflexivity).
  bind_with ltac:(reflexivity).
  change (endsWith "@depth" "depth") with true. cbv iota.
  bind_with ltac:(exact Hc). reflexivity.
Qed.

(** C4 (as amended).  For a market held under its key in the snapshot and
    the update Map, the key holding no "@", a partial-book frame on its
    stream and a depth-update frame after it are emitted as [l2snapshot] and
    [l2update]; the records carry the exchange "Binance", the base and quote
    of that market, the points of the frame, and as sequenceId the frame's
    own [lastUpdateId], respectively [U] (with [u] as lastSequenceId),
    forwarded as they are.  The update frame names the market by a symbol
    that is the key in any case of its letters. *)
Theorem frames_forward_their_sequence_ids (c : Client) (m : Market) (rid symbol : string)
    (snapshot update data_s data_u : Json) (L U u : Value number)
    (asks_s bids_s asks_u bids_u : list Json) :
  includes "@"%char rid = false ->
  lower symbol = rid ->
  get (KString rid) (_level2SnapshotSubs c) = Some m ->
  get (KString rid) (_level2UpdateSubs c) = Some m ->
  field_of snapshot "stream" = Some (Some (JStr (rid +:+ "@depth20"))) ->
  field_of snapshot "data" = Some (Some data_s) ->
  field_of data_s "lastUpdateId" = Some L ->
  field_of data_s "asks" = Some (Some (JArr asks_s)) ->
  field_of data_s "bids" = Some (Some (JArr bids_s)) ->
  Forall (fun p => p <> JNull) asks_s ->
  Forall (fun p => p <> JNull) bids_s ->
  field_of update "stream" = Some (Some (JStr (rid +:+ "@depth"))) ->
  field_of update "data" = Some (Some data_u) ->
  field_of data_u "s" = Some (Some (JStr symbol)) ->
  field_of data_u "U" = Some U ->
  field_of data_u "u" = Some u ->
  field_of data_u "a" = Some (Some (JArr asks_u)) ->
  field_of data_u "b" = Some (Some (JArr bids_u)) ->
  Forall (fun p => p <> JNull) asks_u ->
  Forall (fun p => p <> JNull) bids_u ->
  exists first second,
    outcome (_onMessage snapshot;; _onMessage update) c = Returned tt
    /\ emitted (exec (_onMessage snapshot;; _onMessage update) c)
       = (emitted c ++ [mkEvent "l2snapshot" (Some first); mkEvent "l2update" (Some second)])%list
    /\ level2_record first
       = Some (mkLevel2 "Binance" (base m) (quote m) L undefined
                 (List.map point_of asks_s) (List.map point_of bids_s))
    /\ level2_record second
       = Some (mkLevel2 "Binance" (base m) (quote m) U u
                 (List.map point_of asks_u) (List.map point_of bids_u)).
Proof.
  intros Hrid Hsym Hgs Hgu Hs1 Hs2 Hs3 Hs4 Hs5 Hs6 Hs7 Hu1 Hu2 Hu3 Hu4 Hu5 Hu6 Hu7 Hu8 Hu9.
  apply split_head_whole in Hrid.
  pose proof (snapshot_constructed c m rid snapshot data_s L asks_s bids_s
                Hrid Hgs Hs1 Hs2 Hs3 Hs4 Hs5 Hs6 Hs7) as Hsnap.
  pose proof (snapshot_frame c rid snapshot _ Hs1 Hsnap) as Hf1.
  set (first := ALevel2Update _) in *.
  set (c1 := emitted_data "l2snapshot" first c) in *.
  destruct (emitted_data_frame "l2snapshot" first c) as (E1 & _ & _ & E4). fold c1 in E1, E4.
  assert (Hgu1 : get (KString (lower symbol)) (_level2UpdateSubs c1) = Some m)
    by (rewrite E4, Hsym; exact Hgu).
  pose proof (update_constructed c1 m symbol update data_u U u asks_u bids_u
                Hgu1 Hu2 Hu3 Hu4 Hu5 Hu6 Hu7 Hu8 Hu9) as Hupd.
  pose proof (update_frame c1 rid update _ Hu1 Hupd) as Hf2.
  set (second := ALevel2Snapshot _) in *.
  destruct (emitted_data_frame "l2update" second c1) as (E1' & _).
  exists first, second.
  unfold outcome, exec. erewrite bind_returned by exact Hf1. rewrite Hf2. cbn [fst snd].
  rewrite E1', E1, <- app_assoc. repeat split; reflexivity.
Qed.

End Facts.

Import Scenario.

Lemma frames_forward_their_sequence_ids_witness :
  exists first second,
    outcome (_onMessage depth20_frame;; _onMessage depth_frame) binance_subscribed = Returned tt
    /\ emitted (exec (_onMessage depth20_frame;; _onMessage depth_frame) binance_subscribed)
       = [mkEvent "l2snapshot" (Some first); mkEvent "l2update" (Some second)]
    /\ level2_record first
       = Some (mkLevel2 "Binance" "BTC" "USDT" (Some (num 160)) undefined
                 [point_of (JArr [JStr "0.0026"; JStr "100"])]
                 [point_of (JArr [JStr "0.0024"; JStr "10"])])
    /\ level2_record second
       = Some (mkLevel2 "Binance" "BTC" "USDT" (Some (num 157)) (Some (num 160))
                 [point_of (JArr [JStr "0.0026"; JStr "100"])]
                 [point_of (JArr [JStr "0.0024"; JStr "10"])]).
Proof.
  refine (frames_forward_their_sequence_ids binance_subscribed btcusdt "btcusdt" "BTCUSDT"
            depth20_frame depth_frame
            (JObj [("lastUpdateId", num 160);
                   ("bids", JArr [JArr [JStr "0.0024"; JStr "10"]]);
                   ("asks", JArr [JArr [JStr "0.0026"; JStr "100"]])])
            (JObj [("e", JStr "depthUpdate"); ("E", num 123456789);
                   ("s", JStr "BTCUSDT"); ("U", num 157); ("u", num 160);
                   ("b", JArr [JArr [JStr "0.0024"; JStr "10"]]);
                   ("a", JArr [JArr [JStr "0.0026"; JStr "100"]])])
            (Some (num 160)) (Some (num 157)) (Some (num 160))
            [JArr [JStr "0.0026"; JStr "100"]] [JArr [JStr "0.0024"; JStr "10"]]
            [JArr [JStr "0.0026"; JStr "100"]] [JArr [JStr "0.0024"; JStr "10"]]
            _ _ _ _ _ _ _ _ _ _ _ _ _ _ _ _ _ _ _ _);
    try reflexivity; repeat constructor; discriminate.
Defined.

(** C4, as stated, fails: the record built from the snapshot frame is a
    Level2Update, the one built from the update frame a Level2Snapshot, and
    the update's sequenceId, 157, is below the snapshot's, 160.  And a
    market whose id holds an "@" gets no snapshot at all: the frame on its
    stream is looked up under the text before the first "@", and the call
    throws. *)
Lemma binance_frames_counterexample :
  (exists snap upd,
     emitted (exec (_onMessage depth20_frame;; _onMessage depth_frame) binance_subscribed)
     = [mkEvent "l2snapshot" (Some (ALevel2Update snap));
        mkEvent "l2update" (Some (ALevel2Snapshot upd))]
     /\ sequenceId snap = Some (num 160)
     /\ sequenceId upd = Some (num 157))
  /\ (let c := exec (subscribeLevel2Snapshots btc_at_usdt) constructor in
      has (KString "btc@usdt") (_level2SnapshotSubs c) = true
      /\ outcome (_onMessage at_depth20_frame) c = Thrown TypeError
      /\ emitted (exec (_onMessage at_depth20_frame) c) = []).
Proof.
  split.
  - do 2 eexists. split; [reflexivity |]. split; reflexivity.
  - repeat split; reflexivity.
Qed.

End BinanceFrames.

(** ** Binance: connecting, unsubscribing, closing *)
Module BinanceLifecycle.
Import Js Model JsFacts Binance BinanceFacts.

Section Facts.
Context {number : Type} `{Number number} {Un : Unicode}.
Local Abbreviation Client := (Binance.Client number).


(** The debounce callback always ends on a fresh socket whose path is built
    from the Maps as they are then. *)
Lemma cycle_opens (c : Client) :
  let c' := exec (fire DebounceElapsed) c in
  _wss c' = Some (mkWss (url (streams_of c)))
  /\ sockets c' = (sockets c ++ cycle c)%list
  /\ streams_of c' = streams_of c.
Proof. destruct c as [n ts ss us [[p] |] d wt l em so]; simpl; unfold cycle, streams_of; simpl;
         rewrite <- ?app_assoc; repeat split; reflexivity. Qed.

(** [_connect] on a client without socket opens one on that path. *)
Lemma connect_opens (c : Client) :
  _wss c = None ->
  let c' := exec _connect c in
  _wss c' = Some (mkWss (url (streams_of c)))
  /\ sockets c' = (sockets c ++ [SockConnect (url (streams_of c))])%list.
Proof. destruct c as [n ts ss us [[p] |] d wt l em so]; simpl; [discriminate |].
       intros _. split; reflexivity. Qed.

(** [close()] emits [closed] when there is a socket, and only then. *)
Lemma close_emits (c : Client) :
  emitted (exec close c)
  = (emitted c ++ match _wss c with Some _ => [mkEvent "closed" None] | None => [] end)%list.
Proof.
  destruct c as [n ts ss us [s |] d wt l em so]; simpl; [reflexivity |].
  rewrite app_nil_r. reflexivity.
Qed.

Lemma close_twice (c : Client) : exec close (exec close c) = exec close c.
Proof. destruct c as [n ts ss us [s |] d wt l em so]; reflexivity. Qed.

(** [close()] leaves every timer armed. *)
Lemma close_keeps_timers (c : Client) :
  loop (exec close c) = loop c
  /\ _reconnectDebounce (exec close c) = _reconnectDebounce c
  /\ _watcher (exec close c) = _watcher c.
Proof. destruct c as [n ts ss us [s |] d wt l em so]; repeat split; reflexivity. Qed.

(** Deleting a market object from a Map keyed by strings changes nothing. *)
Lemma delete_market_noop (market : Market) (m : Map MapKey Market) :
  Forall (fun kv => exists s, kv.1 = KString s) m -> delete (KMarket market) m = m.
Proof.
  induction 1 as [| [k v] m [s Hk] _ IH]; simpl in *; [reflexivity |].
  subst k. rewrite bool_decide_eq_false_2 by discriminate. simpl. rewrite IH. reflexivity.
Qed.

(** So [_unsubscribe] leaves the Map as it was. *)
Lemma unsubscribe_keeps_every_entry (c : Client) market map :
  Forall (fun kv => exists s, kv.1 = KString s) (subs map c) ->
  subs map (exec (_unsubscribe market map) c) = subs map c.
Proof.
  intros Hk. rewrite unsubscribe_exec.
  destruct (has (KString (lower (id market))) (subs map c)); [| reflexivity].
  rewrite (delete_market_noop market _ Hk).
  destruct c, map; reflexivity.
Qed.
End Facts.

Import Scenario.

(** C5.  The entry survives: [_unsubscribe] tests the Map for the
    lower-cased id and then deletes the market object, which is no key of
    the Map. *)
Theorem unsubscribe_keeps_the_entry :
  let c : Binance.Client Integral.number :=
    exec (subscribeTrades btcusdt;; unsubscribeTrades btcusdt) constructor in
  has (KString "btcusdt") (_tradeSubs c) = true
  /\ _tradeSubs c = [(KString "btcusdt", btcusdt)].
Proof. split; reflexivity. Qed.

End BinanceLifecycle.

(** ** Bittrex: the shared channel *)
Module BittrexFacts.
Import Js Model JsFacts MonadFacts Bittrex.

Section Facts.
Context {number : Type} `{Number number} {Un : Unicode} `{Libraries number}
  {Clk : Clock number}.
Local Abbreviation Client := (Bittrex.Client number).

(** [_connect] returns at once on a client that has a socket. *)
Lemma connect_connected (c : Client) wss :
  _wss c = Some wss -> _connect c = (c, Returned tt).
Proof. intros Hw. unfold _connect, bind, gets. rewrite Hw. reflexivity. Qed.

Lemma wss_call_connected (c : Client) wss method remote_id :
  _wss c = Some wss ->
  wss_call method remote_id c = (push_hub [HubCall wss "CoreHub" method remote_id] c, Returned tt).
Proof. intros Hw. unfold wss_call, bind, gets. rewrite Hw. reflexivity. Qed.

Lemma count_write_plain (k : string) (count : Count) (sc : gmap string Count) :
  inherited k = false -> count_write k count sc = <[k := count]> sc.
Proof.
  intros Hk. unfold count_write.
  destruct (String.eqb_spec k "__proto__") as [-> | _]; [discriminate Hk | reflexivity].
Qed.

Lemma count_read_plain (k : string) (sc : gmap string Count) :
  inherited k = false ->
  count_read sc k = match sc !! k with Some count => Own count | None => Missing end.
Proof. intros Hk. unfold count_read. rewrite Hk. reflexivity. Qed.

(** What [_sendSub] does on a client that has a signalr client and counters. *)
Lemma sendSub_exec (c : Client) wss sc remote_id :
  _wss c = Some wss -> _subCount c = Some sc ->
  let sc' := count_write remote_id (incr (count_read sc remote_id)) sc in
  _sendSub remote_id c =
  (if count_gt1 (count_read sc' remote_id)
   then set_subCount (Some sc') c
   else push_hub ((if has remote_id (_level2UpdateSubs c)
                   then [query_call wss remote_id] else [])
                  ++ [subscribe_call wss remote_id])
          (set_subCount (Some sc') c),
   Returned tt).
Proof.
  intros Hw Hsc. destruct c; cbn [_wss _subCount _level2UpdateSubs] in *; subst. cbv zeta.
  match goal with |- context [has ?k ?m] => destruct (has k m) eqn:Hhas end;
    unfold _sendSub, subCount_at, subCount_set, wss_call, bind, gets, modify, ret;
    cbn [_wss _subCount _level2UpdateSubs set_subCount];
    destruct (count_gt1 _); try reflexivity;
    cbn [_wss _subCount _level2UpdateSubs set_subCount]; rewrite Hhas;
    unfold push_hub; cbn [_wss _subCount _level2UpdateSubs set_subCount hub];
    rewrite <- ?app_assoc; reflexivity.
Qed.

Lemma sendUnsub_exec (c : Client) wss sc remote_id :
  _wss c = Some wss -> _subCount c = Some sc ->
  let sc' := count_write remote_id (decr (count_read sc remote_id)) sc in
  _sendUnsub remote_id c =
  (if count_truthy (count_read sc' remote_id)
   then set_subCount (Some sc') c
   else push_hub [unsubscribe_call wss remote_id] (set_subCount (Some sc') c),
   Returned tt).
Proof.
  intros Hw Hsc. destruct c; simpl in *; subst. cbv zeta.
  unfold _sendUnsub, subCount_at, subCount_set, bind, gets, modify, ret. simpl.
  destruct (count_truthy _); reflexivity.
Qed.

(** The first logical subscription of a market sends the wire subscribe. *)
Lemma sendSub_first (c : Client) wss sc remote_id :
  _wss c = Some wss -> _subCount c = Some sc ->
  inherited remote_id = false -> incr (count_read sc remote_id) = Num 1 ->
  _sendSub remote_id c =
  (push_hub ((if has remote_id (_level2UpdateSubs c) then [query_call wss remote_id] else [])
             ++ [subscribe_call wss remote_id])
     (set_subCount (Some (<[remote_id := Num 1]> sc)) c), Returned tt).
Proof.
  intros Hw Hsc Hk Hi. rewrite (sendSub_exec c wss sc remote_id Hw Hsc). cbv zeta.
  rewrite Hi, (count_write_plain _ _ _ Hk), (count_read_plain _ _ Hk), lookup_insert_eq.
  reflexivity.
Qed.

(** A further one only counts. *)
Lemma sendSub_again (c : Client) wss sc remote_id n :
  _wss c = Some wss -> _subCount c = Some sc ->
  inherited remote_id = false -> sc !! remote_id = Some (Num n) -> 1 <= n ->
  _sendSub remote_id c = (set_subCount (Some (<[remote_id := Num (n + 1)]> sc)) c, Returned tt).
Proof.
  intros Hw Hsc Hk Hn Hle. rewrite (sendSub_exec c wss sc remote_id Hw Hsc). cbv zeta.
  rewrite !(count_read_plain _ _ Hk), Hn. cbn [incr].
  rewrite (count_write_plain _ _ _ Hk), lookup_insert_eq. cbn [count_gt1].
  destruct (Z.ltb_spec 1 (n + 1)); [reflexivity | lia].
Qed.


Lemma sendUnsub_shared (c : Client) wss sc remote_id n :
  _wss c = Some wss -> _subCount c = Some sc ->
  inherited remote_id = false -> sc !! remote_id = Some (Num n) -> n <> 1 ->
  _sendUnsub remote_id c = (set_subCount (Some (<[remote_id := Num (n - 1)]> sc)) c, Returned tt).
Proof.
  intros Hw Hsc Hk Hn Hne. rewrite (sendUnsub_exec c wss sc remote_id Hw Hsc). cbv zeta.
  rewrite !(count_read_plain _ _ Hk), Hn. cbn [decr].
  rewrite (count_write_plain _ _ _ Hk), lookup_insert_eq. cbn [count_truthy].
  destruct (Z.eqb_spec (n - 1) 0); [lia | reflexivity].
Qed.

Lemma sendUnsub_last (c : Client) wss sc remote_id :
  _wss c = Some wss -> _subCount c = Some sc ->
  inherited remote_id = false -> sc !! remote_id = Some (Num 1) ->
  _sendUnsub remote_id c =
  (push_hub [unsubscribe_call wss remote_id]
     (set_subCount (Some (<[remote_id := Num 0]> sc)) c), Returned tt).
Proof.
  intros Hw Hsc Hk Hn. rewrite (sendUnsub_exec c wss sc remote_id Hw Hsc). cbv zeta.
  rewrite !(count_read_plain _ _ Hk), Hn. cbn [decr].
  rewrite (count_write_plain _ _ _ Hk), lookup_insert_eq. reflexivity.
Qed.

Lemma subscribe_connected (c : Client) wss market map :
  _wss c = Some wss -> has (id market) (subs map c) = false ->
  _subscribe market map c =
  _sendSub (id market) (with_subs map (set (id market) market (subs map c)) c).
Proof.
  intros Hw Hh. unfold _subscribe.
  erewrite bind_returned by (eapply connect_connected; eassumption).
  unfold bind at 1. unfold gets at 1. rewrite Hh. simpl.
  unfold bind at 1. unfold modify at 1.
  unfold bind at 1. unfold gets at 1.
  replace (_wss (with_subs map (set (id market) market (subs map c)) c)) with (Some wss)
    by (destruct c, map; simpl in *; congruence).
  reflexivity.
Qed.

Lemma unsubscribe_connected (c : Client) wss market map :
  _wss c = Some wss -> has (id market) (subs map c) = true ->
  _unsubscribe market map c =
  _sendUnsub (id market) (with_subs map (delete (id market) (subs map c)) c).
Proof.
  intros Hw Hh. unfold _unsubscribe.
  unfold bind at 1. unfold gets at 1. rewrite Hh.
  unfold bind at 1. unfold modify at 1.
  unfold bind at 1. unfold gets at 1.
  replace (_wss (with_subs map (delete (id market) (subs map c)) c)) with (Some wss)
    by (destruct c, map; simpl in *; congruence).
  reflexivity.
Qed.

Lemma bittrex_with_subs_frame map m (c : Client) :
  _wss (with_subs map m c) = _wss c /\ _subCount (with_subs map m c) = _subCount c
  /\ hub (with_subs map m c) = hub c /\ subs map (with_subs map m c) = m
  /\ subs (other map) (with_subs map m c) = subs (other map) c.
Proof. destruct c, map; repeat split; reflexivity. Qed.

(** C3 (as amended).  On a client that holds a signalr client and its
    counters, for a market that is in neither Map, that the counters do not
    count yet and whose id no member of Object.prototype bears: subscribing
    trades and then level2 updates leaves the counter at 2 and sends one
    wire subscribe; unsubscribing either of the two leaves it at 1 and sends
    nothing; unsubscribing the other leaves it at 0 and sends one wire
    unsubscribe. *)
Theorem shared_channel_is_counted (c : Client) (wss : nat) (sc : gmap string Count)
    (market : Market) :
  _wss c = Some wss ->
  _subCount c = Some sc ->
  inherited (id market) = false ->
  incr (count_read sc (id market)) = Num 1 ->
  has (id market) (_tradeSubs c) = false ->
  has (id market) (_level2UpdateSubs c) = false ->
  let c2 := exec (subscribeTrades market;; subscribeLevel2Updates market) c in
  count_of c2 (id market) = Some (Num 2)
  /\ hub c2 = (hub c ++ [subscribe_call wss (id market)])%list
  /\ forall first : Subs,
       let c3 := exec (_unsubscribe market first) c2 in
       count_of c3 (id market) = Some (Num 1)
       /\ hub c3 = hub c2
       /\ let c4 := exec (_unsubscribe market (other first)) c3 in
          count_of c4 (id market) = Some (Num 0)
          /\ hub c4 = (hub c3 ++ [unsubscribe_call wss (id market)])%list.
Proof.
  intros Hw Hsc Hin Hi Ht Hu. remember (id market) as k eqn:Ek.
  (* subscribeTrades *)
  pose proof (subscribe_connected c wss market TradeSubs Hw) as S1. rewrite <- Ek in S1.
  specialize (S1 Ht).
  destruct (bittrex_with_subs_frame TradeSubs (set k market (subs TradeSubs c)) c)
    as (F1 & F2 & F3 & F4 & F5).
  remember (with_subs TradeSubs (set k market (subs TradeSubs c)) c) as c1 eqn:Ec1.
  rewrite (sendSub_first c1 wss sc k) in S1 by congruence.
  change (_level2UpdateSubs c1) with (subs (other TradeSubs) c1) in S1.
  rewrite F5 in S1. change (subs (other TradeSubs) c) with (_level2UpdateSubs c) in S1.
  rewrite Hu in S1. change ([] ++ [subscribe_call wss k])%list with [subscribe_call wss k] in S1.
  remember (push_hub [subscribe_call wss k]
              (set_subCount (Some (<[k := Num 1]> sc)) c1)) as c1' eqn:Ec1'.
  assert (P1 : _wss c1' = Some wss /\ _subCount c1' = Some (<[k := Num 1]> sc)
               /\ hub c1' = (hub c ++ [subscribe_call wss k])%list
               /\ _tradeSubs c1' = set k market (_tradeSubs c)
               /\ _level2UpdateSubs c1' = _level2UpdateSubs c).
  { subst c1'. simpl. rewrite F1, F3.
    repeat split; first [assumption | exact F4 | exact F5 | reflexivity]. }
  destruct P1 as (Hw1 & Hc1 & Hh1 & Ht1 & Hu1).
  (* subscribeLevel2Updates *)
  pose proof (subscribe_connected c1' wss market Level2UpdateSubs Hw1) as S2.
  rewrite <- Ek in S2. simpl subs in S2. rewrite Hu1 in S2. specialize (S2 Hu).
  destruct (bittrex_with_subs_frame Level2UpdateSubs (set k market (_level2UpdateSubs c)) c1')
    as (G1 & G2 & G3 & G4 & G5).
  remember (with_subs Level2UpdateSubs (set k market (_level2UpdateSubs c)) c1') as c2 eqn:Ec2.
  rewrite (sendSub_again c2 wss (<[k := Num 1]> sc) k 1) in S2;
    [| congruence | congruence | exact Hin | apply lookup_insert_eq | lia].
  rewrite insert_insert_eq in S2. change (1 + 1) with 2 in S2.
  remember (set_subCount (Some (<[k := Num 2]> sc)) c2) as c2' eqn:Ec2'.
  assert (E2 : exec (subscribeTrades market;; subscribeLevel2Updates market) c = c2').
  { unfold exec, subscribeTrades, subscribeLevel2Updates.
    erewrite bind_returned by exact S1. rewrite S2. reflexivity. }
  cbv zeta. rewrite E2.
  assert (P2 : _wss c2' = Some wss /\ _subCount c2' = Some (<[k := Num 2]> sc)
               /\ hub c2' = (hub c ++ [subscribe_call wss k])%list
               /\ forall map, has k (subs map c2') = true).
  { subst c2'. simpl. rewrite G1, G3. repeat split; try assumption.
    intros map. destruct map; simpl.
    - change (_tradeSubs c2) with (subs (other Level2UpdateSubs) c2). rewrite G5. simpl.
      rewrite Ht1, has_set, bool_decide_eq_true_2 by reflexivity. reflexivity.
    - change (_level2UpdateSubs c2) with (subs Level2UpdateSubs c2). rewrite G4.
      rewrite has_set, bool_decide_eq_true_2 by reflexivity. reflexivity. }
  destruct P2 as (Hw2 & Hc2 & Hh2 & Hs2).
  split; [unfold count_of; rewrite Hc2; apply lookup_insert_eq |].
  split; [exact Hh2 |].
  (* the first unsubscribe *)
  intros first.
  pose proof (unsubscribe_connected c2' wss market first Hw2) as U1. rewrite <- Ek in U1.
  specialize (U1 (Hs2 first)).
  destruct (bittrex_with_subs_frame first (delete k (subs first c2')) c2')
    as (K1 & K2 & K3 & K4 & K5).
  remember (with_subs first (delete k (subs first c2')) c2') as c3 eqn:Ec3.
  rewrite (sendUnsub_shared c3 wss (<[k := Num 2]> sc) k 2) in U1;
    [| congruence | congruence | exact Hin | apply lookup_insert_eq | lia].
  rewrite insert_insert_eq in U1. change (2 - 1) with 1 in U1.
  remember (set_subCount (Some (<[k := Num 1]> sc)) c3) as c3' eqn:Ec3'.
  assert (E3 : exec (_unsubscribe market first) c2' = c3') by (unfold exec; rewrite U1; reflexivity).
  rewrite E3.
  assert (P3 : _wss c3' = Some wss /\ _subCount c3' = Some (<[k := Num 1]> sc)
               /\ hub c3' = hub c2' /\ has k (subs (other first) c3') = true).
  { subst c3'. simpl. rewrite K1, K3. repeat split; try assumption.
    replace (subs (other first) (set_subCount (Some (<[k:=Num 1]> sc)) c3))
      with (subs (other first) c3) by (destruct c3, first; reflexivity).
    rewrite K5. apply Hs2. }
  destruct P3 as (Hw3 & Hc3 & Hh3 & Hs3).
  split; [unfold count_of; rewrite Hc3; apply lookup_insert_eq |].
  split; [exact Hh3 |].
  (* the second unsubscribe *)
  pose proof (unsubscribe_connected c3' wss market (other first) Hw3) as U2. rewrite <- Ek in U2.
  specialize (U2 Hs3).
  destruct (bittrex_with_subs_frame (other first) (delete k (subs (other first) c3')) c3')
    as (L1 & L2 & L3 & _ & _).
  remember (with_subs (other first) (delete k (subs (other first) c3')) c3') as c4 eqn:Ec4.
  rewrite (sendUnsub_last c4 wss (<[k := Num 1]> sc) k) in U2;
    [| congruence | congruence | exact Hin | apply lookup_insert_eq].
  rewrite insert_insert_eq in U2.
  unfold exec. rewrite U2. simpl.
  split; [unfold count_of; simpl; apply lookup_insert_eq |].
  rewrite L3. reflexivity.
Qed.
End Facts.

Import Scenario.

Lemma shared_channel_is_counted_witness :
  let c2 := exec (subscribeTrades btc_eth;; subscribeLevel2Updates btc_eth) bittrex_idle in
  count_of c2 (id btc_eth) = Some (Num 2)
  /\ hub c2 = (hub bittrex_idle ++ [subscribe_call 0 (id btc_eth)])%list
  /\ forall first : Subs,
       let c3 := exec (_unsubscribe btc_eth first) c2 in
       count_of c3 (id btc_eth) = Some (Num 1)
       /\ hub c3 = hub c2
       /\ let c4 := exec (_unsubscribe btc_eth (other first)) c3 in
          count_of c4 (id btc_eth) = Some (Num 0)
          /\ hub c4 = (hub c3 ++ [unsubscribe_call 0 (id btc_eth)])%list.
Proof.
  exact (shared_channel_is_counted bittrex_idle 0 ∅ btc_eth
           ltac:(vm_compute; reflexivity) ltac:(vm_compute; reflexivity)
           ltac:(vm_compute; reflexivity) ltac:(vm_compute; reflexivity)
           ltac:(vm_compute; reflexivity) ltac:(vm_compute; reflexivity)).
Defined.

(** C3, as stated, fails in three ways.  Between the creation of the
    first signalr client and its [connected] event there are no counters,
    and a subscribe throws.  After a [close()] the counters are left as they
    were: a market unsubscribed since then is still counted when the next
    signalr client is created, and subscribing it twice before [connected]
    leaves the counter at 4 and sends nothing.  And for a market called
    "constructor" the counter is text and each subscribe is sent. *)
Lemma shared_channel_counterexample :
  outcome (subscribeTrades eth_ltc) bittrex_starting = Thrown TypeError
  /\ (let c2 := exec (subscribeTrades btc_eth;; subscribeLevel2Updates btc_eth) bittrex_stale in
      _wss bittrex_stale = Some 1%nat
      /\ has (id btc_eth) (_tradeSubs bittrex_stale) = false
      /\ has (id btc_eth) (_level2UpdateSubs bittrex_stale) = false
      /\ count_of c2 (id btc_eth) = Some (Num 4)
      /\ hub c2 = hub bittrex_stale)
  /\ (let c2 := exec (subscribeTrades constructor_market;;
                      subscribeLevel2Updates constructor_market) bittrex_idle in
      count_of c2 "constructor" = Some Text
      /\ hub c2 = (hub bittrex_idle
                   ++ [subscribe_call 0 "constructor"; query_call 0 "constructor";
                       subscribe_call 0 "constructor"])%list).
Proof.
  split; [vm_compute; reflexivity |].
  split; cbv zeta; repeat apply conj; vm_compute; reflexivity.
Qed.

End BittrexFacts.

(** ** Bittrex: what a new connection is told *)
Module BittrexConnected.
Import Js Model JsFacts MonadFacts Bittrex BittrexFacts.

Section Facts.
Context {number : Type} `{Number number} {Un : Unicode} `{Libraries number}
  {Clk : Clock number}.
Local Abbreviation Client := (Bittrex.Client number).








End Facts.
End BittrexConnected.

(** ** Bittrex: unsubscribing, closing, the handshake *)
Module BittrexLifecycle.
Import Js Model JsFacts MonadFacts Frames Bittrex BittrexFacts.

Section Facts.
Context {number : Type} `{Number number} {Un : Unicode} `{Libraries number}
  {Clk : Clock number}.
Local Abbreviation Client := (Bittrex.Client number).

(** *** Unsubscribing *)

Lemma sendUnsub_keeps_subs (c : Client) k map :
  subs map (exec (_sendUnsub k) c) = subs map c.
Proof.
  revert c. change (keeps (fun c c' : Client => subs map c' = subs map c) (_sendUnsub k)).
  assert (refl : forall c : Client, subs map c = subs map c) by reflexivity.
  assert (trans : forall c1 c2 c3 : Client,
             subs map c2 = subs map c1 -> subs map c3 = subs map c2 -> subs map c3 = subs map c1)
    by (intros; congruence).
  unfold _sendUnsub, subCount_at, subCount_set, wss_call.
  repeat keeps_step refl trans; apply keeps_modify; intros c; destruct c, map; reflexivity.
Qed.

(** [_unsubscribe] deletes the id it tested for. *)
Lemma unsubscribe_removes (c : Client) market map :
  has (id market) (subs map (exec (_unsubscribe market map) c)) = false.
Proof.
  unfold exec, _unsubscribe. unfold bind at 1. unfold gets at 1.
  destruct (has (id market) (subs map c)) eqn:Hh; [| exact Hh].
  unfold bind at 1. unfold modify at 1. unfold bind at 1. unfold gets at 1.
  set (c1 := with_subs map _ c).
  assert (H1 : subs map c1 = delete (id market) (subs map c)) by (destruct c, map; reflexivity).
  destruct (_wss c1).
  - change (fst (_sendUnsub (id market) c1)) with (exec (_sendUnsub (id market)) c1).
    rewrite sendUnsub_keeps_subs, H1. apply has_delete.
  - simpl. rewrite H1. apply has_delete.
Qed.

(** *** Closing *)

Lemma bittrex_close_emits (c : Client) :
  emitted (exec (close true) c) = (emitted c ++ [mkEvent "closed" None])%list.
Proof. destruct c as [r cf ts us wt [w |] sc rh l em hb cr hs aw rj rd]; reflexivity. Qed.

(** A second [close()] finds nothing to stop or end, and emits again. *)
Lemma close_again (c : Client) :
  exec (close true) (exec (close true) c)
  = push_emitted (mkEvent "closed" None) (exec (close true) c).
Proof. destruct c as [r cf ts us wt [w |] sc rh l em hb cr hs aw rj rd]; reflexivity. Qed.

(** [close()] disarms the watcher's timer and nothing else. *)
Lemma close_stops_watcher_only (c : Client) b :
  loop (exec (close b) c) = clearTimeout (Watcher.armed (_watcher c)) (loop c)
  /\ Watcher.armed (_watcher (exec (close b) c)) = None
  /\ _reconnectHandle (exec (close b) c) = _reconnectHandle c
  /\ awaiting (exec (close b) c) = awaiting c
  /\ _cloudflare (exec (close b) c) = _cloudflare c
  /\ _wss (exec (close b) c) = None.
Proof. destruct c as [r cf ts us wt [w |] sc rh l em hb cr hs aw rj rd], b; repeat split; reflexivity. Qed.

Lemma bittrex_advance_idle fuel t (c : Client) :
  next_due t (loop c) = None ->
  advance fuel t c = Some (set_loop (set_clock t (loop c)) c).
Proof. intros Hn. destruct fuel; simpl; rewrite Hn; reflexivity. Qed.

Lemma bittrex_quiet_forever (c : Client) fuel t :
  queue (loop c) = [] ->
  exists c', advance fuel t c = Some c'
    /\ emitted c' = emitted c /\ hub c' = hub c /\ queue (loop c') = [].
Proof.
  intros Hq. eexists. split.
  - apply bittrex_advance_idle. unfold next_due. rewrite Hq. reflexivity.
  - destruct c; simpl in *. auto.
Qed.

(** *** A handshake that failed *)

Lemma rejection_is_cached (c : Client) (t : Trigger) :
  handshake_failed c ->
  let c' := exec (job (trigger t)) c in
  handshake_failed c'
  /\ handshakes c' = handshakes c
  /\ rejections c' = S (rejections c)
  /\ hub c' = hub c.
Proof.
  intros (Hcf & Hw & Ha).
  destruct c as [r cf ts us wt w sc rh l em hb cr hs aw rj rd]; simpl in *; subst.
  cbv zeta.
  destruct t as [market [] | [] |];
    unfold handshake_failed, exec, job, trigger, fire, reconnect, close, _subscribe, _connect,
      microtasks, emit, watcher_stop, bind, gets, modify, ret; simpl;
    try (match goal with |- context [has ?k ?m] => destruct (has k m) end; simpl);
    repeat split; reflexivity.
Qed.

Lemma resumed_rejected (x : Client) :
  _cloudflare x = Some Rejected ->
  _connect_resumed x = (set_rejections (S (rejections x)) x, Returned tt).
Proof. intros Hx. unfold _connect_resumed, bind, gets. rewrite Hx. reflexivity. Qed.

Lemma all_resumed_rejected n : forall x : Client,
  _cloudflare x = Some Rejected ->
  times n _connect_resumed x = (set_rejections (n + rejections x) x, Returned tt).
Proof.
  induction n as [| n IH]; intros x Hx; simpl.
  - destruct x; reflexivity.
  - erewrite bind_returned by (apply resumed_rejected; exact Hx).
    rewrite IH by (destruct x; exact Hx).
    destruct x; simpl. unfold set_rejections; simpl. do 2 f_equal. lia.
Qed.

Lemma failure_rejects (c : Client) :
  _cloudflare c = Some Pending -> _wss c = None ->
  let c' := exec (job (cloudflare_done None)) c in
  handshake_failed c'
  /\ handshakes c' = handshakes c
  /\ rejections c' = (awaiting c + rejections c)%nat
  /\ hub c' = hub c.
Proof.
  intros Hcf Hw.
  destruct c as [r cf ts us wt w sc rh l em hb cr hs aw rj rd]; simpl in *; subst.
  unfold job, exec, cloudflare_done, microtasks, bind, gets, modify; simpl.
  rewrite all_resumed_rejected by reflexivity.
  unfold handshake_failed. simpl. repeat split; reflexivity.
Qed.

(** C8 (as amended).  When the handshake fails, the connect attempts that
    wait for it are rejected, and the rejected promise stays cached: every
    later trigger of a connect (a subscribe, [reconnect()], the retry timer)
    is rejected in turn, and no further handshake is made. *)
Theorem failed_handshake_is_cached (c : Client) (later : list Trigger) :
  _cloudflare c = Some Pending ->
  _wss c = None ->
  let failed := exec (job (cloudflare_done None)) c in
  rejections failed = (awaiting c + rejections c)%nat
  /\ _wss failed = None
  /\ let c' := foldl (fun x t => exec (job (trigger t)) x) failed later in
     _cloudflare c' = Some Rejected
     /\ handshakes c' = handshakes c
     /\ _wss c' = None
     /\ rejections c' = (length later + (awaiting c + rejections c))%nat
     /\ hub c' = hub c.
Proof.
  intros Hcf Hw. destruct (failure_rejects c Hcf Hw) as (Hf & Hh & Hr & Hb).
  cbv zeta. set (failed := exec (job (cloudflare_done None)) c) in *.
  split; [exact Hr |]. split; [apply Hf |].
  rewrite <- Hr, <- Hh, <- Hb. clear Hr Hh Hb. clearbody failed. revert failed Hf.
  induction later as [| t later IH]; intros x Hf; simpl.
  - destruct Hf as (F1 & F2 & _). repeat split; assumption.
  - destruct (rejection_is_cached x t Hf) as (Hf' & Hh' & Hr' & Hb').
    destruct (IH _ Hf') as (I1 & I2 & I3 & I4 & I5).
    rewrite I2, I4, I5, Hh', Hr', Hb'. repeat split; try assumption. lia.
Qed.
End Facts.

Import Scenario.

Lemma failed_handshake_is_cached_witness :
  let c := exec (job (subscribeTrades btc_eth)) (constructor 90000 : Client Integral.number) in
  let failed := exec (job (cloudflare_done None)) c in
  rejections failed = (awaiting c + rejections c)%nat
  /\ _wss failed = None
  /\ let c' := foldl (fun x t => exec (job (trigger t)) x) failed [TriggerReconnect true] in
     _cloudflare c' = Some Rejected
     /\ handshakes c' = handshakes c
     /\ _wss c' = None
     /\ rejections c' = (length [TriggerReconnect true] + (awaiting c + rejections c))%nat
     /\ hub c' = hub c.
Proof.
  exact (failed_handshake_is_cached
           (exec (job (subscribeTrades btc_eth)) (constructor 90000 : Client Integral.number))
           [TriggerReconnect true] eq_refl eq_refl).
Defined.

(** C8, as stated, fails: after the failed handshake an explicit
    [reconnect()] makes no second handshake and is rejected as well. *)
Lemma handshake_is_not_retried :
  let c0 : Client Integral.number := constructor 90000 in
  let c1 := exec (job (subscribeTrades btc_eth)) c0 in
  let c2 := exec (job (cloudflare_done None)) c1 in
  let c3 := exec (job (reconnect true)) c2 in
  handshakes c1 = 1%nat /\ _cloudflare c2 = Some Rejected /\ rejections c2 = 1%nat
  /\ handshakes c3 = 1%nat /\ rejections c3 = 2%nat /\ _wss c3 = None.
Proof. repeat split; reflexivity. Qed.

End BittrexLifecycle.

(** ** Bittrex: trade ids *)
Module BittrexTrades.
Import Js Model JsFacts MonadFacts Bittrex.

Section Facts.
Context {number : Type} `{Number number} {Un : Unicode} `{Libraries number}
  {Clk : Clock number}.
Local Abbreviation Client := (Bittrex.Client number).
Local Abbreviation Json := (Js.Json number).

Ltac bind_with tac := erewrite bind_returned; [| tac].
Ltac bind_field := bind_with ltac:(apply field_returned; eassumption).

(** A call of moment on a time stamp it reads without the wall clock. *)
Lemma moment_utc_returned (c : Client) (timeStamp : Value number) (ms : number) :
  (forall now, moment_utc_valueOf now timeStamp = Returned ms) ->
  moment_utc timeStamp c = (set_reads (S (reads c)) c, Returned ms).
Proof.
  intros Hms. unfold moment_utc, bind, gets, modify. rewrite Hms. reflexivity.
Qed.

(** The id of a fill whose rate and quantity are numbers. *)
Lemma getTradeId_returned (c : Client) (fill : Json) timeStamp ms orderType rate quantity :
  field_of fill "TimeStamp" = Some timeStamp ->
  (forall now, moment_utc_valueOf now timeStamp = Returned ms) ->
  field_of fill "OrderType" = Some orderType ->
  field_of fill "Rate" = Some (Some (JNum rate)) ->
  field_of fill "Quantity" = Some (Some (JNum quantity)) ->
  _getTradeId fill c =
  (set_reads (S (reads c)) c,
   Returned (md5_hex (num_toString ms +:+ ":"
                      +:+ (if is_string orderType "BUY" then "1" else "0") +:+ ":"
                      +:+ num_toFixed rate 8 +:+ ":" +:+ num_toFixed quantity 8))).
Proof.
  intros Ht Hms Ho Hr Hq. unfold _getTradeId.
  bind_field. bind_with ltac:(apply moment_utc_returned; exact Hms).
  repeat (bind_field || bind_with ltac:(reflexivity)). reflexivity.
Qed.

Lemma trade_constructed (c : Client) (fill : Json) name market timeStamp ms orderType
    rate quantity :
  get_value name (_tradeSubs c) = Some market ->
  field_of fill "TimeStamp" = Some timeStamp ->
  (forall now, moment_utc_valueOf now timeStamp = Returned ms) ->
  field_of fill "OrderType" = Some orderType ->
  field_of fill "Rate" = Some (Some (JNum rate)) ->
  field_of fill "Quantity" = Some (Some (JNum quantity)) ->
  _constructTradeFromMessage fill name c
  = (set_reads (S (S (reads c))) c,
     Returned (mkTrade "Bittrex" (base market) (quote market)
                 (Some (JStr (md5_hex (num_toString ms +:+ ":"
                                       +:+ (if is_string orderType "BUY" then "1" else "0")
                                       +:+ ":" +:+ num_toFixed rate 8 +:+ ":"
                                       +:+ num_toFixed quantity 8))))
                 (Some (JNum ms))
                 (Some (JStr (if is_string orderType "BUY" then "buy" else "sell")))
                 (Some (JStr (num_toFixed rate 8))) (Some (JStr (num_toFixed quantity 8))))).
Proof.
  intros Hm Ht Hms Ho Hr Hq.
  unfold _constructTradeFromMessage.
  unfold bind at 1. unfold gets at 1. rewrite Hm.
  bind_with ltac:(eapply getTradeId_returned; eassumption).
  bind_field. bind_with ltac:(apply moment_utc_returned; exact Hms).
  repeat (bind_field || bind_with ltac:(reflexivity)). reflexivity.
Qed.
End Facts.

Section Runs.
Context {number : Type} `{Number number} {Un : Unicode} `{Libraries number}.
Local Abbreviation Client := (Bittrex.Client number).
Local Abbreviation Json := (Js.Json number).

(** C10 (as amended).  The tradeId is the md5 of the text
    [ms:buysell:price:amount]: the time moment reads in the TimeStamp, 1 for
    the OrderType "BUY" and 0 for any other, and the rate and the quantity at
    8 decimals.  Two fills with the same TimeStamp, one that moment reads
    without the wall clock, the same OrderType, and rates and quantities
    that agree at 8 decimals get that same tradeId in any two runs (two
    clients, each with the wall clock of its run) and under any two market
    names; the rest of the fill and the market have no part in it. *)
Theorem trade_id_repeats (run1 run2 : Clock number) (c1 c2 : Client) (fill1 fill2 : Json)
    (ms rate1 rate2 quantity1 quantity2 : number) :
  field_of fill1 "TimeStamp" = field_of fill2 "TimeStamp" ->
  stamped fill1 ms ->
  field_of fill1 "OrderType" = field_of fill2 "OrderType" ->
  field_of fill1 "Rate" = Some (Some (JNum rate1)) ->
  field_of fill2 "Rate" = Some (Some (JNum rate2)) ->
  num_toFixed rate1 8 = num_toFixed rate2 8 ->
  field_of fill1 "Quantity" = Some (Some (JNum quantity1)) ->
  field_of fill2 "Quantity" = Some (Some (JNum quantity2)) ->
  num_toFixed quantity1 8 = num_toFixed quantity2 8 ->
  let buy := is_string (default undefined (field_of fill1 "OrderType")) "BUY" in
  let id := md5_hex (num_toString ms +:+ ":" +:+ (if buy then "1" else "0") +:+ ":"
                     +:+ num_toFixed rate1 8 +:+ ":" +:+ num_toFixed quantity1 8) in
  outcome (_getTradeId (Clk := run1) fill1) c1 = Returned id
  /\ outcome (_getTradeId (Clk := run2) fill2) c2 = Returned id
  /\ forall name1 name2 market1 market2,
       get_value name1 (_tradeSubs c1) = Some market1 ->
       get_value name2 (_tradeSubs c2) = Some market2 ->
       exists trade1 trade2,
         outcome (_constructTradeFromMessage (Clk := run1) fill1 name1) c1 = Returned trade1
         /\ outcome (_constructTradeFromMessage (Clk := run2) fill2 name2) c2 = Returned trade2
         /\ tradeId trade1 = Some (JStr id)
         /\ tradeId trade2 = Some (JStr id).
Proof.
  intros Ht Hms Ho Hr1 Hr2 Hr Hq1 Hq2 Hq.
  assert (Ht1 : exists timeStamp, field_of fill1 "TimeStamp" = Some timeStamp).
  { destruct fill1; try discriminate; simpl; eauto. }
  destruct Ht1 as [timeStamp Ht1].
  assert (Ht2 : field_of fill2 "TimeStamp" = Some timeStamp) by congruence.
  assert (Ho1 : exists orderType, field_of fill1 "OrderType" = Some orderType).
  { destruct fill1; try discriminate; simpl; eauto. }
  destruct Ho1 as [orderType Ho1].
  assert (Ho2 : field_of fill2 "OrderType" = Some orderType) by congruence.
  unfold stamped in Hms. rewrite Ht1 in Hms. rewrite Ho1. cbn [default from_option Datatypes.id].
  cbv zeta. unfold outcome.
  split; [erewrite (getTradeId_returned (Clk := run1)) by eassumption; reflexivity |].
  split; [erewrite (getTradeId_returned (Clk := run2)) by eassumption;
          rewrite Hr, Hq; reflexivity |].
  intros name1 name2 market1 market2 Hm1 Hm2.
  do 2 eexists.
  erewrite (trade_constructed (Clk := run1)) by eassumption.
  erewrite (trade_constructed (Clk := run2)) by eassumption.
  cbn [snd tradeId]. rewrite Hr, Hq. repeat split; reflexivity.
Qed.
End Runs.

Import Scenario.

Lemma trade_id_repeats_witness :
  let id := md5_hex (num_toString (Some 1519905600500 : Integral.number) +:+ ":"
                     +:+ (if is_string (default undefined (field_of fill_one "OrderType")) "BUY"
                          then "1" else "0") +:+ ":"
                     +:+ num_toFixed (Some 7 : Integral.number) 8 +:+ ":"
                     +:+ num_toFixed (Some 2 : Integral.number) 8) in
  outcome (_getTradeId (Clk := Integral.clock_from 0) fill_one) bittrex_connected = Returned id
  /\ outcome (_getTradeId (Clk := Integral.clock_from 86400000) fill_two) bittrex_connected
     = Returned id
  /\ forall name1 name2 market1 market2,
       get_value name1 (_tradeSubs bittrex_connected) = Some market1 ->
       get_value name2 (_tradeSubs bittrex_connected) = Some market2 ->
       exists trade1 trade2,
         outcome (_constructTradeFromMessage (Clk := Integral.clock_from 0) fill_one name1)
           bittrex_connected = Returned trade1
         /\ outcome (_constructTradeFromMessage (Clk := Integral.clock_from 86400000)
                       fill_two name2) bittrex_connected = Returned trade2
         /\ tradeId trade1 = Some (JStr id)
         /\ tradeId trade2 = Some (JStr id).
Proof.
  apply (trade_id_repeats (Integral.clock_from 0) (Integral.clock_from 86400000)
           bittrex_connected bittrex_connected fill_one fill_two
           (Some 1519905600500) (Some 7) (Some 7) (Some 2) (Some 2));
    first [intros now; reflexivity | vm_compute; reflexivity].
Defined.

(** C10, as stated, fails for fills that carry no TimeStamp: moment then
    reads the wall clock, and one and the same fill gets one id in a run
    that handles it at noon and another in a run that handles it a day
    later. *)
Lemma trade_id_counterexample :
  field_of fill_unstamped "TimeStamp" = Some undefined
  /\ outcome (_getTradeId (Clk := Integral.clock_from 1519905600000) fill_unstamped)
       bittrex_connected
     = Returned "md5(1519905600000:1:7.00000000:2.00000000)"
  /\ outcome (_getTradeId (Clk := Integral.clock_from 1519992000000) fill_unstamped)
       bittrex_connected
     = Returned "md5(1519992000000:1:7.00000000:2.00000000)".
Proof. repeat apply conj; vm_compute; reflexivity. Qed.

(** Two fills of one frame that differ in their id only are emitted as two
    trades with one tradeId. *)
Example two_fills_one_id :
  List.map (fun e => match payload e with
                     | Some (ATrade t) => tradeId t
                     | _ => None
                     end)
    (emitted (exec (_onMessage (Some exchange_state_frame)) bittrex_connected))
  = [None;
     Some (JStr "md5(1519905600500:1:7.00000000:2.00000000)");
     Some (JStr "md5(1519905600500:1:7.00000000:2.00000000)");
     None].
Proof. vm_compute. reflexivity. Qed.

End BittrexTrades.

(** ** Bitfinex: frames that are dropped *)
Module BitfinexFacts.
Import Js Model JsFacts MonadFacts Bitfinex.

Section Facts.
Context {number : Type} `{Number number} {Un : Unicode}.
Local Abbreviation Client := (Bitfinex.Client number).
Local Abbreviation Json := (Js.Json number).

(** A frame that is not null has every field and index, possibly undefined. *)
Lemma field_of_defined (msg : Json) name : msg <> JNull -> is_Some (field_of msg name).
Proof. destruct msg; intros Hm; try contradiction; simpl; eauto. Qed.

Lemma index_of_defined (msg : Json) i : msg <> JNull -> is_Some (index_of msg i).
Proof. destruct msg; intros Hm; try contradiction; simpl; eauto. Qed.

(** What [_onMessage] does with a frame that is no acknowledgment, once
    its leading element has been converted and looked up. *)
Lemma frame_looked_up (c : Client) (msg : Json) m0 :
  is_ack msg = false ->
  index_of msg 0 = Some m0 ->
  convertible m0 = true ->
  _onMessage msg c
  = (let channel := lookup (property_key m0) c in
     if negb (slot_truthy channel) then ret tt
     else
       m1 <- index (Some msg) 1;;
       if is_string m1 "hb" then ret tt
       else
         kind <- slot_field channel "channel";;
         prec <- slot_field channel "prec";;
         if (is_string kind "trades" && is_string m1 "tu")%bool
         then _onTradeMessage msg
         else if (is_string kind "book" && is_string prec "R0")%bool
         then (if isArray m1 then _onLevel3Snapshot msg channel
               else _onLevel3Update msg channel)
         else if is_string kind "book"
         then (if isArray m1 then _onLevel2Snapshot msg else _onLevel2Update msg)
         else ret tt) c.
Proof.
  intros Hack Hm0 Hconv.
  assert (Hnull : msg <> JNull) by (intros ->; discriminate Hm0).
  destruct (field_of_defined msg "event" Hnull) as [event Hevent].
  unfold is_ack in Hack. rewrite Hevent in Hack.
  unfold _onMessage.
  erewrite bind_returned by (apply field_returned; exact Hevent).
  rewrite Hack.
  unfold index at 1. rewrite Hm0.
  erewrite bind_returned by reflexivity.
  unfold channel_of, ToPropertyKey. rewrite Hconv.
  erewrite bind_returned by reflexivity.
  reflexivity.
Qed.

(** A frame whose leading element does not convert throws at the lookup. *)
Lemma frame_not_keyed (c : Client) (msg : Json) :
  is_ack msg = false -> keyed msg = false -> _onMessage msg c = (c, Thrown TypeError).
Proof.
  intros Hack Hkey.
  assert (Hcases : msg = JNull \/ msg <> JNull)
    by (destruct msg; first [left; reflexivity | right; discriminate]).
  destruct Hcases as [-> | Hnull]; [reflexivity |].
  destruct (field_of_defined msg "event" Hnull) as [event Hevent].
  destruct (index_of_defined msg 0 Hnull) as [m0 Hm0].
  unfold is_ack in Hack. rewrite Hevent in Hack.
  unfold keyed in Hkey. rewrite Hm0 in Hkey.
  unfold _onMessage.
  erewrite bind_returned by (apply field_returned; exact Hevent).
  rewrite Hack.
  unfold index at 1. rewrite Hm0.
  erewrite bind_returned by reflexivity.
  unfold channel_of, ToPropertyKey. rewrite Hkey. reflexivity.
Qed.

(** C9 (as amended).  A frame that is no 'subscribed' acknowledgment, and
    that is a heartbeat or leads with a channel id the registry has no entry
    for, leaves the client as it was: nothing emitted, the Maps and the
    registry untouched.  [_onMessage] returns when the leading element of
    the frame converts to a property key, and throws a TypeError when it
    does not: the registry is indexed before the heartbeat is tested. *)
Theorem unknown_frames_are_dropped (c : Client) (msg : Json) :
  is_ack msg = false ->
  is_heartbeat msg = true \/ unregistered c msg = true ->
  _onMessage msg c = (c, if keyed msg then Returned tt else Thrown TypeError).
Proof.
  intros Hack Hdrop.
  destruct (keyed msg) eqn:Hkey; [| apply frame_not_keyed; assumption].
  assert (Hnull : msg <> JNull) by (intros ->; discriminate Hkey).
  destruct (index_of_defined msg 0 Hnull) as [m0 Hm0].
  destruct (index_of_defined msg 1 Hnull) as [m1 Hm1].
  unfold keyed in Hkey. rewrite Hm0 in Hkey.
  rewrite (frame_looked_up c msg m0 Hack Hm0 Hkey). cbv zeta.
  unfold is_heartbeat, unregistered in Hdrop. rewrite Hm0, Hm1 in Hdrop.
  destruct (lookup (property_key m0) c) as [v |] eqn:Hlook.
  - (* a value of JSON *)
    cbn [slot_truthy]. destruct (truthy v) eqn:Hv; [| reflexivity].
    destruct Hdrop as [Hhb | Hun]; [| discriminate Hun].
    cbn [negb]. unfold index. rewrite Hm1.
    erewrite bind_returned by reflexivity.
    rewrite Hhb. reflexivity.
  - (* a built-in: no kind of channel *)
    cbn [slot_truthy negb]. unfold index. rewrite Hm1.
    erewrite bind_returned by reflexivity.
    destruct (is_string m1 "hb"); reflexivity.
Qed.
End Facts.

Import Scenario.

Lemma unknown_frames_are_dropped_witness :
  _onMessage early_frame bitfinex_acknowledged
  = (bitfinex_acknowledged, if keyed early_frame then Returned tt else Thrown TypeError)
  /\ _onMessage heartbeat_frame bitfinex_acknowledged
     = (bitfinex_acknowledged, if keyed heartbeat_frame then Returned tt else Thrown TypeError).
Proof.
  split.
  - apply (unknown_frames_are_dropped bitfinex_acknowledged early_frame);
      [vm_compute; reflexivity | right; vm_compute; reflexivity].
  - apply (unknown_frames_are_dropped bitfinex_acknowledged heartbeat_frame);
      [vm_compute; reflexivity | left; vm_compute; reflexivity].
Defined.

(** C9, as stated, fails: a heartbeat whose leading element is an object
    with a property [toString] of its own does not return; the conversion
    of the element to a property key throws. *)
Lemma heartbeat_counterexample :
  is_ack unkeyed_heartbeat_frame = false
  /\ is_heartbeat unkeyed_heartbeat_frame = true
  /\ _onMessage unkeyed_heartbeat_frame bitfinex_acknowledged
     = (bitfinex_acknowledged, Thrown TypeError).
Proof. repeat apply conj; vm_compute; reflexivity. Qed.

End BitfinexFacts.

(** ** Bitfinex: the registry and the frames of a channel *)
Module BitfinexChannels.
Import Js Model JsFacts MonadFacts Frames Bitfinex.

Section Facts.
Context {number : Type} `{Number number} {Un : Unicode}.
Local Abbreviation Client := (Bitfinex.Client number).
Local Abbreviation Json := (Js.Json number).

Ltac bind_with tac := erewrite bind_returned; [| tac].
Ltac bind_field := bind_with ltac:(apply field_returned; eassumption).

(** *** The registry *)

Lemma kept_refl (c : Client) : kept c c.
Proof. repeat split. Qed.

Lemma kept_trans (c1 c2 c3 : Client) : kept c1 c2 -> kept c2 c3 -> kept c1 c3.
Proof.
  unfold kept. intros (? & ? & ? & ? & ?) (? & ? & ? & ? & ?). repeat split; congruence.
Qed.

Ltac kept := repeat keeps_step kept_refl kept_trans.

















(** An acknowledgment is filed under the key its chanId converts to, and
    that is all; when the chanId does not convert the call throws. *)
Lemma ack_filed (c : Client) (msg : Json) :
  is_ack msg = true ->
  let chanId := default undefined (field_of msg "chanId") in
  _onMessage msg c
  = if convertible chanId
    then (assign (property_key chanId) msg c, Returned tt)
    else (c, Thrown TypeError).
Proof.
  intros Hack. unfold is_ack in Hack. unfold _onMessage.
  destruct (field_of msg "event") as [event |] eqn:Hevent; [| discriminate Hack].
  erewrite bind_returned by (apply field_returned; exact Hevent).
  rewrite Hack.
  assert (Hnull : msg <> JNull) by (intros ->; discriminate Hevent).
  destruct (BitfinexFacts.field_of_defined msg "chanId" Hnull) as [chanId Hid].
  erewrite bind_returned by (apply field_returned; exact Hid).
  rewrite Hid. cbv zeta. cbn [from_option Datatypes.id default].
  unfold ToPropertyKey.
  destruct (convertible chanId); reflexivity.
Qed.



(** *** The frames of a registered channel *)

(** What the registry holds under a key with a [channel] property is an
    object: it has every property, and it is truthy. *)
Lemma channel_is_object (chan : Json) name v :
  field_of chan name = Some (Some v) -> exists props, chan = JObj props.
Proof. destruct chan; try discriminate; eauto. Qed.

(** An entry the registry holds is what the lookup finds. *)
Lemma lookup_held (c : Client) key chan :
  _channels c !! key = Some chan -> lookup key c = Data (Some chan).
Proof. intros Hk. unfold lookup. rewrite Hk. reflexivity. Qed.

Lemma channel_of_held (c : Client) v chan :
  convertible v = true ->
  _channels c !! property_key v = Some chan ->
  channel_of v c = (c, Returned (Data (Some chan))).
Proof.
  intros Hv Hk. unfold channel_of, ToPropertyKey. rewrite Hv.
  erewrite bind_returned by reflexivity.
  unfold gets. rewrite (lookup_held _ _ _ Hk). reflexivity.
Qed.

(** The conversions of an amount that converts. *)
Lemma abs_returned (c : Client) v :
  convertible v = true -> Math_abs_toFixed8 v c = (c, Returned (abs_fixed8 v)).
Proof. intros Hv. unfold Math_abs_toFixed8, ToNumber. rewrite Hv. reflexivity. Qed.

Lemma gt0_returned (c : Client) v :
  convertible v = true -> greater_than_0 v c = (c, Returned (positive v)).
Proof. intros Hv. unfold greater_than_0, ToNumber. rewrite Hv. reflexivity. Qed.

(** The frame of a channel the registry holds, past the lookup. *)
Lemma frame_of_channel (c : Client) (msg : Json) m0 props :
  is_ack msg = false ->
  index_of msg 0 = Some m0 ->
  convertible m0 = true ->
  _channels c !! property_key m0 = Some (JObj props) ->
  _onMessage msg c
  = (m1 <- index (Some msg) 1;;
     if is_string m1 "hb" then ret tt
     else
       let channel := Data (Some (JObj props)) in
       let kind := assoc_prop "channel" props in
       let prec := assoc_prop "prec" props in
       if (is_string kind "trades" && is_string m1 "tu")%bool
       then _onTradeMessage msg
       else if (is_string kind "book" && is_string prec "R0")%bool
       then (if isArray m1 then _onLevel3Snapshot msg channel
             else _onLevel3Update msg channel)
       else if is_string kind "book"
       then (if isArray m1 then _onLevel2Snapshot msg else _onLevel2Update msg)
       else ret tt) c.
Proof.
  intros Hack Hm0 Hconv Hchan.
  rewrite (BitfinexFacts.frame_looked_up c msg m0 Hack Hm0 Hconv). cbv zeta.
  rewrite (lookup_held _ _ _ Hchan). cbn [slot_truthy truthy negb].
  assert (Hnull : msg <> JNull) by (intros ->; discriminate Hm0).
  destruct (BitfinexFacts.index_of_defined msg 1 Hnull) as [m1 Hm1].
  unfold index. rewrite Hm1.
  erewrite !bind_returned by reflexivity.
  destruct (is_string m1 "hb"); reflexivity.
Qed.

(** X2.  On a channel acknowledged as a trades channel, a frame that is
    not a 'tu' frame (a 'te' frame, the snapshot the channel opens with, a
    heartbeat) is dropped: [_onMessage] returns with the client as it was
    and emits nothing.  The frame leads with an element that converts to
    the key of the channel. *)
Theorem trades_channel_emits_on_tu_alone (c : Client) (msg : Json) m0 m1 chan :
  is_ack msg = false ->
  index_of msg 0 = Some m0 ->
  convertible m0 = true ->
  index_of msg 1 = Some m1 ->
  _channels c !! property_key m0 = Some chan ->
  field_of chan "channel" = Some (Some (JStr "trades")) ->
  is_string m1 "tu" = false ->
  _onMessage msg c = (c, Returned tt).
Proof.
  intros Hack Hm0 Hconv Hm1 Hchan Hkind Htu.
  destruct (channel_is_object chan _ _ Hkind) as [props ->].
  rewrite (frame_of_channel c msg m0 props Hack Hm0 Hconv Hchan).
  unfold index. rewrite Hm1. bind_with ltac:(reflexivity).
  destruct (is_string m1 "hb"); [reflexivity |].
  cbv zeta. cbn [field_of] in Hkind. injection Hkind as Hkind. rewrite Hkind, Htu.
  reflexivity.
Qed.

(** X3.  An acknowledgment of a trades channel followed by a 'tu' frame
    that leads with its channel id: the acknowledgment is filed in the
    registry, and the frame is emitted as one trade of the market held
    under the acknowledged pair, with the id, time, price and amount at the
    positions 3 to 6 of the frame and no side.  The chanId converts to a
    key, one that does not read "__proto__", and the frame leads with an
    element that converts to the same key. *)
Theorem acknowledged_channel_delivers_trades (c : Client) (ack : Json) chanId pair market
    (elems : list Json) x0 :
  field_of ack "event" = Some (Some (JStr "subscribed")) ->
  field_of ack "chanId" = Some chanId ->
  convertible chanId = true ->
  property_key chanId <> "__proto__" ->
  field_of ack "channel" = Some (Some (JStr "trades")) ->
  field_of ack "pair" = Some (Some (JStr pair)) ->
  get pair (_tradeSubs c) = Some market ->
  elems !! 0%nat = Some x0 ->
  convertible (Some x0) = true ->
  property_key (Some x0) = property_key chanId ->
  elems !! 1%nat = Some (JStr "tu") ->
  (_onMessage ack;; _onMessage (JArr elems)) c
  = (with_emitted
       (mkEvent "trade"
          (Some (ATrade (mkTrade "Bitfinex" (base market) (quote market)
                           (elems !! 3%nat) (elems !! 4%nat) undefined
                           (elems !! 5%nat) (elems !! 6%nat)))))
       (set_channels (<[property_key chanId := ack]> (_channels c)) c),
     Returned tt).
Proof.
  intros Hevent Hid Hconv Hproto Hkind Hpair Hmarket Hx0 Hconv0 Hkey Htu.
  assert (Hack : is_ack ack = true) by (unfold is_ack; rewrite Hevent; reflexivity).
  destruct (channel_is_object ack _ _ Hkind) as [props ->].
  pose proof (ack_filed c (JObj props) Hack) as Hfiled. cbv zeta in Hfiled.
  rewrite Hid in Hfiled. cbn [from_option Datatypes.id] in Hfiled. rewrite Hconv in Hfiled.
  assert (Hassign : assign (property_key chanId) (JObj props) c
                    = set_channels (<[property_key chanId := JObj props]> (_channels c)) c).
  { unfold assign. destruct (String.eqb_spec (property_key chanId) "__proto__") as [E | _];
      [contradiction | reflexivity]. }
  rewrite Hassign in Hfiled.
  bind_with ltac:(exact Hfiled).
  set (c1 := set_channels _ c).
  assert (Hc1 : _channels c1 !! property_key (Some x0) = Some (JObj props))
    by (rewrite Hkey; apply lookup_insert_eq).
  rewrite (frame_of_channel c1 (JArr elems) (Some x0) props);
    [| reflexivity | cbn [index_of]; rewrite Hx0; reflexivity | exact Hconv0 | exact Hc1].
  unfold index. cbn [index_of]. rewrite Htu.
  bind_with ltac:(reflexivity). cbv zeta.
  cbn [field_of] in Hkind. injection Hkind as Hkind. rewrite Hkind.
  cbn [is_string String.eqb Ascii.eqb Bool.eqb andb].
  unfold _onTradeMessage.
  bind_with ltac:(reflexivity). cbv zeta. rewrite Hx0.
  bind_with ltac:(apply channel_of_held; [exact Hconv0 | exact Hc1]).
  cbn [slot_field]. bind_field.
  bind_with ltac:(unfold gets; cbn [get_value]; reflexivity).
  change (_tradeSubs c1) with (_tradeSubs c). rewrite Hmarket.
  bind_with ltac:(reflexivity).
  reflexivity.
Qed.

(** One entry of a book snapshot. *)
Lemma level2_entry_returned (c : Client) acc (val : Json) :
  priced val = true ->
  level2_entry acc val c
  = (c, Returned (if is_bid val
                  then ((acc.1 ++ [book_point val])%list, acc.2)
                  else (acc.1, (acc.2 ++ [book_point val])%list))).
Proof.
  intros Hp. unfold priced in Hp.
  destruct (index_of val 0) as [[[] |] |] eqn:H0; try discriminate Hp.
  destruct (index_of val 1) as [[[] |] |] eqn:H1; try discriminate Hp.
  destruct (index_of val 2) as [v2 |] eqn:H2; try discriminate Hp.
  unfold level2_entry, index, fixed, is_bid, book_point. rewrite H0, H1, H2.
  cbn [from_option Datatypes.id].
  bind_with ltac:(reflexivity). bind_with ltac:(reflexivity). bind_with ltac:(reflexivity).
  bind_with ltac:(apply abs_returned; exact Hp).
  bind_with ltac:(reflexivity). bind_with ltac:(reflexivity).
  bind_with ltac:(apply gt0_returned; exact Hp).
  destruct (positive v2); reflexivity.
Qed.

Lemma level2_entries_returned (vals : list Json) : forall (c : Client) acc,
  forallb priced vals = true ->
  fold_m level2_entry acc vals c
  = (c, Returned ((acc.1 ++ List.map book_point (List.filter is_bid vals))%list,
                  (acc.2 ++ List.map book_point
                              (List.filter (fun val => negb (is_bid val)) vals))%list)).
Proof.
  induction vals as [| val vals IH]; intros c acc Hp; simpl.
  - rewrite !app_nil_r. destruct acc; reflexivity.
  - simpl in Hp. apply andb_true_iff in Hp as [Hv Hp].
    bind_with ltac:(apply level2_entry_returned; exact Hv).
    rewrite IH by exact Hp.
    destruct (is_bid val); simpl; rewrite <- ?app_assoc; reflexivity.
Qed.

(** X4.  A snapshot frame that leads with an element converting to the key
    of a channel acknowledged as a book channel of a precision other than
    R0: when the price and the count of every entry
    are numbers and its amount converts to a number, one [l2snapshot] is
    emitted for the market held under the acknowledged pair; the entries
    with a positive amount are its bids, the others its asks, each side in
    the order of the frame, and no entry is lost.  An empty snapshot is
    emitted with both sides empty. *)
Theorem book_snapshot_is_split_by_sign (c : Client) (msg : Json) m0 chan pair market
    (vals : list Json) :
  is_ack msg = false ->
  index_of msg 0 = Some m0 ->
  convertible m0 = true ->
  index_of msg 1 = Some (Some (JArr vals)) ->
  _channels c !! property_key m0 = Some chan ->
  field_of chan "channel" = Some (Some (JStr "book")) ->
  is_string (default undefined (field_of chan "prec")) "R0" = false ->
  field_of chan "pair" = Some (Some (JStr pair)) ->
  get pair (_level2UpdateSubs c) = Some market ->
  forallb priced vals = true ->
  _onMessage msg c
  = (with_emitted
       (mkEvent "l2snapshot"
          (Some (ALevel2Snapshot
                   (mkLevel2 "Bitfinex" (base market) (quote market) undefined undefined
                      (List.map book_point (List.filter (fun val => negb (is_bid val)) vals))
                      (List.map book_point (List.filter is_bid vals)))))) c,
     Returned tt)
  /\ (length (List.filter is_bid vals)
      + length (List.filter (fun val => negb (is_bid val)) vals) = length vals)%nat.
Proof.
  intros Hack Hm0 Hconv Hm1 Hchan Hkind Hprec Hpair Hmarket Hvals.
  split.
  2: { clear. induction vals as [| val vals IH]; simpl; [reflexivity |].
       destruct (is_bid val); simpl; lia. }
  destruct (channel_is_object chan _ _ Hkind) as [props ->].
  cbn [field_of from_option Datatypes.id] in Hprec.
  rewrite (frame_of_channel c msg m0 props Hack Hm0 Hconv Hchan).
  unfold index at 1. rewrite Hm1. bind_with ltac:(reflexivity).
  cbn [is_string]. cbv zeta.
  cbn [field_of] in Hkind. injection Hkind as Hkind. rewrite Hkind, Hprec.
  cbn [is_string String.eqb Ascii.eqb Bool.eqb andb isArray].
  unfold _onLevel2Snapshot.
  unfold index at 1. rewrite Hm0. bind_with ltac:(reflexivity).
  bind_with ltac:(apply channel_of_held; [exact Hconv | exact Hchan]).
  cbn [slot_field]. bind_field.
  bind_with ltac:(unfold gets; cbn [get_value]; rewrite Hmarket; reflexivity).
  unfold index at 1. rewrite Hm1. bind_with ltac:(reflexivity).
  bind_with ltac:(reflexivity).
  bind_with ltac:(apply level2_entries_returned; exact Hvals).
  bind_with ltac:(reflexivity).
  reflexivity.
Qed.

(** X5.  An update frame [chanId, price, count, amount] whose chanId
    converts to the key of a channel acknowledged as a book channel of a
    precision other than R0, with
    numbers as price and count and an amount that converts to a number, is
    emitted as one [l2update] that holds one point: among the bids when the
    amount is positive, among the asks otherwise, its size the amount
    without its sign. *)
Theorem book_update_has_one_point (c : Client) (msg : Json) m0 chan pair market
    (price count : number) (amount : Value number) :
  is_ack msg = false ->
  index_of msg 0 = Some m0 ->
  convertible m0 = true ->
  index_of msg 1 = Some (Some (JNum price)) ->
  index_of msg 2 = Some (Some (JNum count)) ->
  index_of msg 3 = Some amount ->
  convertible amount = true ->
  _channels c !! property_key m0 = Some chan ->
  field_of chan "channel" = Some (Some (JStr "book")) ->
  is_string (default undefined (field_of chan "prec")) "R0" = false ->
  field_of chan "pair" = Some (Some (JStr pair)) ->
  get pair (_level2UpdateSubs c) = Some market ->
  let point := mkLevel2Point (Some (JStr (num_toFixed price 8))) (abs_fixed8 amount)
                 (Some (JStr (num_toFixed count 0))) None in
  _onMessage msg c
  = (with_emitted
       (mkEvent "l2update"
          (Some (ALevel2Update
                   (mkLevel2 "Bitfinex" (base market) (quote market) undefined undefined
                      (if positive amount then [] else [point])
                      (if positive amount then [point] else []))))) c,
     Returned tt).
Proof.
  intros Hack Hm0 Hconv Hm1 Hm2 Hm3 Hamount Hchan Hkind Hprec Hpair Hmarket. cbv zeta.
  destruct (channel_is_object chan _ _ Hkind) as [props ->].
  cbn [field_of from_option Datatypes.id] in Hprec.
  rewrite (frame_of_channel c msg m0 props Hack Hm0 Hconv Hchan).
  unfold index at 1. rewrite Hm1. bind_with ltac:(reflexivity).
  cbn [is_string]. cbv zeta.
  cbn [field_of] in Hkind. injection Hkind as Hkind. rewrite Hkind, Hprec.
  cbn [is_string String.eqb Ascii.eqb Bool.eqb andb isArray].
  unfold _onLevel2Update.
  unfold index at 1. rewrite Hm0. bind_with ltac:(reflexivity).
  bind_with ltac:(apply channel_of_held; [exact Hconv | exact Hchan]).
  cbn [slot_field]. bind_field.
  bind_with ltac:(unfold gets; cbn [get_value]; rewrite Hmarket; reflexivity).
  unfold index at 1. rewrite Hm1. bind_with ltac:(reflexivity).
  bind_with ltac:(reflexivity).
  bind_with ltac:(reflexivity).
  unfold index at 1. rewrite Hm3. bind_with ltac:(reflexivity).
  bind_with ltac:(apply abs_returned; exact Hamount).
  unfold index at 1. rewrite Hm2. bind_with ltac:(reflexivity).
  bind_with ltac:(reflexivity).
  bind_with ltac:(apply gt0_returned; exact Hamount).
  bind_with ltac:(reflexivity).
  reflexivity.
Qed.

(** X6.  An update frame [chanId, orderId, price, amount] whose chanId
    converts to the key of a channel acknowledged as a book channel of
    precision R0, with a number as price
    and an amount that converts to a number, is emitted as one [l3update]
    that holds one point with the order id of the frame: among the bids
    when the amount is positive, among the asks otherwise, its size the
    amount without its sign.  A book channel of precision R0 never emits a
    level2 event for such a frame. *)
Theorem order_update_has_one_point (c : Client) (msg : Json) m0 chan pair market
    (orderId : Value number) (price : number) (amount : Value number) :
  is_ack msg = false ->
  index_of msg 0 = Some m0 ->
  convertible m0 = true ->
  index_of msg 1 = Some orderId ->
  is_string orderId "hb" = false ->
  isArray orderId = false ->
  index_of msg 2 = Some (Some (JNum price)) ->
  index_of msg 3 = Some amount ->
  convertible amount = true ->
  _channels c !! property_key m0 = Some chan ->
  field_of chan "channel" = Some (Some (JStr "book")) ->
  field_of chan "prec" = Some (Some (JStr "R0")) ->
  field_of chan "pair" = Some (Some (JStr pair)) ->
  get pair (_level3UpdateSubs c) = Some market ->
  let point := mkLevel3Point orderId (Some (JStr (num_toFixed price 8)))
                 (abs_fixed8 amount) in
  _onMessage msg c
  = (with_emitted
       (mkEvent "l3update"
          (Some (ALevel3Update
                   (mkLevel3 "Bitfinex" (base market) (quote market)
                      (if positive amount then [] else [point])
                      (if positive amount then [point] else []))))) c,
     Returned tt).
Proof.
  intros Hack Hm0 Hconv Hm1 Hhb Harr Hm2 Hm3 Hamount Hchan Hkind Hprec Hpair Hmarket. cbv zeta.
  destruct (channel_is_object chan _ _ Hkind) as [props ->].
  rewrite (frame_of_channel c msg m0 props Hack Hm0 Hconv Hchan).
  unfold index at 1. rewrite Hm1. bind_with ltac:(reflexivity).
  rewrite Hhb. cbv zeta.
  cbn [field_of] in Hkind, Hprec. injection Hkind as Hkind. injection Hprec as Hprec.
  rewrite Hkind, Hprec, Harr.
  cbn [is_string String.eqb Ascii.eqb Bool.eqb andb].
  unfold _onLevel3Update.
  cbn [slot_field]. bind_field.
  bind_with ltac:(unfold gets; cbn [get_value]; rewrite Hmarket; reflexivity).
  unfold index at 1. rewrite Hm1. bind_with ltac:(reflexivity).
  unfold index at 1. rewrite Hm2. bind_with ltac:(reflexivity).
  bind_with ltac:(reflexivity).
  unfold index at 1. rewrite Hm3. bind_with ltac:(reflexivity).
  bind_with ltac:(apply abs_returned; exact Hamount).
  bind_with ltac:(apply gt0_returned; exact Hamount).
  bind_with ltac:(reflexivity).
  reflexivity.
Qed.

End Facts.

Import Scenario.

Lemma trades_channel_emits_on_tu_alone_witness :
  _onMessage te_frame bitfinex_acknowledged = (bitfinex_acknowledged, Returned tt).
Proof.
  exact (trades_channel_emits_on_tu_alone bitfinex_acknowledged te_frame
           (Some (num 5)) (Some (JStr "te")) ack_frame
           ltac:(vm_compute; reflexivity) ltac:(vm_compute; reflexivity)
           ltac:(vm_compute; reflexivity) ltac:(vm_compute; reflexivity)
           ltac:(vm_compute; reflexivity) ltac:(vm_compute; reflexivity)
           ltac:(vm_compute; reflexivity)).
Defined.

Lemma acknowledged_channel_delivers_trades_witness :
  let c : Client Integral.number := mkClient ∅ [("BTCUSD", btcusd)] [] [] [] None in
  let elems := [num 5; JStr "tu"; JStr "1234-BTCUSD"; num 99; num 1519905600; num 7; num 2] in
  (_onMessage ack_frame;; _onMessage (JArr elems)) c
  = (with_emitted
       (mkEvent "trade"
          (Some (ATrade (mkTrade "Bitfinex" (base btcusd) (quote btcusd)
                           (elems !! 3%nat) (elems !! 4%nat) undefined
                           (elems !! 5%nat) (elems !! 6%nat)))))
       (set_channels (<[property_key (Some (num 5)) := ack_frame]> (_channels c)) c),
     Returned tt).
Proof.
  apply (acknowledged_channel_delivers_trades
           (mkClient ∅ [("BTCUSD", btcusd)] [] [] [] None) ack_frame (Some (num 5)) "BTCUSD"
           btcusd
           [num 5; JStr "tu"; JStr "1234-BTCUSD"; num 99; num 1519905600; num 7; num 2] (num 5));
    first [reflexivity | discriminate].
Defined.

Lemma book_snapshot_is_split_by_sign_witness :
  let vals := [JArr [num 7000; num 2; num 3]; JArr [num 7001; num 1; num (-4)]] in
  _onMessage book_snapshot_frame bitfinex_book
  = (with_emitted
       (mkEvent "l2snapshot"
          (Some (ALevel2Snapshot
                   (mkLevel2 "Bitfinex" (base btcusd) (quote btcusd) undefined undefined
                      (List.map book_point (List.filter (fun val => negb (is_bid val)) vals))
                      (List.map book_point (List.filter is_bid vals)))))) bitfinex_book,
     Returned tt)
  /\ (length (List.filter is_bid vals)
      + length (List.filter (fun val => negb (is_bid val)) vals) = length vals)%nat.
Proof.
  exact (book_snapshot_is_split_by_sign bitfinex_book book_snapshot_frame
           (Some (num 7)) book_ack_frame "BTCUSD" btcusd
           [JArr [num 7000; num 2; num 3]; JArr [num 7001; num 1; num (-4)]]
           ltac:(vm_compute; reflexivity) ltac:(vm_compute; reflexivity)
           ltac:(vm_compute; reflexivity) ltac:(vm_compute; reflexivity)
           ltac:(vm_compute; reflexivity) ltac:(vm_compute; reflexivity)
           ltac:(vm_compute; reflexivity) ltac:(vm_compute; reflexivity)
           ltac:(vm_compute; reflexivity) ltac:(vm_compute; reflexivity)).
Defined.

Lemma book_update_has_one_point_witness :
  let point := mkLevel2Point (Some (JStr (num_toFixed (Some 7002) 8)))
                 (abs_fixed8 (Some (num (-5)))) (Some (JStr (num_toFixed (Some 3) 0))) None in
  _onMessage book_update_frame bitfinex_book
  = (with_emitted
       (mkEvent "l2update"
          (Some (ALevel2Update
                   (mkLevel2 "Bitfinex" (base btcusd) (quote btcusd) undefined undefined
                      (if positive (Some (num (-5))) then [] else [point])
                      (if positive (Some (num (-5))) then [point] else []))))) bitfinex_book,
     Returned tt).
Proof.
  exact (book_update_has_one_point bitfinex_book book_update_frame
           (Some (num 7)) book_ack_frame "BTCUSD" btcusd (Some 7002) (Some 3)
           (Some (num (-5)))
           ltac:(vm_compute; reflexivity) ltac:(vm_compute; reflexivity)
           ltac:(vm_compute; reflexivity) ltac:(vm_compute; reflexivity)
           ltac:(vm_compute; reflexivity) ltac:(vm_compute; reflexivity)
           ltac:(vm_compute; reflexivity) ltac:(vm_compute; reflexivity)
           ltac:(vm_compute; reflexivity) ltac:(vm_compute; reflexivity)
           ltac:(vm_compute; reflexivity) ltac:(vm_compute; reflexivity)).
Defined.

Lemma order_update_has_one_point_witness :
  let point := mkLevel3Point (Some (num 1234567)) (Some (JStr (num_toFixed (Some 7002) 8)))
                 (abs_fixed8 (Some (num 5))) in
  _onMessage order_update_frame bitfinex_orders
  = (with_emitted
       (mkEvent "l3update"
          (Some (ALevel3Update
                   (mkLevel3 "Bitfinex" (base btcusd) (quote btcusd)
                      (if positive (Some (num 5)) then [] else [point])
                      (if positive (Some (num 5)) then [point] else []))))) bitfinex_orders,
     Returned tt).
Proof.
  exact (order_update_has_one_point bitfinex_orders order_update_frame
           (Some (num 8)) order_ack_frame "BTCUSD" btcusd (Some (num 1234567)) (Some 7002)
           (Some (num 5))
           ltac:(vm_compute; reflexivity) ltac:(vm_compute; reflexivity)
           ltac:(vm_compute; reflexivity) ltac:(vm_compute; reflexivity)
           ltac:(vm_compute; reflexivity) ltac:(vm_compute; reflexivity)
           ltac:(vm_compute; reflexivity) ltac:(vm_compute; reflexivity)
           ltac:(vm_compute; reflexivity) ltac:(vm_compute; reflexivity)
           ltac:(vm_compute; reflexivity) ltac:(vm_compute; reflexivity)
           ltac:(vm_compute; reflexivity) ltac:(vm_compute; reflexivity)).
Defined.

(** The snapshot above, as it is emitted: the entry with amount 3 is the
    bid, the entry with amount -4 the ask, its size without the sign. *)
Example book_snapshot_emitted :
  emitted (exec (_onMessage book_snapshot_frame) bitfinex_book)
  = [mkEvent "l2snapshot"
       (Some (ALevel2Snapshot
                (mkLevel2 "Bitfinex" "BTC" "USD" undefined undefined
                   [mkLevel2Point (Some (JStr "7001.00000000")) (Some (JStr "4.00000000"))
                      (Some (JStr "1")) None]
                   [mkLevel2Point (Some (JStr "7000.00000000")) (Some (JStr "3.00000000"))
                      (Some (JStr "2")) None])))].
Proof. vm_compute. reflexivity. Qed.

End BitfinexChannels.

(** ** Bitfinex: unsubscribing by channel id *)
Module BitfinexOutbound.
Import Js Model JsFacts MonadFacts Bitfinex.

Section Facts.
Context {number : Type} `{Number number} {Un : Unicode}.
Local Abbreviation Client := (Bitfinex.Client number).
Local Abbreviation Wired := (Bitfinex.Wired number).
Local Abbreviation Json := (Js.Json number).

Ltac bind_with tac := erewrite bind_returned; [| tac].

(** One turn of the loop of [_findChannel]. *)
Lemma findChannel_step (chan : Json) rest type remote_id (w : Wired) :
  chan <> JNull ->
  _findChannel (chan :: rest) type remote_id w
  = if serves type remote_id chan
    then (w, Returned (default undefined (field_of chan "chanId")))
    else _findChannel rest type remote_id w.
Proof.
  intros Hnull. unfold serves. cbv zeta.
  assert (Hf : forall name, field (Some chan) name w
                            = (w, Returned (default undefined (field_of chan name)))).
  { intros name. destruct chan; try contradiction; reflexivity. }
  cbn [_findChannel].
  bind_with ltac:(apply Hf).
  destruct (is_string (default undefined (field_of chan "pair")) remote_id);
    [| reflexivity].
  bind_with ltac:(apply Hf). bind_with ltac:(apply Hf).
  cbn [andb].
  destruct (String.eqb type "trades" && is_string (default undefined (field_of chan "channel")) "trades")%bool;
    [apply Hf |].
  destruct (String.eqb type "level2updates"
            && is_string (default undefined (field_of chan "channel")) "book"
            && negb (is_string (default undefined (field_of chan "prec")) "R0"))%bool;
    [apply Hf |].
  destruct (String.eqb type "level3updates"
            && is_string (default undefined (field_of chan "channel")) "book"
            && is_string (default undefined (field_of chan "prec")) "R0")%bool;
    [apply Hf | reflexivity].
Qed.

Lemma findChannel_none (values : list Json) type remote_id (w : Wired) :
  Forall (fun chan => chan <> JNull /\ serves type remote_id chan = false) values ->
  _findChannel values type remote_id w = (w, Returned undefined).
Proof.
  induction 1 as [| chan rest [Hnull Hs] _ IH]; [reflexivity |].
  rewrite findChannel_step by exact Hnull. rewrite Hs. exact IH.
Qed.

Lemma findChannel_found (values : list Json) type remote_id (w : Wired) v :
  Forall (fun chan => chan <> JNull
                      /\ (serves type remote_id chan = true -> field_of chan "chanId" = Some v))
    values ->
  Exists (fun chan => serves type remote_id chan = true) values ->
  _findChannel values type remote_id w = (w, Returned v).
Proof.
  induction 1 as [| chan rest [Hnull Hs] Hrest IH]; intros Hex.
  - inversion Hex.
  - rewrite findChannel_step by exact Hnull.
    destruct (serves type remote_id chan) eqn:Hserves.
    + rewrite (Hs eq_refl). reflexivity.
    + apply IH. inversion Hex as [? ? Hhd | ? ? Htl]; subst; [congruence | exact Htl].
Qed.

(** What a listing of the registry lists is in the registry, and the
    other way round. *)
Lemma enumerates_elem (values : list Json) (c : Client) chan :
  enumerates values c -> (chan ∈ values <-> exists k, _channels c !! k = Some chan).
Proof.
  unfold enumerates. intros Hp. rewrite Hp, list_elem_of_fmap. split.
  - intros ([k v] & -> & Hin). apply elem_of_map_to_list in Hin. eauto.
  - intros [k Hk]. exists (k, chan). split; [reflexivity |].
    apply elem_of_map_to_list. exact Hk.
Qed.

(** X7.  Unsubscribing a pair no registered channel was acknowledged for
    (the acknowledgment has not arrived, or the pair was never subscribed)
    sends nothing and does not throw, with or without a socket: none of the
    three unsubscribe methods finds a channel id, whatever the order in which
    the registry is walked. *)
Theorem unsubscribing_an_unknown_pair_sends_nothing (w : Wired) (values : list Json)
    (remote_id : string) :
  enumerates values (client w) ->
  (forall k chan, _channels (client w) !! k = Some chan ->
     chan <> JNull /\ is_string (default undefined (field_of chan "pair")) remote_id = false) ->
  _sendUnsubTrades values remote_id w = (w, Returned tt)
  /\ _sendUnsubLevel2Updates values remote_id w = (w, Returned tt)
  /\ _sendUnsubLevel3Updates values remote_id w = (w, Returned tt).
Proof.
  intros Henum Hreg.
  assert (Hnone : forall type,
            _findChannel values type remote_id w = (w, Returned undefined)).
  { intros type. apply findChannel_none. apply Forall_forall. intros chan Hin.
    apply (enumerates_elem _ _ _ Henum) in Hin as [k Hk].
    destruct (Hreg k chan Hk) as [Hnull Hpair].
    split; [exact Hnull |]. unfold serves. cbv zeta. rewrite Hpair. reflexivity. }
  unfold _sendUnsubTrades, _sendUnsubLevel2Updates, _sendUnsubLevel3Updates.
  repeat split; (bind_with ltac:(apply Hnone)); reflexivity.
Qed.

(** The channel id [_findChannel] returns when the channels that serve the
    pair and the type agree on it. *)
Lemma findChannel_registered (w : Wired) (values : list Json) type remote_id k chan v :
  enumerates values (client w) ->
  (forall k' chan', _channels (client w) !! k' = Some chan' -> chan' <> JNull) ->
  _channels (client w) !! k = Some chan ->
  serves type remote_id chan = true ->
  (forall k' chan', _channels (client w) !! k' = Some chan' ->
     serves type remote_id chan' = true -> field_of chan' "chanId" = Some v) ->
  _findChannel values type remote_id w = (w, Returned v).
Proof.
  intros Henum Hnull Hk Hserves Hsame.
  apply findChannel_found.
  - apply Forall_forall. intros chan' Hin.
    apply (enumerates_elem _ _ _ Henum) in Hin as [k' Hk']. eauto.
  - apply Exists_exists. exists chan. split; [| exact Hserves].
    apply (enumerates_elem _ _ _ Henum). eauto.
Qed.

(** X8.  When a registered channel serves a pair and a type, and the
    channels that do agree on a truthy channel id, the unsubscribe method of
    that type sends one frame [{event: "unsubscribe", chanId}] with that id
    on the socket, whatever the order in which the registry is walked. *)
Theorem unsubscribing_releases_the_serving_channel (w : Wired) (values : list Json)
    (type remote_id k : string) (chan id : Json) (frames : list Json) :
  enumerates values (client w) ->
  _wss w = Some frames ->
  (forall k' chan', _channels (client w) !! k' = Some chan' -> chan' <> JNull) ->
  _channels (client w) !! k = Some chan ->
  serves type remote_id chan = true ->
  truthy (Some id) = true ->
  (forall k' chan', _channels (client w) !! k' = Some chan' ->
     serves type remote_id chan' = true -> field_of chan' "chanId" = Some (Some id)) ->
  let released :=
    (mkWired (client w) (Some (frames ++ [unsubscribe_frame id])%list), Returned tt) in
  (type = "trades" -> _sendUnsubTrades values remote_id w = released)
  /\ (type = "level2updates" -> _sendUnsubLevel2Updates values remote_id w = released)
  /\ (type = "level3updates" -> _sendUnsubLevel3Updates values remote_id w = released).
Proof.
  intros Henum Hwss Hnull Hk Hserves Htruthy Hsame. cbv zeta.
  pose proof (findChannel_registered w values type remote_id k chan (Some id)
                Henum Hnull Hk Hserves Hsame) as Hfound.
  unfold _sendUnsubTrades, _sendUnsubLevel2Updates, _sendUnsubLevel3Updates.
  repeat split; intros <-; (bind_with ltac:(exact Hfound));
    unfold _sendUnsubscribe; rewrite Htruthy; unfold wss_send; rewrite Hwss; reflexivity.
Qed.

(** X9.  A channel whose acknowledged id is falsy (the number 0, or an
    acknowledgment without chanId) is never released: the unsubscribe
    method finds the channel and sends nothing. *)
Theorem falsy_channel_id_is_never_released (w : Wired) (values : list Json)
    (type remote_id k : string) (chan : Json) (v : Value number) :
  enumerates values (client w) ->
  (forall k' chan', _channels (client w) !! k' = Some chan' -> chan' <> JNull) ->
  _channels (client w) !! k = Some chan ->
  serves type remote_id chan = true ->
  truthy v = false ->
  (forall k' chan', _channels (client w) !! k' = Some chan' ->
     serves type remote_id chan' = true -> field_of chan' "chanId" = Some v) ->
  (type = "trades" -> _sendUnsubTrades values remote_id w = (w, Returned tt))
  /\ (type = "level2updates" -> _sendUnsubLevel2Updates values remote_id w = (w, Returned tt))
  /\ (type = "level3updates" -> _sendUnsubLevel3Updates values remote_id w = (w, Returned tt)).
Proof.
  intros Henum Hnull Hk Hserves Hfalsy Hsame.
  pose proof (findChannel_registered w values type remote_id k chan v
                Henum Hnull Hk Hserves Hsame) as Hfound.
  unfold _sendUnsubTrades, _sendUnsubLevel2Updates, _sendUnsubLevel3Updates.
  repeat split; intros <-; (bind_with ltac:(exact Hfound));
    unfold _sendUnsubscribe; rewrite Hfalsy; destruct v; reflexivity.
Qed.

End Facts.

Import Scenario.

(** The registries of the scenarios. *)
Lemma acknowledged_registry :
  _channels bitfinex_acknowledged = {[ "5" := ack_frame ]}.
Proof. vm_compute. reflexivity. Qed.

Lemma zero_registry : _channels bitfinex_zero = {[ "0" := zero_ack_frame ]}.
Proof. vm_compute. reflexivity. Qed.

Lemma unsubscribing_an_unknown_pair_sends_nothing_witness :
  let w := mkWired bitfinex_acknowledged None in
  _sendUnsubTrades [ack_frame] "ETHUSD" w = (w, Returned tt)
  /\ _sendUnsubLevel2Updates [ack_frame] "ETHUSD" w = (w, Returned tt)
  /\ _sendUnsubLevel3Updates [ack_frame] "ETHUSD" w = (w, Returned tt).
Proof.
  apply (unsubscribing_an_unknown_pair_sends_nothing
           (mkWired bitfinex_acknowledged None) [ack_frame] "ETHUSD").
  - unfold enumerates. cbn [client]. rewrite acknowledged_registry, map_to_list_singleton.
    reflexivity.
  - intros k chan. cbn [client]. rewrite acknowledged_registry.
    intros [_ <-]%lookup_singleton_Some. split; [discriminate | reflexivity].
Defined.

Lemma unsubscribing_releases_the_serving_channel_witness :
  let w := mkWired bitfinex_acknowledged (Some []) in
  let released :=
    (mkWired bitfinex_acknowledged (Some [unsubscribe_frame (num 5)]), Returned tt) in
  ("trades" = "trades" -> _sendUnsubTrades [ack_frame] "BTCUSD" w = released)
  /\ ("trades" = "level2updates" -> _sendUnsubLevel2Updates [ack_frame] "BTCUSD" w = released)
  /\ ("trades" = "level3updates" -> _sendUnsubLevel3Updates [ack_frame] "BTCUSD" w = released).
Proof.
  apply (unsubscribing_releases_the_serving_channel
           (mkWired bitfinex_acknowledged (Some [])) [ack_frame] "trades" "BTCUSD" "5"
           ack_frame (num 5) []).
  - unfold enumerates. cbn [client]. rewrite acknowledged_registry, map_to_list_singleton.
    reflexivity.
  - reflexivity.
  - intros k chan. cbn [client]. rewrite acknowledged_registry.
    intros [_ <-]%lookup_singleton_Some. discriminate.
  - cbn [client]. rewrite acknowledged_registry. apply lookup_singleton_eq.
  - reflexivity.
  - reflexivity.
  - intros k chan. cbn [client]. rewrite acknowledged_registry.
    intros [_ <-]%lookup_singleton_Some _. reflexivity.
Defined.

Lemma falsy_channel_id_is_never_released_witness :
  let w := mkWired bitfinex_zero (Some []) in
  ("trades" = "trades" -> _sendUnsubTrades [zero_ack_frame] "BTCUSD" w = (w, Returned tt))
  /\ ("trades" = "level2updates"
      -> _sendUnsubLevel2Updates [zero_ack_frame] "BTCUSD" w = (w, Returned tt))
  /\ ("trades" = "level3updates"
      -> _sendUnsubLevel3Updates [zero_ack_frame] "BTCUSD" w = (w, Returned tt)).
Proof.
  apply (falsy_channel_id_is_never_released
           (mkWired bitfinex_zero (Some [])) [zero_ack_frame] "trades" "BTCUSD" "0"
           zero_ack_frame (Some (num 0))).
  - unfold enumerates. cbn [client]. rewrite zero_registry, map_to_list_singleton. reflexivity.
  - intros k chan. cbn [client]. rewrite zero_registry.
    intros [_ <-]%lookup_singleton_Some. discriminate.
  - cbn [client]. rewrite zero_registry. apply lookup_singleton_eq.
  - reflexivity.
  - reflexivity.
  - intros k chan. cbn [client]. rewrite zero_registry.
    intros [_ <-]%lookup_singleton_Some _. reflexivity.
Defined.

End BitfinexOutbound.

(** ** Binance: repeated subscribes, trade frames, [reconnect()] *)
Module BinanceCalls.
Import Js Model JsFacts MonadFacts Binance BinanceFacts.

Section Strings.

Lemma substring_all (s : string) : String.substring 0 (String.length s) s = s.
Proof. induction s as [| ch s IH]; simpl; [reflexivity | f_equal; exact IH]. Qed.

(** A string is what lies before a position and what lies after it. *)
Lemma substring_split (s : string) : forall i,
  (i <= String.length s)%nat ->
  s = String.substring 0 i s +:+ String.substring i (String.length s - i) s.
Proof.
  induction s as [| ch s IH]; intros i Hi.
  - destruct i; [reflexivity | simpl in Hi; lia].
  - destruct i as [| i].
    + rewrite Nat.sub_0_r, substring_all. reflexivity.
    + simpl in Hi. simpl. rewrite (IH i) at 1 by lia. reflexivity.
Qed.

Lemma endsWith_split (s suffix : string) :
  endsWith s suffix = true -> exists p, s = p +:+ suffix.
Proof.
  unfold endsWith. intros Hs. apply andb_true_iff in Hs as [Hle Hs].
  apply Nat.leb_le in Hle. apply String.eqb_eq in Hs.
  exists (String.substring 0 (String.length s - String.length suffix) s).
  rewrite (substring_split s (String.length s - String.length suffix)) at 1 by lia.
  f_equal.
  replace (String.length s - (String.length s - String.length suffix))%nat
    with (String.length suffix) by lia.
  exact Hs.
Qed.

(** A stream that ends with "aggTrade" ends with neither "depth20" nor "depth". *)
Lemma aggTrade_only (stream : string) :
  endsWith stream "aggTrade" = true ->
  endsWith stream "depth20" = false /\ endsWith stream "depth" = false.
Proof.
  intros [p ->]%endsWith_split.
  rewrite !endsWith_append by (simpl; lia). split; reflexivity.
Qed.
End Strings.

Section Facts.
Context {number : Type} {N : Number number} {Un : Unicode}.
Local Abbreviation Client := (Binance.Client number).
Local Abbreviation Json := (Js.Json number).

Ltac bind_with tac := erewrite bind_returned; [| tac].
Ltac bind_field := bind_with ltac:(apply field_returned; eassumption).

(** *** Subscribing twice *)

Lemma reconnect_keeps_subs (c : Client) map : subs map (exec _reconnect c) = subs map c.
Proof.
  unfold exec, _reconnect, modify. simpl.
  destruct (setTimeout DebounceElapsed 100 (clearTimeout (_reconnectDebounce c) (loop c))).
  destruct map; reflexivity.
Qed.

Lemma subs_with_subs (c : Client) map m : subs map (with_subs map m c) = m.
Proof. destruct map; reflexivity. Qed.

(** X10.  A second subscribe for a market whose id differs from the first
    at most in the case of its letters changes nothing: the Map keeps the
    market of the first call, and the debounce timer is not armed again. *)
Theorem subscribing_again_changes_nothing (c : Client) (m1 m2 : Market) (map : Subs) :
  lower (id m1) = lower (id m2) ->
  _subscribe m2 map (exec (_subscribe m1 map) c) = (exec (_subscribe m1 map) c, Returned tt).
Proof.
  intros Hid.
  assert (Hhas : has (KString (lower (id m2))) (subs map (exec (_subscribe m1 map) c)) = true).
  { rewrite <- Hid, subscribe_exec.
    destruct (has (KString (lower (id m1))) (subs map c)) eqn:Hh; [exact Hh |].
    rewrite reconnect_keeps_subs, subs_with_subs, has_set.
    rewrite bool_decide_eq_true_2 by reflexivity. reflexivity. }
  unfold _subscribe at 1. unfold bind at 1. unfold gets at 1. rewrite Hhas. reflexivity.
Qed.

(** *** Trade frames *)

(** X11.  A frame whose stream ends with "aggTrade" and whose symbol, in
    lower case, is a key of the trades Map is emitted as one [trade] of the
    market under that key: the first trade id [f] of the aggregate as its
    id, [T] as its time, [p] and [q] as price and amount, and the side "buy"
    when [m] is truthy, "sell" otherwise.  Nothing else is emitted. *)
Theorem trade_frame_is_emitted_as_one_trade (c : Client) (frame data : Json)
    (stream symbol : string) (market : Market) (p q f T m : Value number) :
  field_of frame "stream" = Some (Some (JStr stream)) ->
  endsWith stream "aggTrade" = true ->
  field_of frame "data" = Some (Some data) ->
  field_of data "s" = Some (Some (JStr symbol)) ->
  field_of data "p" = Some p ->
  field_of data "q" = Some q ->
  field_of data "f" = Some f ->
  field_of data "T" = Some T ->
  field_of data "m" = Some m ->
  get (KString (lower symbol)) (_tradeSubs c) = Some market ->
  _onMessage frame c
  = (emitted_data "trade"
       (ATrade (mkTrade "Binance" (base market) (quote market) f T
                  (Some (JStr (if truthy m then "buy" else "sell"))) p q)) c,
     Returned tt).
Proof.
  intros Hstream Hends Hdata Hs Hp Hq Hf HT Hm Hget.
  destruct (aggTrade_only stream Hends) as [E20 E].
  unfold _onMessage.
  bind_field. unfold ends_with. rewrite Hends, E20, E.
  bind_with ltac:(reflexivity).
  erewrite bind_returned.
  2: { erewrite bind_returned.
       2: { unfold _constructTradeFromMessage.
            repeat bind_field.
            bind_with ltac:(reflexivity).
            bind_with ltac:(unfold gets; rewrite Hget; reflexivity).
            bind_with ltac:(reflexivity).
            reflexivity. }
       reflexivity. }
  bind_with ltac:(reflexivity). bind_with ltac:(reflexivity).
  bind_with ltac:(reflexivity). reflexivity.
Qed.

(** X12.  A frame whose stream ends with "aggTrade" and whose symbol is
    under no key of the trades Map makes [_onMessage] throw a TypeError:
    nothing is emitted and the client is left as it was. *)
Theorem trade_of_an_unknown_symbol_throws (c : Client) (frame data : Json)
    (stream symbol : string) :
  field_of frame "stream" = Some (Some (JStr stream)) ->
  endsWith stream "aggTrade" = true ->
  field_of frame "data" = Some (Some data) ->
  field_of data "s" = Some (Some (JStr symbol)) ->
  get (KString (lower symbol)) (_tradeSubs c) = None ->
  _onMessage frame c = (c, Thrown TypeError).
Proof.
  intros Hstream Hends Hdata Hs Hget.
  assert (Hall : forall name, exists v, field_of data name = Some v).
  { intros name. destruct data; try discriminate Hs; simpl; eauto. }
  destruct (Hall "p") as [p Hp]. destruct (Hall "q") as [q Hq].
  destruct (Hall "f") as [f Hf]. destruct (Hall "T") as [T HT].
  destruct (Hall "m") as [m Hm].
  unfold _onMessage.
  bind_field. unfold ends_with. rewrite Hends.
  bind_with ltac:(reflexivity).
  unfold bind at 1.
  assert (E : _constructTradeFromMessage frame c = (c, Thrown TypeError)).
  { unfold _constructTradeFromMessage.
    repeat bind_field.
    bind_with ltac:(reflexivity).
    bind_with ltac:(unfold gets; rewrite Hget; reflexivity).
    reflexivity. }
  unfold bind at 1. rewrite E. reflexivity.
Qed.

(** *** Unsubscribing *)

(** X13.  Unsubscribing a held market leaves the three Maps as they were
    (their keys being the strings [_subscribe] files markets under) and arms
    the debounce timer all the same: when the timer runs, the socket is
    closed and opened again on the path it had, the stream of the market
    included. *)
Theorem unsubscribing_reconnects_to_the_same_streams (c : Client) (market : Market)
    (map : Subs) :
  (forall which, Forall (fun kv => exists s, kv.1 = KString s) (subs which c)) ->
  has (KString (lower (id market))) (subs map c) = true ->
  let c1 := exec (_unsubscribe market map) c in
  let c2 := exec (fire DebounceElapsed) c1 in
  (forall which, subs which c1 = subs which c)
  /\ In (mkTimer (fresh (loop c)) (now (loop c) + 100) DebounceElapsed) (queue (loop c1))
  /\ sockets c1 = sockets c
  /\ sockets c2 = (sockets c ++ cycle c)%list
  /\ _wss c2 = Some (mkWss (url (streams_of c))).
Proof.
  intros Hkeys Hhas. cbv zeta.
  assert (E : exec (_unsubscribe market map) c = exec _reconnect c).
  { rewrite unsubscribe_exec, Hhas.
    rewrite (BinanceLifecycle.delete_market_noop market _ (Hkeys map)).
    destruct c, map; reflexivity. }
  rewrite E.
  assert (Hsubs : forall which, subs which (exec _reconnect c) = subs which c)
    by (intros which; apply reconnect_keeps_subs).
  assert (Hstreams : streams_of (exec _reconnect c) = streams_of c).
  { unfold streams_of.
    change (_tradeSubs (exec _reconnect c)) with (subs TradeSubs (exec _reconnect c)).
    change (_level2SnapshotSubs (exec _reconnect c))
      with (subs Level2SnapshotSubs (exec _reconnect c)).
    change (_level2UpdateSubs (exec _reconnect c))
      with (subs Level2UpdateSubs (exec _reconnect c)).
    rewrite !Hsubs. reflexivity. }
  assert (Hwss : _wss (exec _reconnect c) = _wss c /\ sockets (exec _reconnect c) = sockets c).
  { destruct c as [n ts ss us w [d |] wt l em so]; split; reflexivity. }
  destruct Hwss as [Hw Hso].
  destruct (BinanceLifecycle.cycle_opens (exec _reconnect c)) as (C1 & C2 & _).
  cbv zeta in C1, C2.
  split; [exact Hsubs |]. split; [| split; [exact Hso | split]].
  - destruct c as [n ts ss us w [d |] wt l em so]; simpl; apply in_or_app; right; left;
      reflexivity.
  - rewrite C2, Hso. unfold cycle. rewrite Hw, Hstreams. reflexivity.
  - rewrite C1, Hstreams. reflexivity.
Qed.

(** *** [reconnect()] *)

Lemma reconnect_exec (c : Client) :
  exec reconnect c = with_emitted (mkEvent "reconnected" None) (exec _reconnect c).
Proof. reflexivity. Qed.

(** X14.  [reconnect()] emits [reconnected] at once and leaves the socket
    alone: the connection is replaced 100 ms later, when the debounce timer
    runs (no other timer falling due before, that is up to [H]). *)
Theorem reconnect_is_debounced (c : Client) (H : Z) (fuel : nat) :
  idle_until H c ->
  now (loop c) + 100 <= H ->
  let c1 := exec reconnect c in
  sockets c1 = sockets c
  /\ emitted c1 = (emitted c ++ [mkEvent "reconnected" None])%list
  /\ (forall t, t < now (loop c) + 100 ->
        exists c2, advance fuel t c1 = Some c2 /\ sockets c2 = sockets c)
  /\ (forall t, now (loop c) + 100 <= t -> t <= H ->
        exists c2, advance (S fuel) t c1 = Some c2
                   /\ sockets c2 = (sockets c ++ cycle c)%list).
Proof.
  intros Hidle HH. cbv zeta. rewrite reconnect_exec.
  destruct (idle_settled H (now (loop c) + 100) c Hidle) as [Hs _].
  destruct (reconnect_step H (now (loop c) + 100) c Hs ltac:(lia))
    as (R1 & R2 & R3 & R4 & R5 & R6 & R7).
  set (c' := exec _reconnect c) in *.
  set (c1 := with_emitted (mkEvent "reconnected" None) c').
  assert (Hs1 : settled H (now (loop c) + 100) c1) by exact R6.
  assert (Hd1 : deadline c1 = Some (now (loop c) + 100)) by exact R7.
  assert (Hso : sockets c1 = sockets c) by exact R1.
  assert (Hcy : cycle c1 = cycle c).
  { unfold cycle, streams_of. change (_wss c1) with (_wss c'). rewrite R3.
    change (_tradeSubs c1) with (subs TradeSubs c').
    change (_level2SnapshotSubs c1) with (subs Level2SnapshotSubs c').
    change (_level2UpdateSubs c1) with (subs Level2UpdateSubs c').
    rewrite !R5. reflexivity. }
  split; [exact Hso |].
  split; [change (emitted c1) with (emitted c' ++ [mkEvent "reconnected" None])%list;
          rewrite R2; reflexivity |].
  split.
  - intros t Ht.
    destruct (wait_step H _ t c1 fuel Hs1 Ht ltac:(lia)) as (c2 & Ha & Hso2 & _).
    exists c2. split; [exact Ha | congruence].
  - intros t Ht HtH.
    destruct (debounce_fires H _ c1 _ fuel t Hs1 Hd1 Ht HtH) as (c2 & Ha & Hso2 & _).
    exists c2. split; [exact Ha |]. rewrite Hso2, Hso, Hcy. reflexivity.
Qed.

End Facts.

Import Scenario.

Lemma subscribing_again_changes_nothing_witness :
  let c : Client Integral.number := constructor in
  _subscribe (mkMarket "btcusdt" "BTC" "USDT") TradeSubs (exec (_subscribe btcusdt TradeSubs) c)
  = (exec (_subscribe btcusdt TradeSubs) c, Returned tt).
Proof.
  exact (subscribing_again_changes_nothing (constructor : Client Integral.number)
           btcusdt (mkMarket "btcusdt" "BTC" "USDT") TradeSubs eq_refl).
Defined.

Lemma trade_frame_is_emitted_as_one_trade_witness :
  _onMessage aggTrade_frame binance_connected
  = (emitted_data "trade"
       (ATrade (mkTrade "Binance" (base btcusdt) (quote btcusdt)
                  (Some (num 100)) (Some (num 123456785))
                  (Some (JStr (if truthy (Some (JBool true : Json Integral.number))
                               then "buy" else "sell")))
                  (Some (JStr "0.001")) (Some (JStr "100"))))
       binance_connected,
     Returned tt).
Proof.
  exact (trade_frame_is_emitted_as_one_trade binance_connected aggTrade_frame
           (JObj [("e", JStr "aggTrade"); ("E", num 123456789); ("s", JStr "BTCUSDT");
                  ("a", num 12345); ("p", JStr "0.001"); ("q", JStr "100");
                  ("f", num 100); ("l", num 105); ("T", num 123456785);
                  ("m", JBool true); ("M", JBool true)])
           "btcusdt@aggTrade" "BTCUSDT" btcusdt
           (Some (JStr "0.001")) (Some (JStr "100")) (Some (num 100))
           (Some (num 123456785)) (Some (JBool true))
           eq_refl eq_refl eq_refl eq_refl eq_refl eq_refl eq_refl eq_refl eq_refl
           ltac:(vm_compute; reflexivity)).
Defined.

Lemma trade_of_an_unknown_symbol_throws_witness :
  _onMessage aggTrade_frame binance_subscribed = (binance_subscribed, Thrown TypeError).
Proof.
  exact (trade_of_an_unknown_symbol_throws binance_subscribed aggTrade_frame
           (JObj [("e", JStr "aggTrade"); ("E", num 123456789); ("s", JStr "BTCUSDT");
                  ("a", num 12345); ("p", JStr "0.001"); ("q", JStr "100");
                  ("f", num 100); ("l", num 105); ("T", num 123456785);
                  ("m", JBool true); ("M", JBool true)])
           "btcusdt@aggTrade" "BTCUSDT"
           eq_refl eq_refl eq_refl eq_refl ltac:(vm_compute; reflexivity)).
Defined.

Lemma unsubscribing_reconnects_to_the_same_streams_witness :
  let c := binance_connected in
  let c1 := exec (_unsubscribe btcusdt TradeSubs) c in
  let c2 := exec (fire DebounceElapsed) c1 in
  (forall which, subs which c1 = subs which c)
  /\ In (mkTimer (fresh (loop c)) (now (loop c) + 100) DebounceElapsed) (queue (loop c1))
  /\ sockets c1 = sockets c
  /\ sockets c2 = (sockets c ++ cycle c)%list
  /\ _wss c2 = Some (mkWss (url (streams_of c))).
Proof.
  apply (unsubscribing_reconnects_to_the_same_streams binance_connected btcusdt TradeSubs).
  - intros []; repeat constructor. exists "btcusdt". reflexivity.
  - reflexivity.
Defined.

Lemma reconnect_is_debounced_witness :
  let c : Client Integral.number := binance_connected in
  let c1 := exec reconnect c in
  sockets c1 = sockets c
  /\ emitted c1 = (emitted c ++ [mkEvent "reconnected" None])%list
  /\ (forall t, t < now (loop c) + 100 ->
        exists c2, advance 0 t c1 = Some c2 /\ sockets c2 = sockets c)
  /\ (forall t, now (loop c) + 100 <= t -> t <= 30000 ->
        exists c2, advance 1 t c1 = Some c2
                   /\ sockets c2 = (sockets c ++ cycle c)%list).
Proof.
  apply (reconnect_is_debounced binance_connected 30000 0).
  - repeat constructor; vm_compute; reflexivity.
  - vm_compute. discriminate.
Defined.

(** Capitals and small letters beyond ASCII: a market subscribed in
    small letters is found by a frame that names it in capitals, it is not
    subscribed a second time in capitals, and it is held when it is
    unsubscribed in capitals. *)
Example letters_beyond_ascii :
  let c : Client Integral.number := exec (subscribeTrades ethusdt) constructor in
  keys (_tradeSubs c) = [KString "éthusdt"]
  /\ outcome (_onMessage aggTrade_frame_capitals) c = Returned tt
  /\ List.map name (emitted (exec (_onMessage aggTrade_frame_capitals) c)) = ["trade"]
  /\ exec (subscribeTrades ETHUSDT) c = c
  /\ queue (loop (exec (unsubscribeTrades ETHUSDT) (exec (fire DebounceElapsed) c)))
     = [mkTimer 1 100 DebounceElapsed].
Proof. cbv zeta. repeat apply conj; vm_compute; reflexivity. Qed.

End BinanceCalls.

(** ** Binance: what holds through the life of a client *)
Module BinanceLife.
Import Js Model JsFacts MonadFacts Frames Binance BinanceFacts.

(** *** From the steps of a client to its life *)
Section Invariant.
Context {number : Type} {N : Number number} {Un : Unicode}.
Local Abbreviation Client := (Binance.Client number).
Local Abbreviation Json := (Js.Json number).

(** A property of the client that every write of the methods maintains... *)
Variable Inv : Client -> Prop.
Hypothesis Inv_emitted : forall e c, Inv c -> Inv (with_emitted e c).
Hypothesis Inv_start : forall c,
  Inv c -> Inv (with_watcher (Watcher.start WatcherExpired (_watcher c) (loop c)) c).
Hypothesis Inv_stop : forall c,
  Inv c -> Inv (with_watcher (Watcher.stop (_watcher c) (loop c)) c).
Hypothesis Inv_subs : forall map m c, Inv c -> Inv (with_subs map m c).
Hypothesis Inv_reconnect : forall c, Inv c -> Inv (exec _reconnect c).
Hypothesis Inv_close : forall c, Inv c -> Inv (exec _close c).
Hypothesis Inv_connect : forall c, Inv c -> Inv (exec _connect c).
Hypothesis Inv_dequeue : forall tm c,
  In tm (queue (loop c)) -> Inv c -> Inv (with_loop (dequeue tm (loop c)) c).
Hypothesis Inv_clock : forall t c, Inv c -> Inv (with_loop (set_clock t (loop c)) c).

Local Abbreviation stays := (fun c c' : Client => Inv c -> Inv c').

Lemma stays_refl (c : Client) : stays c c.
Proof. intros Hc. exact Hc. Qed.

Lemma stays_trans (c1 c2 c3 : Client) : stays c1 c2 -> stays c2 c3 -> stays c1 c3.
Proof. intros H12 H23 Hc. apply H23, H12, Hc. Qed.

Ltac stays := repeat keeps_step stays_refl stays_trans.

Lemma markAlive_stays (c : Client) :
  Inv c -> Inv (with_watcher (Watcher.markAlive WatcherExpired (_watcher c) (loop c)) c).
Proof.
  intros Hc. unfold Watcher.markAlive.
  destruct (Watcher.armed (_watcher c)); [apply Inv_start; exact Hc |].
  destruct c. exact Hc.
Qed.

Lemma emit_stays name payload : keeps stays (emit name payload).
Proof.
  unfold emit. stays.
  - apply keeps_modify. intros c. apply Inv_emitted.
  - apply keeps_modify. intros c. apply markAlive_stays.
Qed.

Lemma reconnect_stays : keeps stays (_reconnect (number := number)).
Proof. intros c. apply Inv_reconnect. Qed.

Lemma close_stays : keeps stays (_close (number := number)).
Proof. intros c. apply Inv_close. Qed.

Lemma connect_stays : keeps stays (_connect (number := number)).
Proof. intros c. apply Inv_connect. Qed.

Ltac steps :=
  repeat first [ apply emit_stays | apply reconnect_stays | apply close_stays
               | apply connect_stays
               | apply keeps_modify; intros ?; first [apply Inv_subs | apply Inv_start | apply Inv_stop]
               | keeps_step stays_refl stays_trans ].

Lemma subscribe_stays market map : keeps stays (_subscribe (number := number) market map).
Proof. unfold _subscribe. steps. Qed.

Lemma unsubscribe_stays market map : keeps stays (_unsubscribe (number := number) market map).
Proof. unfold _unsubscribe. steps. Qed.

Lemma call_stays k : keeps stays (call (number := number) k).
Proof. destruct k; [apply subscribe_stays | apply unsubscribe_stays]. Qed.

Lemma public_reconnect_stays : keeps stays (reconnect (number := number)).
Proof. unfold reconnect. steps. Qed.

Lemma onConnected_stays : keeps stays (_onConnected (number := number)).
Proof. unfold _onConnected. steps. Qed.

Lemma onDisconnected_stays : keeps stays (_onDisconnected (number := number)).
Proof. unfold _onDisconnected. steps. Qed.

Lemma point_stays p : keeps stays (point (number := number) p).
Proof. unfold point. steps. Qed.

Lemma onMessage_stays msg : keeps stays (_onMessage msg).
Proof.
  unfold _onMessage, _constructTradeFromMessage, _constructLevel2Snapshot,
    _constructLevel2Update, ends_with, split_at_0, deref.
  repeat first [ apply point_stays | progress steps ].
Qed.

Lemma fire_stays cb : keeps stays (fire (number := number) cb).
Proof. destruct cb; unfold fire; [steps | ]. apply (keeps_bind _ stays_trans);
  [apply public_reconnect_stays | intros _; steps]. Qed.

Lemma advance_stays fuel t : forall c c' : Client,
  Inv c -> advance fuel t c = Some c' -> Inv c'.
Proof.
  induction fuel as [| fuel IH]; intros c c' Hc; simpl;
    (destruct (next_due t (loop c)) as [tm |] eqn:Hn;
     [| intros [= <-]; apply Inv_clock; exact Hc]); [discriminate |].
  apply IH. apply fire_stays. apply Inv_dequeue; [| exact Hc].
  unfold next_due in Hn. destruct (earliest (queue (loop c))) as [tm' |] eqn:He;
    [| discriminate]. apply earliest_in in He.
  destruct (due tm' <=? t); [injection Hn as <-; exact He | discriminate].
Qed.

Lemma perform_stays fuel (a : Action number) (c c' : Client) :
  Inv c -> perform fuel a c = Some c' -> Inv c'.
Proof.
  intros Hc. destruct a; simpl; try (intros [= <-]).
  - apply call_stays, Hc.
  - apply public_reconnect_stays, Hc.
  - apply close_stays, Hc.
  - apply onConnected_stays, Hc.
  - apply onDisconnected_stays, Hc.
  - apply onMessage_stays, Hc.
  - apply advance_stays, Hc.
Qed.

(** ... holds through every life of a client that starts with it. *)
Lemma play_stays fuel (actions : list (Action number)) : forall c c' : Client,
  Inv c -> play fuel actions c = Some c' -> Inv c'.
Proof.
  induction actions as [| a actions IH]; intros c c' Hc; simpl.
  - intros [= <-]. exact Hc.
  - destruct (perform fuel a c) as [c1 |] eqn:Hp; [| discriminate].
    apply IH. exact (perform_stays fuel a c c1 Hc Hp).
Qed.
End Invariant.

(** *** One socket at a time *)
Section Sockets.
Context {number : Type} {N : Number number} {Un : Unicode}.
Local Abbreviation Client := (Binance.Client number).

Lemma replay_app (ops1 ops2 : list SocketOp) : forall open,
  replay open (ops1 ++ ops2)
  = match replay open ops1 with
    | Some open' => replay open' ops2
    | None => None
    end.
Proof.
  induction ops1 as [| [path | path] ops1 IH]; intros open; simpl; [reflexivity | |].
  - destruct open; [reflexivity | apply IH].
  - destruct open as [path' |]; [| reflexivity].
    destruct (String.eqb path path'); [apply IH | reflexivity].
Qed.

Lemma close_one_socket (c : Client) : one_socket c -> one_socket (exec _close c).
Proof.
  unfold one_socket. destruct c as [n ts ss us [[path] |] d wt l em so]; simpl;
    [| intros Hc; exact Hc].
  intros Hc. rewrite replay_app, Hc. simpl. rewrite String.eqb_refl. reflexivity.
Qed.

Lemma connect_one_socket (c : Client) : one_socket c -> one_socket (exec _connect c).
Proof.
  unfold one_socket. destruct c as [n ts ss us [[path] |] d wt l em so]; simpl;
    [intros Hc; exact Hc |].
  intros Hc. rewrite replay_app, Hc. reflexivity.
Qed.

Lemma one_socket_stays fuel (actions : list (Action number)) (c c' : Client) :
  one_socket c -> play fuel actions c = Some c' -> one_socket c'.
Proof.
  apply play_stays.
  - intros e x Hx. exact Hx.
  - intros x Hx. exact Hx.
  - intros x Hx. exact Hx.
  - intros map m x Hx. destruct map; exact Hx.
  - intros x Hx. exact Hx.
  - apply close_one_socket.
  - apply connect_one_socket.
  - intros tm x _ Hx. exact Hx.
  - intros t x Hx. exact Hx.
Qed.

(** X15.  Whatever the owner calls, the socket reports and the timers
    run, in whatever order, the client never opens a socket while it holds
    another and never closes a socket other than the one it holds: the log
    of socket operations is a sequence of connects and closes in turn, each
    close for the path of the connect before it, and [_wss] is the socket
    the log leaves open. *)
Theorem sockets_are_opened_one_at_a_time (fuel : nat) (actions : list (Action number))
    (c' : Client) :
  play fuel actions constructor = Some c' ->
  replay None (sockets c') = Some (wssPath <$> _wss c').
Proof. apply (one_socket_stays fuel actions constructor c'). reflexivity. Qed.
End Sockets.

(** *** One debounce timer at most *)
Section Timers.
Context {number : Type} {N : Number number} {Un : Unicode}.
Local Abbreviation Client := (Binance.Client number).

Lemma filter_all {A} (l : list A) : List.filter (fun _ => true) l = l.
Proof. induction l as [| a l IH]; simpl; [reflexivity | rewrite IH; reflexivity]. Qed.

Lemma NoDup_handles_filter {C} (f : Timer C -> bool) (q : list (Timer C)) :
  NoDup (List.map handle q) -> NoDup (List.map handle (List.filter f q)).
Proof.
  induction q as [| tm q IH]; simpl; [intros Hq; exact Hq |].
  intros Hq. apply NoDup_cons in Hq as [Hnin Hq].
  destruct (f tm); simpl; [| apply IH; exact Hq].
  apply NoDup_cons. split; [| apply IH; exact Hq].
  intros Hin. apply Hnin.
  apply list_elem_of_In, in_map_iff in Hin as (tm' & Hh & Hin').
  apply list_elem_of_In, in_map_iff. exists tm'. split; [exact Hh |].
  apply filter_In in Hin' as [Hin' _]. exact Hin'.
Qed.

(** Taking timers off the queue. *)
Lemma held_fewer (c c' : Client) (f : Timer Callback -> bool) :
  fresh (loop c') = fresh (loop c) ->
  queue (loop c') = List.filter f (queue (loop c)) ->
  _reconnectDebounce c' = _reconnectDebounce c ->
  debounce_held c -> debounce_held c'.
Proof.
  unfold debounce_held. intros -> -> -> (Hfresh & Hdup & Hheld).
  rewrite List.Forall_forall in Hfresh, Hheld.
  split; [| split].
  - apply List.Forall_forall. intros tm [Hin _]%filter_In. apply Hfresh, Hin.
  - apply NoDup_handles_filter, Hdup.
  - apply List.Forall_forall. intros tm [Hin _]%filter_In. apply Hheld, Hin.
Qed.

(** Arming a timer, after taking timers off the queue. *)
Lemma held_more (c c' : Client) (f : Timer Callback -> bool) (d : Z) (cb : Callback) :
  fresh (loop c') = S (fresh (loop c)) ->
  queue (loop c')
  = (List.filter f (queue (loop c)) ++ [mkTimer (fresh (loop c)) d cb])%list ->
  match cb with
  | WatcherExpired => _reconnectDebounce c' = _reconnectDebounce c
  | DebounceElapsed =>
      _reconnectDebounce c' = Some (fresh (loop c))
      /\ forall tm, In tm (List.filter f (queue (loop c))) -> callback tm <> DebounceElapsed
  end ->
  debounce_held c -> debounce_held c'.
Proof.
  unfold debounce_held. intros -> -> Hcb (Hfresh & Hdup & Hheld).
  rewrite List.Forall_forall in Hfresh, Hheld.
  split; [| split].
  - apply Forall_app. split.
    + apply List.Forall_forall. intros tm [Hin _]%filter_In. specialize (Hfresh tm Hin). lia.
    + constructor; [simpl; lia | constructor].
  - rewrite List.map_app. simpl. apply NoDup_app. split; [| split].
    + apply NoDup_handles_filter, Hdup.
    + intros h Hin Hh. apply list_elem_of_In, in_map_iff in Hin as (tm & <- & Hin).
      apply filter_In in Hin as [Hin _]. specialize (Hfresh tm Hin).
      apply list_elem_of_In in Hh. destruct Hh as [Hh | []]. lia.
    + apply NoDup_singleton.
  - apply Forall_app. split.
    + apply List.Forall_forall. intros tm Hin Htm. destruct cb.
      * destruct Hcb as [_ Hnone]. contradiction (Hnone tm Hin Htm).
      * rewrite Hcb. apply filter_In in Hin as [Hin _]. apply Hheld; assumption.
    + constructor; [| constructor]. simpl. intros ->. apply Hcb.
Qed.

Lemma stop_held (c : Client) :
  debounce_held c -> debounce_held (with_watcher (Watcher.stop (_watcher c) (loop c)) c).
Proof.
  destruct (Watcher.armed (_watcher c)) as [h |] eqn:Ha.
  - apply (held_fewer c _ (fun t => negb (Nat.eqb (handle t) h)));
      unfold Watcher.stop; simpl; rewrite ?Ha; reflexivity.
  - apply (held_fewer c _ (fun _ => true));
      unfold Watcher.stop; simpl; rewrite ?Ha, ?filter_all; reflexivity.
Qed.

Lemma start_held (c : Client) :
  debounce_held c
  -> debounce_held (with_watcher (Watcher.start WatcherExpired (_watcher c) (loop c)) c).
Proof.
  destruct (Watcher.armed (_watcher c)) as [h |] eqn:Ha.
  - apply (held_more c _ (fun t => negb (Nat.eqb (handle t) h))
             (now (loop c) + Watcher.intervalMs (_watcher c)) WatcherExpired);
      unfold Watcher.start, Watcher.stop; simpl; rewrite ?Ha; reflexivity.
  - apply (held_more c _ (fun _ => true)
             (now (loop c) + Watcher.intervalMs (_watcher c)) WatcherExpired);
      unfold Watcher.start, Watcher.stop; simpl; rewrite ?Ha, ?filter_all; reflexivity.
Qed.

Lemma reconnect_held (c : Client) : debounce_held c -> debounce_held (exec _reconnect c).
Proof.
  intros Hc. destruct (_reconnectDebounce c) as [h |] eqn:Hd.
  - apply (held_more c _ (fun t => negb (Nat.eqb (handle t) h)) (now (loop c) + 100)
             DebounceElapsed); try exact Hc;
      unfold exec, _reconnect, modify; simpl; rewrite ?Hd; try reflexivity.
    split; [reflexivity |].
    intros tm [Hin Hne]%filter_In Htm.
    destruct Hc as (_ & _ & Hheld). rewrite List.Forall_forall in Hheld.
    specialize (Hheld tm Hin Htm). rewrite Hd in Hheld. injection Hheld as ->.
    rewrite Nat.eqb_refl in Hne. discriminate.
  - apply (held_more c _ (fun _ => true) (now (loop c) + 100) DebounceElapsed); try exact Hc;
      unfold exec, _reconnect, modify; simpl; rewrite ?Hd, ?filter_all; try reflexivity.
    split; [reflexivity |].
    intros tm Hin Htm.
    destruct Hc as (_ & _ & Hheld). rewrite List.Forall_forall in Hheld.
    specialize (Hheld tm Hin Htm). rewrite Hd in Hheld. discriminate.
Qed.

Lemma debounce_held_stays fuel (actions : list (Action number)) (c c' : Client) :
  debounce_held c -> play fuel actions c = Some c' -> debounce_held c'.
Proof.
  apply play_stays.
  - intros e x Hx. exact Hx.
  - apply start_held.
  - apply stop_held.
  - intros map m x Hx. destruct map; exact Hx.
  - apply reconnect_held.
  - intros x Hx. destruct x as [n ts ss us [s |] d wt l em so]; exact Hx.
  - intros x Hx. destruct x as [n ts ss us [s |] d wt l em so]; exact Hx.
  - intros tm x _.
    apply (held_fewer x _ (fun t => negb (Nat.eqb (handle t) (handle tm)))); reflexivity.
  - intros t x. apply (held_fewer x _ (fun _ => true)); simpl; rewrite ?filter_all; reflexivity.
Qed.

(** X16.  Whatever the owner calls, the socket reports and the timers
    run, in whatever order, at most one debounce timer is armed at any time:
    every [_reconnect] clears the timer it armed before it arms the next. *)
Theorem one_debounce_timer_at_most (fuel : nat) (actions : list (Action number))
    (c' : Client) :
  play fuel actions constructor = Some c' ->
  (length (debounces c') <= 1)%nat.
Proof.
  intros Hplay.
  assert (Hheld : debounce_held c').
  { apply (debounce_held_stays fuel actions constructor c'); [| exact Hplay].
    repeat split; constructor. }
  destruct Hheld as (_ & Hdup & Hheld). rewrite List.Forall_forall in Hheld.
  destruct (debounces c') as [| a [| b rest]] eqn:Hd; simpl; try lia.
  exfalso.
  assert (Ha : In a (debounces c')) by (rewrite Hd; simpl; auto).
  assert (Hb : In b (debounces c')) by (rewrite Hd; simpl; auto).
  unfold debounces in Ha, Hb. apply filter_In in Ha as [Ha Hca], Hb as [Hb Hcb].
  assert (Hab : handle a = handle b).
  { assert (Some (handle a) = Some (handle b)) as [= E]; [| exact E].
    rewrite <- (Hheld a Ha), <- (Hheld b Hb); [reflexivity | |].
    - destruct (callback b); [reflexivity | discriminate].
    - destruct (callback a); [reflexivity | discriminate]. }
  pose proof (NoDup_handles_filter
                (fun tm => match callback tm with
                           | DebounceElapsed => true
                           | WatcherExpired => false
                           end) _ Hdup) as Hdup'.
  fold (debounces c') in Hdup'. rewrite Hd in Hdup'. simpl in Hdup'.
  apply NoDup_cons in Hdup' as [Hnin _]. apply Hnin. rewrite Hab. left.
Qed.
End Timers.

Import Scenario.

Lemma sockets_are_opened_one_at_a_time_witness :
  replay None (sockets binance_evening) = Some (wssPath <$> _wss binance_evening).
Proof.
  exact (sockets_are_opened_one_at_a_time 4 binance_day binance_evening
           ltac:(vm_compute; reflexivity)).
Defined.

Lemma one_debounce_timer_at_most_witness :
  (length (debounces binance_evening) <= 1)%nat.
Proof.
  exact (one_debounce_timer_at_most 4 binance_day binance_evening
           ltac:(vm_compute; reflexivity)).
Defined.

End BinanceLife.

(** ** Bittrex: subscribing before [connected], and inbound frames *)
Module BittrexFrames.
Import Js Model JsFacts MonadFacts Bittrex BittrexFacts.

Section Facts.
Context {number : Type} `{Number number} {Un : Unicode} `{Libraries number}
  {Clk : Clock number}.
Local Abbreviation Client := (Bittrex.Client number).
Local Abbreviation Json := (Js.Json number).

Ltac bind_with tac := erewrite bind_returned; [| tac].
Ltac bind_field := bind_with ltac:(apply field_returned; eassumption).

(** *** Frames for markets the client does not hold *)

Lemma for_of_unchanged {A} (xs : list A) (body : A -> M Client unit) (c : Client) :
  (forall x, In x xs -> body x c = (c, Returned tt)) ->
  for_of xs body c = (c, Returned tt).
Proof.
  induction xs as [| x xs IH]; intros Hb; simpl; [reflexivity |].
  bind_with ltac:(apply Hb; left; reflexivity).
  apply IH. intros y Hy. apply Hb. right. exact Hy.
Qed.

(** X18.  A frame all of whose hub messages are something else than an
    updateExchangeState, or name only markets that neither Map holds, is
    ignored: [_onMessage] returns with the client as it was and emits
    nothing. *)
Theorem foreign_markets_are_ignored (c : Client) (raw : Json) (msgs : list Json) :
  field_of raw "M" = Some (Some (JArr msgs)) ->
  forallb (quiet c) msgs = true ->
  _onMessage (Some raw) c = (c, Returned tt).
Proof.
  intros HM Hquiet. unfold _onMessage.
  bind_field. cbn [truthy negb].
  bind_with ltac:(reflexivity).
  apply for_of_unchanged. intros msg Hin.
  rewrite forallb_forall in Hquiet. specialize (Hquiet msg Hin). unfold quiet in Hquiet.
  destruct (field_of msg "M") as [method |] eqn:Hmethod; [| discriminate Hquiet].
  bind_field.
  destruct (is_string method "updateExchangeState"); [| reflexivity].
  destruct (field_of msg "A") as [[[| | | | datas |] |] |] eqn:HA; try discriminate Hquiet.
  bind_field. bind_with ltac:(reflexivity).
  apply for_of_unchanged. intros data Hdata.
  rewrite forallb_forall in Hquiet. specialize (Hquiet data Hdata). unfold foreign in Hquiet.
  destruct (field_of data "MarketName") as [marketName |] eqn:Hname; [| discriminate Hquiet].
  apply andb_true_iff in Hquiet as [Ht Hu].
  apply negb_true_iff in Ht, Hu.
  bind_field.
  bind_with ltac:(reflexivity). rewrite Ht.
  bind_with ltac:(reflexivity).
  bind_with ltac:(reflexivity). rewrite Hu. reflexivity.
Qed.

(** *** Fills *)

(** The trade built from a fill whose rate and quantity are numbers and
    whose time stamp moment reads without the wall clock; moment was called
    twice. *)
Lemma trade_built (c : Client) (fill : Json) (ms : number) name market :
  filled fill = true ->
  stamped fill ms ->
  get_value name (_tradeSubs c) = Some market ->
  _constructTradeFromMessage fill name c
  = (set_reads (S (S (reads c))) c, Returned (trade_of market fill ms)).
Proof.
  intros Hf Hms Hm. unfold filled in Hf. unfold stamped in Hms.
  destruct (field_of fill "Rate") as [[[| | rate | | |] |] |] eqn:Hr; try discriminate Hf.
  destruct (field_of fill "Quantity") as [[[| | quantity | | |] |] |] eqn:Hq;
    try discriminate Hf.
  assert (Hnull : fill <> JNull) by (intros ->; discriminate Hr).
  assert (Hall : forall name', field_of fill name'
                               = Some (default undefined (field_of fill name'))).
  { intros name'. destruct fill; try contradiction; reflexivity. }
  rewrite (BittrexTrades.trade_constructed c fill name market _ ms _ rate quantity
             Hm (Hall "TimeStamp") Hms (Hall "OrderType") Hr Hq).
  unfold trade_of. rewrite Hr, Hq. reflexivity.
Qed.

(** What [emit] leaves of the client. *)
Lemma emit_frame name payload (c : Client) :
  exists c', emit name payload c = (c', Returned tt)
    /\ emitted c' = (emitted c ++ [mkEvent name payload])%list
    /\ _tradeSubs c' = _tradeSubs c /\ _level2UpdateSubs c' = _level2UpdateSubs c.
Proof.
  unfold emit, bind, modify. destruct (is_data name); eexists; (split; [reflexivity |]);
    repeat split; reflexivity.
Qed.

Lemma fills_loop name market (fills : list Json) (stamps : list number) :
  Forall2 stamped fills stamps ->
  forall c : Client,
  get name (_tradeSubs c) = Some market ->
  forallb filled fills = true ->
  exists c',
    for_of fills (fun fill =>
      trade <- _constructTradeFromMessage fill (Some (JStr name));;
      emit "trade" (Some (ATrade trade))) c = (c', Returned tt)
    /\ emitted c'
       = (emitted c
          ++ zip_with (fun fill ms => mkEvent "trade" (Some (ATrade (trade_of market fill ms))))
               fills stamps)%list
    /\ _tradeSubs c' = _tradeSubs c /\ _level2UpdateSubs c' = _level2UpdateSubs c.
Proof.
  induction 1 as [| fill ms fills stamps Hms _ IH]; intros c Hm Hf; simpl.
  - exists c. rewrite app_nil_r. repeat split; reflexivity.
  - simpl in Hf. apply andb_true_iff in Hf as [Hfill Hf].
    destruct (emit_frame "trade" (Some (ATrade (trade_of market fill ms)))
                (set_reads (S (S (reads c))) c))
      as (c1 & E1 & Hem1 & Ht1 & Hu1).
    destruct (IH c1 ltac:(rewrite Ht1; exact Hm) Hf) as (c' & E & Hem & Ht & Hu).
    exists c'. split; [| split; [| split]].
    + erewrite bind_returned; [exact E |].
      bind_with ltac:(apply trade_built; [exact Hfill | exact Hms | exact Hm]). exact E1.
    + rewrite Hem, Hem1, <- app_assoc. reflexivity.
    + rewrite Ht, Ht1. reflexivity.
    + rewrite Hu, Hu1. reflexivity.
Qed.

(** X19.  An updateExchangeState for a market held in the trades Map (and
    not in the level2 Map) whose fills have numbers as rate and quantity and
    time stamps that moment reads without the wall clock is emitted as one
    [trade] per fill, in the order of the fills, each with the base and
    quote of the market, the time moment reads in the time stamp, the rate
    and the quantity at 8 decimals, the side "buy" for the order type "BUY"
    and "sell" for any other, and the digest of these as its id.  With no
    fill nothing is emitted. *)
Theorem fills_are_emitted_in_order (c : Client) (raw msg data : Json) (name : string)
    (market : Market) (fills : list Json) (stamps : list number) :
  field_of raw "M" = Some (Some (JArr [msg])) ->
  field_of msg "M" = Some (Some (JStr "updateExchangeState")) ->
  field_of msg "A" = Some (Some (JArr [data])) ->
  field_of data "MarketName" = Some (Some (JStr name)) ->
  field_of data "Fills" = Some (Some (JArr fills)) ->
  forallb filled fills = true ->
  Forall2 stamped fills stamps ->
  get name (_tradeSubs c) = Some market ->
  has name (_level2UpdateSubs c) = false ->
  outcome (_onMessage (Some raw)) c = Returned tt
  /\ emitted (exec (_onMessage (Some raw)) c)
     = (emitted c
        ++ zip_with (fun fill ms => mkEvent "trade" (Some (ATrade (trade_of market fill ms))))
             fills stamps)%list.
Proof.
  intros HM Hmethod HA Hname Hfills Hfilled Hstamps Hget Hhas.
  destruct (fills_loop name market fills stamps Hstamps c Hget Hfilled)
    as (c' & E & Hem & Ht & Hu).
  assert (Hheld : has name (_tradeSubs c) = true) by (apply has_get; eauto).
  assert (Hrun : _onMessage (Some raw) c = (c', Returned tt)).
  { unfold _onMessage.
    bind_field. cbn [truthy negb].
    bind_with ltac:(reflexivity).
    cbn [for_of].
    erewrite bind_returned; [reflexivity |].
    bind_field. cbn [is_string String.eqb Ascii.eqb Bool.eqb].
    bind_field. bind_with ltac:(reflexivity).
    cbn [for_of].
    erewrite bind_returned; [reflexivity |].
    bind_field.
    bind_with ltac:(reflexivity). cbn [has_value]. rewrite Hheld.
    erewrite bind_returned.
    2: { bind_field. bind_with ltac:(reflexivity). exact E. }
    bind_with ltac:(reflexivity). rewrite Hu, Hhas. reflexivity. }
  unfold outcome, exec. rewrite Hrun. split; [reflexivity | exact Hem].
Qed.

(** *** The answer to a snapshot request *)

Lemma assoc_set_eq (k : string) (v : Json) (props : list (string * Json)) :
  assoc_prop k (set_prop k v props) = Some v.
Proof.
  induction props as [| [k' v'] props IH]; simpl.
  - rewrite String.eqb_refl. reflexivity.
  - destruct (String.eqb k k') eqn:Hk; simpl; rewrite Hk; [reflexivity | exact IH].
Qed.

Lemma assoc_set_ne (k k0 : string) (v : Json) (props : list (string * Json)) :
  String.eqb k0 k = false ->
  assoc_prop k0 (set_prop k v props) = assoc_prop k0 props.
Proof.
  intros Hne. induction props as [| [k' v'] props IH]; simpl.
  - rewrite Hne. reflexivity.
  - destruct (String.eqb k k') eqn:Hk; simpl.
    + apply String.eqb_eq in Hk. subst k'. rewrite Hne. reflexivity.
    + destruct (String.eqb k0 k'); [reflexivity | exact IH].
Qed.

Lemma entry_built (c : Client) (p : Json) :
  quoted p = true -> point p c = (c, Returned (entry_of p)).
Proof.
  intros Hq. unfold quoted in Hq.
  destruct (field_of p "Rate") as [[[| | rate | | |] |] |] eqn:Hr; try discriminate Hq.
  destruct (field_of p "Quantity") as [[[| | quantity | | |] |] |] eqn:Hqu;
    try discriminate Hq.
  assert (Ht : field_of p "Type" = Some (default undefined (field_of p "Type"))).
  { destruct p; try discriminate Hr; reflexivity. }
  unfold point.
  bind_field. bind_with ltac:(reflexivity).
  bind_field. bind_with ltac:(reflexivity).
  bind_with ltac:(apply field_returned; exact Ht).
  unfold entry_of. rewrite Hr, Hqu. reflexivity.
Qed.

Lemma entries_built (c : Client) (ps : list Json) :
  forallb quoted ps = true -> map_m point ps c = (c, Returned (List.map entry_of ps)).
Proof.
  induction ps as [| p ps IH]; simpl; intros Hq; [reflexivity |].
  apply andb_true_iff in Hq as [Hp Hq].
  bind_with ltac:(apply entry_built; exact Hp).
  bind_with ltac:(apply IH; exact Hq).
  reflexivity.
Qed.

(** X20.  The answer to the snapshot request [_sendSub] makes for a
    market: an error answer is dropped; an answer whose [Buys] and [Sells]
    hold numbers as rates and quantities is emitted as one [l2snapshot] of
    the market the request was made for, whatever market the answer names,
    the buys as bids and the sells as asks in their order, [Nounce] as the
    sequence id; and when the market has left the level2 Map in the meantime
    the callback throws a TypeError and emits nothing. *)
Theorem snapshot_answer_is_emitted_for_the_requested_market (c : Client)
    (remote_id : string) (props : list (string * Json)) (buys sells : list Json) :
  assoc_prop "Buys" props = Some (JArr buys) ->
  assoc_prop "Sells" props = Some (JArr sells) ->
  forallb quoted buys = true ->
  forallb quoted sells = true ->
  let answer := _onExchangeState remote_id false (Some (JObj props)) in
  match get remote_id (_level2UpdateSubs c) with
  | Some market =>
      outcome answer c = Returned tt
      /\ emitted (exec answer c)
         = (emitted c
            ++ [mkEvent "l2snapshot"
                  (Some (ALevel2Snapshot
                           (mkLevel2 "Bittrex" (base market) (quote market)
                              (assoc_prop "Nounce" props) undefined
                              (List.map entry_of sells) (List.map entry_of buys))))])%list
  | None => answer c = (c, Thrown TypeError)
  end
  /\ forall result, _onExchangeState remote_id true result c = (c, Returned tt).
Proof.
  intros Hbuys Hsells Hqb Hqs. cbv zeta. split; [| reflexivity].
  set (result := JObj (set_prop "MarketName" (JStr remote_id) props)).
  assert (Hname : field_of result "MarketName" = Some (Some (JStr remote_id)))
    by (simpl; rewrite assoc_set_eq; reflexivity).
  assert (Hn : field_of result "Nounce" = Some (assoc_prop "Nounce" props))
    by (simpl; rewrite assoc_set_ne by reflexivity; reflexivity).
  assert (Hb : field_of result "Buys" = Some (Some (JArr buys)))
    by (simpl; rewrite assoc_set_ne by reflexivity; rewrite Hbuys; reflexivity).
  assert (Hs : field_of result "Sells" = Some (Some (JArr sells)))
    by (simpl; rewrite assoc_set_ne by reflexivity; rewrite Hsells; reflexivity).
  assert (Hlevel2 : level2_of result c
            = match get remote_id (_level2UpdateSubs c) with
              | Some market =>
                  (c, Returned (mkLevel2 "Bittrex" (base market) (quote market)
                                  (assoc_prop "Nounce" props) undefined
                                  (List.map entry_of sells) (List.map entry_of buys)))
              | None => (c, Thrown TypeError)
              end).
  { unfold level2_of.
    bind_field.
    bind_with ltac:(reflexivity). cbn [get_value].
    bind_field. bind_field.
    bind_with ltac:(reflexivity).
    bind_with ltac:(apply entries_built; exact Hqb).
    bind_field.
    bind_with ltac:(reflexivity).
    bind_with ltac:(apply entries_built; exact Hqs).
    destruct (get remote_id (_level2UpdateSubs c)); reflexivity. }
  unfold _onExchangeState. cbv iota. fold result.
  unfold _constructLevel2Snapshot.
  destruct (get remote_id (_level2UpdateSubs c)) as [market |].
  - destruct (emit_frame "l2snapshot"
                (Some (ALevel2Snapshot
                         (mkLevel2 "Bittrex" (base market) (quote market)
                            (assoc_prop "Nounce" props) undefined
                            (List.map entry_of sells) (List.map entry_of buys)))) c)
      as (c' & E & Hem & _).
    assert (Hrun : (snapshot <- (r <- level2_of result;; ret (ALevel2Snapshot r));;
                    emit "l2snapshot" (Some snapshot)) c = (c', Returned tt)).
    { erewrite bind_returned; [exact E |].
      bind_with ltac:(exact Hlevel2). reflexivity. }
    unfold outcome, exec. rewrite Hrun. split; [reflexivity | exact Hem].
  - unfold bind at 1. unfold bind at 1. rewrite Hlevel2. reflexivity.
Qed.

End Facts.

Import Scenario.

Lemma foreign_markets_are_ignored_witness :
  _onMessage (Some exchange_state_frame) bittrex_idle = (bittrex_idle, Returned tt).
Proof.
  exact (foreign_markets_are_ignored bittrex_idle exchange_state_frame
           [JObj [("H", JStr "CoreHub"); ("M", JStr "updateExchangeState");
                  ("A", JArr [JObj [("MarketName", JStr "BTC-ETH");
                                    ("Nounce", num 26620);
                                    ("Buys", JArr []); ("Sells", JArr []);
                                    ("Fills", JArr [fill_one; fill_two])]])]]
           eq_refl ltac:(vm_compute; reflexivity)).
Defined.

Lemma fills_are_emitted_in_order_witness :
  outcome (_onMessage (Some exchange_state_frame)) bittrex_trading = Returned tt
  /\ emitted (exec (_onMessage (Some exchange_state_frame)) bittrex_trading)
     = (emitted bittrex_trading
        ++ zip_with (fun fill ms => mkEvent "trade" (Some (ATrade (trade_of btc_eth fill ms))))
             [fill_one; fill_two] [Some 1519905600500; Some 1519905600500])%list.
Proof.
  apply (fills_are_emitted_in_order bittrex_trading exchange_state_frame
           (JObj [("H", JStr "CoreHub"); ("M", JStr "updateExchangeState");
                  ("A", JArr [JObj [("MarketName", JStr "BTC-ETH");
                                    ("Nounce", num 26620);
                                    ("Buys", JArr []); ("Sells", JArr []);
                                    ("Fills", JArr [fill_one; fill_two])]])])
           (JObj [("MarketName", JStr "BTC-ETH"); ("Nounce", num 26620);
                  ("Buys", JArr []); ("Sells", JArr []);
                  ("Fills", JArr [fill_one; fill_two])])
           "BTC-ETH" btc_eth [fill_one; fill_two]
           [Some 1519905600500; Some 1519905600500]);
    first [ reflexivity
          | repeat constructor; intros now; reflexivity
          | vm_compute; reflexivity ].
Defined.

Lemma snapshot_answer_is_emitted_for_the_requested_market_witness :
  let answer := _onExchangeState "BTC-ETH" false (Some exchange_state_answer) in
  match get "BTC-ETH" (_level2UpdateSubs bittrex_connected) with
  | Some market =>
      outcome answer bittrex_connected = Returned tt
      /\ emitted (exec answer bittrex_connected)
         = (emitted bittrex_connected
            ++ [mkEvent "l2snapshot"
                  (Some (ALevel2Snapshot
                           (mkLevel2 "Bittrex" (base market) (quote market)
                              (assoc_prop "Nounce"
                                 [("MarketName", JNull); ("Nounce", num 26619);
                                  ("Buys", JArr [JObj [("Quantity", num 7); ("Rate", num 2)]]);
                                  ("Sells", JArr [JObj [("Quantity", num 21); ("Rate", num 3)]]);
                                  ("Fills", JArr [])])
                              undefined
                              (List.map entry_of [JObj [("Quantity", num 21); ("Rate", num 3)]])
                              (List.map entry_of
                                 [JObj [("Quantity", num 7); ("Rate", num 2)]]))))])%list
  | None => answer bittrex_connected = (bittrex_connected, Thrown TypeError)
  end
  /\ forall result,
       _onExchangeState "BTC-ETH" true result bittrex_connected
       = (bittrex_connected, Returned tt).
Proof.
  exact (snapshot_answer_is_emitted_for_the_requested_market bittrex_connected "BTC-ETH"
           [("MarketName", JNull); ("Nounce", num 26619);
            ("Buys", JArr [JObj [("Quantity", num 7); ("Rate", num 2)]]);
            ("Sells", JArr [JObj [("Quantity", num 21); ("Rate", num 3)]]);
            ("Fills", JArr [])]
           [JObj [("Quantity", num 7); ("Rate", num 2)]]
           [JObj [("Quantity", num 21); ("Rate", num 3)]]
           eq_refl eq_refl eq_refl eq_refl).
Defined.

(** The answer of the scenario, as it is emitted. *)
Example snapshot_answer_emitted :
  List.map (fun e => (name e, (fun r => (sequenceId r, bids r, asks r))
                                <$> (payload e ≫= level2_record)))
    (drop (length (emitted bittrex_connected))
       (emitted (exec (_onExchangeState "BTC-ETH" false (Some exchange_state_answer))
                   bittrex_connected)))
  = [("l2snapshot",
      Some (Some (num 26619),
            [mkLevel2Point (Some (JStr "2.00000000")) (Some (JStr "7.00000000")) undefined
               (Some undefined)],
            [mkLevel2Point (Some (JStr "3.00000000")) (Some (JStr "21.00000000")) undefined
               (Some undefined)]))].
Proof. vm_compute. reflexivity. Qed.

End BittrexFrames.

(** ** Bittrex: connecting once, and again after a disconnect *)
Module BittrexConnections.
Import Js Model JsFacts MonadFacts Bittrex BittrexFacts BittrexLifecycle.

Section Facts.
Context {number : Type} `{Number number} {Un : Unicode} `{Libraries number}
  {Clk : Clock number}.
Local Abbreviation Client := (Bittrex.Client number).

Ltac bind_with tac := erewrite bind_returned; [| tac].

Ltac run_trigger :=
  unfold exec, job, trigger, fire, reconnect, close, _subscribe, _connect, _connectCloudflare,
    microtasks, emit, watcher_stop, bind, gets, modify, ret; simpl;
  try (match goal with |- context [has ?k ?m] => destruct (has k m) end; simpl);
  repeat split; reflexivity.

(** *** While the handshake is pending *)

(** The first call that reaches [_connect] starts the handshake. *)
Lemma first_trigger (c : Client) (t : Trigger) :
  _wss c = None -> _cloudflare c = None -> awaiting c = 0%nat ->
  let c' := exec (job (trigger t)) c in
  _wss c' = None /\ _cloudflare c' = Some Pending
  /\ handshakes c' = S (handshakes c) /\ awaiting c' = 1%nat
  /\ hub c' = hub c /\ created c' = created c.
Proof.
  intros Hw Hcf Ha.
  destruct c as [r cf ts us wt w sc rh l em hb cr hs aw rj rd]; simpl in *; subst.
  cbv zeta. destruct t as [market [] | [] |]; run_trigger.
Qed.

(** Every later one waits for the same handshake. *)
Lemma pending_trigger (c : Client) (t : Trigger) :
  _wss c = None -> _cloudflare c = Some Pending ->
  let c' := exec (job (trigger t)) c in
  _wss c' = None /\ _cloudflare c' = Some Pending
  /\ handshakes c' = handshakes c /\ awaiting c' = S (awaiting c)
  /\ hub c' = hub c /\ created c' = created c.
Proof.
  intros Hw Hcf.
  destruct c as [r cf ts us wt w sc rh l em hb cr hs aw rj rd]; simpl in *; subst.
  cbv zeta. destruct t as [market [] | [] |]; run_trigger.
Qed.

Lemma pending_triggers (more : list Trigger) : forall c : Client,
  _wss c = None -> _cloudflare c = Some Pending ->
  let c' := foldl (fun x t => exec (job (trigger t)) x) c more in
  _wss c' = None /\ _cloudflare c' = Some Pending
  /\ handshakes c' = handshakes c /\ awaiting c' = (length more + awaiting c)%nat
  /\ hub c' = hub c /\ created c' = created c.
Proof.
  induction more as [| t more IH]; intros c Hw Hcf; simpl.
  - repeat split; assumption.
  - destruct (pending_trigger c t Hw Hcf) as (P1 & P2 & P3 & P4 & P5 & P6).
    destruct (IH _ P1 P2) as (I1 & I2 & I3 & I4 & I5 & I6).
    cbv zeta in *. rewrite I3, I4, I5, I6, P3, P4, P5, P6.
    repeat split; try assumption. lia.
Qed.

(** *** When the handshake succeeds *)

Lemma resumed_first (c : Client) metadata :
  _cloudflare c = Some (Fulfilled metadata) -> _wss c = None ->
  _connect_resumed c
  = (push_hub [HubStart (created c) metadata]
       (set_wss (Some (created c)) (set_created (S (created c)) c)), Returned tt).
Proof.
  intros Hcf Hw. unfold _connect_resumed, bind, gets, modify. rewrite Hcf, Hw. reflexivity.
Qed.

Lemma resumed_later (c : Client) metadata wss :
  _cloudflare c = Some (Fulfilled metadata) -> _wss c = Some wss ->
  _connect_resumed c = (c, Returned tt).
Proof.
  intros Hcf Hw. unfold _connect_resumed, bind, gets. rewrite Hcf, Hw. reflexivity.
Qed.

Lemma all_resumed_later n (c : Client) metadata wss :
  _cloudflare c = Some (Fulfilled metadata) -> _wss c = Some wss ->
  times n _connect_resumed c = (c, Returned tt).
Proof.
  intros Hcf Hw. induction n as [| n IH]; simpl; [reflexivity |].
  bind_with ltac:(eapply resumed_later; eassumption). exact IH.
Qed.

Lemma microtasks_resume (c : Client) metadata k :
  _cloudflare c = Some (Fulfilled metadata) -> _wss c = None -> awaiting c = S k ->
  microtasks c
  = (push_hub [HubStart (created c) metadata]
       (set_wss (Some (created c)) (set_created (S (created c)) (set_awaiting 0 c))),
     Returned tt).
Proof.
  intros Hcf Hw Ha. unfold microtasks.
  bind_with ltac:(unfold gets; rewrite Hcf; reflexivity). cbv beta iota.
  bind_with ltac:(unfold gets; rewrite Ha; reflexivity).
  bind_with ltac:(reflexivity).
  cbn [times].
  bind_with ltac:(apply (resumed_first _ metadata); destruct c; simpl in *; assumption).
  apply (all_resumed_later k _ metadata (created c)); destruct c; simpl in *; congruence.
Qed.

Lemma handshake_completes (c : Client) metadata k :
  _wss c = None -> _cloudflare c = Some Pending -> awaiting c = S k ->
  let c' := exec (job (cloudflare_done (Some metadata))) c in
  _wss c' = Some (created c)
  /\ hub c' = (hub c ++ [HubStart (created c) metadata])%list
  /\ created c' = S (created c) /\ awaiting c' = 0%nat
  /\ handshakes c' = handshakes c /\ _cloudflare c' = Some (Fulfilled metadata).
Proof.
  intros Hw Hcf Ha. cbv zeta.
  assert (E : cloudflare_done (Some metadata) c
              = (set_cloudflare (Some (Fulfilled metadata)) c, Returned tt)).
  { unfold cloudflare_done, bind, gets. rewrite Hcf. reflexivity. }
  unfold job, exec. rewrite E.
  rewrite (microtasks_resume _ metadata k)
    by first [reflexivity | destruct c; simpl in *; assumption].
  destruct c; repeat split; reflexivity.
Qed.

(** X21.  However many calls reach [_connect] while the handshake is
    pending (subscribes, [reconnect()], the retry timer), one handshake is
    made, they all wait for it, and when it succeeds exactly one signalr
    client is created and started, with the headers of the handshake: the
    first to resume creates it, the others find it there. *)
Theorem pending_connects_share_one_client (c : Client) (first : Trigger)
    (more : list Trigger) (metadata : Metadata) :
  _wss c = None ->
  _cloudflare c = None ->
  awaiting c = 0%nat ->
  let c1 := foldl (fun x t => exec (job (trigger t)) x) c (first :: more) in
  let c2 := exec (job (cloudflare_done (Some metadata))) c1 in
  handshakes c1 = S (handshakes c)
  /\ awaiting c1 = S (length more)
  /\ hub c1 = hub c
  /\ _wss c1 = None
  /\ handshakes c2 = S (handshakes c)
  /\ awaiting c2 = 0%nat
  /\ _wss c2 = Some (created c)
  /\ hub c2 = (hub c ++ [HubStart (created c) metadata])%list.
Proof.
  intros Hw Hcf Ha. cbv zeta. simpl foldl.
  destruct (first_trigger c first Hw Hcf Ha) as (F1 & F2 & F3 & F4 & F5 & F6).
  destruct (pending_triggers more _ F1 F2) as (P1 & P2 & P3 & P4 & P5 & P6).
  cbv zeta in *.
  set (c1 := foldl _ _ more) in *.
  assert (Ha1 : awaiting c1 = S (length more)) by (rewrite P4, F4; lia).
  destruct (handshake_completes c1 metadata (length more) P1 P2 Ha1)
    as (C1 & C2 & C3 & C4 & C5 & C6).
  cbv zeta in *.
  repeat split; congruence.
Qed.

(** *** After a disconnect *)

(** Clearing the watcher's timer and the retry timer empties a queue that
    holds no other timer. *)
Lemma cleared_both (l : EventLoop Callback) (a r : option nat) :
  (forall tm, In tm (queue l) -> a = Some (handle tm) \/ r = Some (handle tm)) ->
  queue (clearTimeout a (clearTimeout r l)) = [].
Proof.
  intros Hq. destruct r as [hr |], a as [ha |]; simpl.
  - apply BinanceFacts.filter_none. intros tm [Hin Hne]%filter_In.
    destruct (Hq tm Hin) as [[= ->] | [= ->]].
    + rewrite Nat.eqb_refl. reflexivity.
    + rewrite Nat.eqb_refl in Hne. discriminate.
  - apply BinanceFacts.filter_none. intros tm Hin.
    destruct (Hq tm Hin) as [[=] | [= ->]]. rewrite Nat.eqb_refl. reflexivity.
  - apply BinanceFacts.filter_none. intros tm Hin.
    destruct (Hq tm Hin) as [[= ->] | [=]]. rewrite Nat.eqb_refl. reflexivity.
  - destruct (queue l) as [| tm q]; [reflexivity |].
    destruct (Hq tm (or_introl eq_refl)) as [[=] | [=]].
Qed.

(** What [_onDisconnected] leaves behind, as one job. *)
Lemma disconnected_exec (c : Client) metadata :
  _cloudflare c = Some (Fulfilled metadata) -> awaiting c = 0%nat ->
  let l := clearTimeout (Watcher.armed (_watcher c))
             (clearTimeout (_reconnectHandle c) (loop c)) in
  exec (job _onDisconnected) c
  = mkClient (_retryTimeoutMs c) (_cloudflare c) (_tradeSubs c) (_level2UpdateSubs c)
      (Watcher.mk (Watcher.intervalMs (_watcher c)) None) (_wss c) (_subCount c)
      (Some (fresh l))
      (mkLoop (now l) (S (fresh l))
         (queue l ++ [mkTimer (fresh l) (now l + _retryTimeoutMs c) RetryElapsed]))
      (emitted c ++ [mkEvent "disconnected" None]) (hub c) (created c) (handshakes c) 0
      (rejections c) (reads c).
Proof.
  intros Hcf Ha.
  destruct c as [r cf ts us [iv ar] w sc rh l em hb cr hs aw rj rd]; simpl in *; subst.
  destruct rh, ar; reflexivity.
Qed.

(** X22.  After a disconnect of a connected client (its handshake done,
    no timer armed but the watcher's and the retry timer) the client emits
    [disconnected], keeps the dead signalr client and arms one retry timer.
    Nothing happens before [_retryTimeoutMs] has elapsed; then the timer
    ends the dead client and creates and starts a new one with the headers
    of the cached handshake, without emitting [closed] or [reconnected]. *)
Theorem disconnect_is_retried_after_the_timeout (c : Client) (wss : nat)
    (metadata : Metadata) (fuel : nat) :
  _wss c = Some wss ->
  _cloudflare c = Some (Fulfilled metadata) ->
  awaiting c = 0%nat ->
  (forall tm, In tm (queue (loop c)) ->
     Watcher.armed (_watcher c) = Some (handle tm) \/ _reconnectHandle c = Some (handle tm)) ->
  let c1 := exec (job _onDisconnected) c in
  let retry := now (loop c) + _retryTimeoutMs c in
  emitted c1 = (emitted c ++ [mkEvent "disconnected" None])%list
  /\ hub c1 = hub c
  /\ _wss c1 = Some wss
  /\ (forall t, t < retry ->
        exists c2, advance fuel t c1 = Some c2
                   /\ hub c2 = hub c /\ emitted c2 = emitted c1)
  /\ (forall t, retry <= t ->
        exists c2, advance (S fuel) t c1 = Some c2
                   /\ hub c2 = (hub c ++ [HubEnd wss; HubStart (created c) metadata])%list
                   /\ _wss c2 = Some (created c)
                   /\ emitted c2 = emitted c1).
Proof.
  intros Hw Hcf Ha Hq. cbv zeta.
  rewrite (disconnected_exec c metadata Hcf Ha). cbv zeta.
  rewrite (cleared_both (loop c) _ _ Hq).
  assert (Hnow : now (clearTimeout (Watcher.armed (_watcher c))
                        (clearTimeout (_reconnectHandle c) (loop c))) = now (loop c))
    by (destruct (Watcher.armed (_watcher c)), (_reconnectHandle c); reflexivity).
  rewrite Hnow. clear Hnow.
  set (fr := fresh (clearTimeout _ _)). clearbody fr.
  destruct c as [r cf ts us [iv ar] w sc rh [nw fr0 q] em hb cr hs aw rj rd];
    simpl in Hw, Hcf, Ha |- *; subst. clear Hq.
  split; [reflexivity |]. split; [reflexivity |]. split; [reflexivity |]. split.
  - intros t Ht. eexists. split.
    + apply bittrex_advance_idle. unfold next_due. simpl.
      destruct (Z.leb_spec (nw + r) t); [lia | reflexivity].
    + split; reflexivity.
  - intros t Ht. eexists. split.
    + cbn [advance]. unfold next_due. cbn [loop queue earliest due].
      destruct (Z.leb_spec (nw + r) t) as [_ |]; [| lia].
      unfold dequeue. cbn [callback handle loop set_loop queue List.filter].
      rewrite Nat.eqb_refl. cbn [negb].
      apply bittrex_advance_idle. reflexivity.
    + split; [simpl; rewrite <- app_assoc; reflexivity | split; reflexivity].
Qed.

(** *** Closing a client that is about to reconnect *)

(** [close()] after a disconnect: the retry timer armed by
    [_onDisconnected] is still there, and when it runs it creates and starts
    a new signalr client from the cached handshake. *)
Lemma retry_outlives_close (c : Client) (wss : nat) (metadata : Metadata) (fuel : nat) :
  _wss c = Some wss ->
  _cloudflare c = Some (Fulfilled metadata) ->
  awaiting c = 0%nat ->
  (forall tm, In tm (queue (loop c)) ->
     Watcher.armed (_watcher c) = Some (handle tm) \/ _reconnectHandle c = Some (handle tm)) ->
  let c1 := exec (job _onDisconnected) c in
  let c2 := exec (job (close true)) c1 in
  let retry := now (loop c) + _retryTimeoutMs c in
  emitted c2 = (emitted c ++ [mkEvent "disconnected" None; mkEvent "closed" None])%list
  /\ _wss c2 = None
  /\ length (queue (loop c2)) = 1%nat
  /\ (forall t, retry <= t ->
        exists c3, advance (S fuel) t c2 = Some c3
                   /\ hub c3 = (hub c2 ++ [HubStart (created c) metadata])%list
                   /\ _wss c3 = Some (created c)).
Proof.
  intros Hw Hcf Ha Hq. cbv zeta.
  rewrite (disconnected_exec c metadata Hcf Ha). cbv zeta.
  rewrite (cleared_both (loop c) _ _ Hq).
  assert (Hnow : now (clearTimeout (Watcher.armed (_watcher c))
                        (clearTimeout (_reconnectHandle c) (loop c))) = now (loop c))
    by (destruct (Watcher.armed (_watcher c)), (_reconnectHandle c); reflexivity).
  rewrite Hnow. clear Hnow.
  set (fr := fresh (clearTimeout _ _)). clearbody fr.
  destruct c as [r cf ts us [iv ar] w sc rh [nw fr0 q] em hb cr hs aw rj rd];
    simpl in Hw, Hcf, Ha |- *; subst. clear Hq.
  assert (E : forall c0 : Client,
             _wss c0 = Some wss -> _cloudflare c0 = Some (Fulfilled metadata) ->
             awaiting c0 = 0%nat ->
             exec (job (close true)) c0
             = push_emitted (mkEvent "closed" None)
                 (set_wss None
                    (push_hub [HubEnd wss]
                       (set_watcher (Watcher.stop (_watcher c0) (loop c0)) c0)))).
  { intros c0 Hw0 Hcf0 Ha0.
    destruct c0 as [r0 cf0 ts0 us0 wt0 w0 sc0 rh0 l0 em0 hb0 cr0 hs0 aw0 rj0 rd0];
      simpl in *; subst. reflexivity. }
  rewrite E by reflexivity. clear E. simpl.
  split; [rewrite <- app_assoc; reflexivity |]. split; [reflexivity |].
  split; [reflexivity |].
  intros t Ht. eexists. split.
  - cbn [advance]. unfold next_due. cbn [loop queue earliest due].
    destruct (Z.leb_spec (nw + r) t) as [_ |]; [| lia].
    unfold dequeue. cbn [callback handle loop set_loop queue List.filter].
    rewrite Nat.eqb_refl. cbn [negb].
    apply bittrex_advance_idle. reflexivity.
  - split; reflexivity.
Qed.

(** [close()] while a [_connect] waits for the handshake: the call stays
    suspended, and when the handshake succeeds it creates and starts a
    signalr client. *)
Lemma suspended_connect_outlives_close (c : Client) (metadata : Metadata) (k : nat) :
  _wss c = None ->
  _cloudflare c = Some Pending ->
  awaiting c = S k ->
  let c1 := exec (job (close true)) c in
  let c2 := exec (job (cloudflare_done (Some metadata))) c1 in
  emitted c1 = (emitted c ++ [mkEvent "closed" None])%list
  /\ hub c1 = hub c
  /\ awaiting c1 = S k
  /\ hub c2 = (hub c1 ++ [HubStart (created c) metadata])%list
  /\ _wss c2 = Some (created c).
Proof.
  intros Hw Hcf Ha. cbv zeta.
  assert (E : exec (job (close true)) c
              = push_emitted (mkEvent "closed" None)
                  (set_watcher (Watcher.stop (_watcher c) (loop c)) c)).
  { destruct c as [r cf ts us wt w sc rh l em hb cr hs aw rj rd]; simpl in *; subst.
    reflexivity. }
  rewrite E. set (c1 := push_emitted _ _).
  assert (Hw1 : _wss c1 = None) by (subst c1; destruct c; exact Hw).
  assert (Hcf1 : _cloudflare c1 = Some Pending) by (subst c1; destruct c; exact Hcf).
  assert (Ha1 : awaiting c1 = S k) by (subst c1; destruct c; exact Ha).
  destruct (handshake_completes c1 metadata k Hw1 Hcf1 Ha1) as (C1 & C2 & _).
  cbv zeta in C1, C2.
  split; [subst c1; destruct c; reflexivity |].
  split; [subst c1; destruct c; reflexivity |].
  split; [exact Ha1 |].
  split; [rewrite C2; subst c1; destruct c; reflexivity |].
  rewrite C1. subst c1. destruct c. reflexivity.
Qed.

End Facts.

Import Scenario.

Lemma pending_connects_share_one_client_witness :
  let c : Client Integral.number := constructor 90000 in
  let metadata := mkMetadata "cf=1" "agent" in
  let more := [TriggerSubscribe btc_eth Level2UpdateSubs; TriggerReconnect true] in
  let c1 := foldl (fun x t => exec (job (trigger t)) x) c
              (TriggerSubscribe btc_eth TradeSubs :: more) in
  let c2 := exec (job (cloudflare_done (Some metadata))) c1 in
  handshakes c1 = S (handshakes c)
  /\ awaiting c1 = S (length more)
  /\ hub c1 = hub c
  /\ _wss c1 = None
  /\ handshakes c2 = S (handshakes c)
  /\ awaiting c2 = 0%nat
  /\ _wss c2 = Some (created c)
  /\ hub c2 = (hub c ++ [HubStart (created c) metadata])%list.
Proof.
  exact (pending_connects_share_one_client (constructor 90000 : Client Integral.number)
           (TriggerSubscribe btc_eth TradeSubs)
           [TriggerSubscribe btc_eth Level2UpdateSubs; TriggerReconnect true]
           (mkMetadata "cf=1" "agent") eq_refl eq_refl eq_refl).
Defined.

Lemma disconnect_is_retried_after_the_timeout_witness :
  let c := bittrex_connected in
  let c1 := exec (job _onDisconnected) c in
  let retry := now (loop c) + _retryTimeoutMs c in
  emitted c1 = (emitted c ++ [mkEvent "disconnected" None])%list
  /\ hub c1 = hub c
  /\ _wss c1 = Some 0%nat
  /\ (forall t, t < retry ->
        exists c2, advance 0 t c1 = Some c2
                   /\ hub c2 = hub c /\ emitted c2 = emitted c1)
  /\ (forall t, retry <= t ->
        exists c2, advance 1 t c1 = Some c2
                   /\ hub c2 = (hub c ++ [HubEnd 0; HubStart (created c)
                                                     (mkMetadata "cf=1" "agent")])%list
                   /\ _wss c2 = Some (created c)
                   /\ emitted c2 = emitted c1).
Proof.
  apply (disconnect_is_retried_after_the_timeout bittrex_connected 0
           (mkMetadata "cf=1" "agent") 0).
  - vm_compute. reflexivity.
  - vm_compute. reflexivity.
  - vm_compute. reflexivity.
  - intros tm Hin. vm_compute in Hin. destruct Hin as [<- | []]. left. vm_compute. reflexivity.
Defined.

(** The retry of the scenario, as it runs: the signalr client 0 is ended
    and the client 1 started, 15 s after the disconnect. *)
Example retry_runs :
  (fun c => (hub c, List.map name (emitted c), now (loop c)))
    <$> advance 1 15000 (exec (job _onDisconnected) bittrex_idle)
  = Some ([HubStart 0 (mkMetadata "cf=1" "agent"); HubEnd 0;
           HubStart 1 (mkMetadata "cf=1" "agent")],
          ["connected"; "disconnected"], 15000).
Proof. vm_compute. reflexivity. Qed.

End BittrexConnections.

(** ** Across the clients: connecting and closing *)
Module Clients.
Import Js Model JsFacts MonadFacts.


(** C6 (as amended).  Binance: [close()] emits [closed] once when there is
    a socket and nothing when there is none, and a second [close()] changes
    nothing.  Bittrex: every [close()] emits [closed] once, with or without
    a socket, and a second [close()] does nothing but emit it again. *)
Theorem close_emits_closed :
  (forall (number : Type) (c : Binance.Client number),
     Binance.emitted (exec Binance.close c)
     = (Binance.emitted c
        ++ match Binance._wss c with
           | Some _ => [mkEvent "closed" None]
           | None => []
           end)%list
     /\ exec Binance.close (exec Binance.close c) = exec Binance.close c)
  /\ (forall (number : Type) (c : Bittrex.Client number),
        Bittrex.emitted (exec (Bittrex.close true) c)
        = (Bittrex.emitted c ++ [mkEvent "closed" None])%list
        /\ exec (Bittrex.close true) (exec (Bittrex.close true) c)
           = Bittrex.push_emitted (mkEvent "closed" None) (exec (Bittrex.close true) c)).
Proof.
  split; intros number c.
  - split; [apply BinanceLifecycle.close_emits | apply BinanceLifecycle.close_twice].
  - split; [apply BittrexLifecycle.bittrex_close_emits | apply BittrexLifecycle.close_again].
Qed.

(** C7 (as amended).  [close()] releases the socket; of the timers it
    disarms the watcher's alone, and on Bittrex only.  Binance: every timer
    stays armed, and a debounce timer pending at [close()] fires at its
    deadline (no other timer falling due before, that is up to [H]) and
    opens a socket.  Bittrex: the retry timer and a suspended [_connect]
    stay as they are; the retry timer armed by a disconnect fires at its
    deadline after [close()] and starts a new signalr client from the cached
    handshake, and a [_connect] suspended on the handshake at [close()]
    starts one when the handshake succeeds.  On either client, when no
    timer is left after [close()], the passing of time emits nothing and
    touches no socket. *)
Theorem close_leaves_timers_armed :
  (forall (number : Type) (c : Binance.Client number),
     Binance.loop (exec Binance.close c) = Binance.loop c)
  /\ (forall (number : Type) (c : Bittrex.Client number),
        Bittrex.loop (exec (Bittrex.close true) c)
        = clearTimeout (Watcher.armed (Bittrex._watcher c)) (Bittrex.loop c)
        /\ Bittrex._reconnectHandle (exec (Bittrex.close true) c) = Bittrex._reconnectHandle c
        /\ Bittrex.awaiting (exec (Bittrex.close true) c) = Bittrex.awaiting c)
  /\ (forall (number : Type) (c : Binance.Client number) H B d fuel t,
        Binance.settled H B c ->
        Binance.deadline c = Some d ->
        d <= t -> t <= H ->
        exists c', Binance.advance (S fuel) t (exec Binance.close c) = Some c'
          /\ Binance.sockets c'
             = (Binance.sockets (exec Binance.close c)
                ++ [Binance.SockConnect (Binance.url (Binance.streams_of c))])%list)
  /\ (forall (number : Type) (c : Bittrex.Client number) (wss : nat)
        (metadata : Bittrex.Metadata) (fuel : nat) (t : Z),
        Bittrex._wss c = Some wss ->
        Bittrex._cloudflare c = Some (Bittrex.Fulfilled metadata) ->
        Bittrex.awaiting c = 0%nat ->
        (forall tm, In tm (queue (Bittrex.loop c)) ->
           Watcher.armed (Bittrex._watcher c) = Some (handle tm)
           \/ Bittrex._reconnectHandle c = Some (handle tm)) ->
        now (Bittrex.loop c) + Bittrex._retryTimeoutMs c <= t ->
        let c1 := exec (Bittrex.job Bittrex._onDisconnected) c in
        let c2 := exec (Bittrex.job (Bittrex.close true)) c1 in
        Bittrex.emitted c2
        = (Bittrex.emitted c ++ [mkEvent "disconnected" None; mkEvent "closed" None])%list
        /\ Bittrex._wss c2 = None
        /\ exists c3, Bittrex.advance (S fuel) t c2 = Some c3
             /\ Bittrex.hub c3
                = (Bittrex.hub c2 ++ [Bittrex.HubStart (Bittrex.created c) metadata])%list
             /\ Bittrex._wss c3 = Some (Bittrex.created c))
  /\ (forall (number : Type) (c : Bittrex.Client number) (metadata : Bittrex.Metadata)
        (k : nat),
        Bittrex._wss c = None ->
        Bittrex._cloudflare c = Some Bittrex.Pending ->
        Bittrex.awaiting c = S k ->
        let c1 := exec (Bittrex.job (Bittrex.close true)) c in
        let c2 := exec (Bittrex.job (Bittrex.cloudflare_done (Some metadata))) c1 in
        Bittrex.emitted c1 = (Bittrex.emitted c ++ [mkEvent "closed" None])%list
        /\ Bittrex.hub c1 = Bittrex.hub c
        /\ Bittrex.hub c2
           = (Bittrex.hub c1 ++ [Bittrex.HubStart (Bittrex.created c) metadata])%list
        /\ Bittrex._wss c2 = Some (Bittrex.created c))
  /\ (forall (number : Type) (c : Binance.Client number) fuel t,
        queue (Binance.loop (exec Binance.close c)) = [] ->
        exists c', Binance.advance fuel t (exec Binance.close c) = Some c'
          /\ Binance.emitted c' = Binance.emitted (exec Binance.close c)
          /\ Binance.sockets c' = Binance.sockets (exec Binance.close c))
  /\ (forall (number : Type) (c : Bittrex.Client number) fuel t,
        queue (Bittrex.loop (exec (Bittrex.close true) c)) = [] ->
        exists c', Bittrex.advance fuel t (exec (Bittrex.close true) c) = Some c'
          /\ Bittrex.emitted c' = Bittrex.emitted (exec (Bittrex.close true) c)
          /\ Bittrex.hub c' = Bittrex.hub (exec (Bittrex.close true) c)).
Proof.
  split; [| split; [| split; [| split; [| split; [| split]]]]].
  - intros number c. apply BinanceLifecycle.close_keeps_timers.
  - intros number c.
    destruct (BittrexLifecycle.close_stops_watcher_only c true) as (H1 & _ & H3 & H4 & _).
    auto.
  - intros number c H B d fuel t Hs Hd Ht HtH.
    destruct (BinanceLifecycle.close_keeps_timers c) as (Hl & Hr & _).
    assert (Hs' : Binance.settled H B (exec Binance.close c)).
    { unfold Binance.settled, Binance.deadline, Binance.is_debounce in *.
      rewrite Hl, Hr. exact Hs. }
    assert (Hd' : Binance.deadline (exec Binance.close c) = Some d).
    { unfold Binance.deadline, Binance.is_debounce in *. rewrite Hl, Hr. exact Hd. }
    destruct (BinanceFacts.debounce_fires H B (exec Binance.close c) d fuel t Hs' Hd' Ht HtH)
      as (c' & Ha & Hs2 & _). clear Hs. rename Hs2 into Hs.
    exists c'. split; [exact Ha |]. rewrite Hs. f_equal.
    destruct c as [n ts ss us [s |] dh wt l em so]; reflexivity.
  - intros number c wss metadata fuel t Hw Hcf Ha Hq Ht.
    destruct (BittrexConnections.retry_outlives_close c wss metadata fuel Hw Hcf Ha Hq)
      as (Hem & Hw2 & _ & Hfires).
    cbv zeta in *. split; [exact Hem |]. split; [exact Hw2 |]. exact (Hfires t Ht).
  - intros number c metadata k Hw Hcf Ha.
    destruct (BittrexConnections.suspended_connect_outlives_close c metadata k Hw Hcf Ha)
      as (Hem & Hh & _ & Hh2 & Hw2).
    cbv zeta in *. auto.
  - intros number c fuel t Hq.
    destruct (BinanceFacts.quiet_forever (exec Binance.close c) fuel t Hq) as (c' & ? & ? & ? & _).
    eauto.
  - intros number c fuel t Hq.
    destruct (BittrexLifecycle.bittrex_quiet_forever (exec (Bittrex.close true) c) fuel t Hq)
      as (c' & ? & ? & ? & _).
    eauto.
Qed.

Import Scenario.


(** C6, as stated, fails on both clients: on a Binance client that never
    connected [close()] emits nothing, and on a Bittrex client a second
    [close()] emits [closed] a second time. *)
Lemma close_counterexample :
  Binance.emitted (exec Binance.close (Binance.constructor : Binance.Client Integral.number)) = []
  /\ Bittrex.emitted (exec (Bittrex.close true;; Bittrex.close true)
                        (Bittrex.constructor 90000 : Bittrex.Client Integral.number))
     = [mkEvent "closed" None; mkEvent "closed" None].
Proof. split; reflexivity. Qed.

Lemma close_leaves_timers_armed_witness :
  (let c := exec (Binance.subscribeTrades btcusdt)
              (Binance.constructor : Binance.Client Integral.number) in
   exists c', Binance.advance 1 100 (exec Binance.close c) = Some c'
     /\ Binance.sockets c'
        = (Binance.sockets (exec Binance.close c)
           ++ [Binance.SockConnect (Binance.url (Binance.streams_of c))])%list)
  /\ (let c1 := exec (Bittrex.job Bittrex._onDisconnected) bittrex_connected in
      let c2 := exec (Bittrex.job (Bittrex.close true)) c1 in
      Bittrex.emitted c2
      = (Bittrex.emitted bittrex_connected
         ++ [mkEvent "disconnected" None; mkEvent "closed" None])%list
      /\ Bittrex._wss c2 = None
      /\ exists c3, Bittrex.advance 1 15000 c2 = Some c3
           /\ Bittrex.hub c3
              = (Bittrex.hub c2
                 ++ [Bittrex.HubStart (Bittrex.created bittrex_connected)
                       (Bittrex.mkMetadata "cf=1" "agent")])%list
           /\ Bittrex._wss c3 = Some (Bittrex.created bittrex_connected))
  /\ (let c : Bittrex.Client Integral.number :=
        exec (Bittrex.job (Bittrex.subscribeTrades btc_eth)) (Bittrex.constructor 90000) in
      let metadata := Bittrex.mkMetadata "cf=1" "agent" in
      let c1 := exec (Bittrex.job (Bittrex.close true)) c in
      let c2 := exec (Bittrex.job (Bittrex.cloudflare_done (Some metadata))) c1 in
      Bittrex.emitted c1 = (Bittrex.emitted c ++ [mkEvent "closed" None])%list
      /\ Bittrex.hub c1 = Bittrex.hub c
      /\ Bittrex.hub c2
         = (Bittrex.hub c1 ++ [Bittrex.HubStart (Bittrex.created c) metadata])%list
      /\ Bittrex._wss c2 = Some (Bittrex.created c)).
Proof.
  destruct close_leaves_timers_armed as (_ & _ & Hfires & Hretry & Hsuspended & _).
  split; [| split].
  - apply (Hfires _ _ 100 100 100 0%nat 100); [| reflexivity | lia | lia].
    repeat constructor; simpl; lia.
  - apply (Hretry _ bittrex_connected 0%nat (Bittrex.mkMetadata "cf=1" "agent") 0%nat 15000).
    + vm_compute. reflexivity.
    + vm_compute. reflexivity.
    + vm_compute. reflexivity.
    + intros tm Hin. vm_compute in Hin. destruct Hin as [<- | []].
      left. vm_compute. reflexivity.
    + vm_compute. discriminate.
  - apply (Hsuspended _ (exec (Bittrex.job (Bittrex.subscribeTrades btc_eth))
                           (Bittrex.constructor 90000))
             (Bittrex.mkMetadata "cf=1" "agent") 0%nat).
    + vm_compute. reflexivity.
    + vm_compute. reflexivity.
    + vm_compute. reflexivity.
Defined.

(** C7, as stated, fails: the debounce timer armed by a subscribe outlives
    [close()], fires 100 ms after the subscribe, opens a socket, and the
    client emits [connected] when that socket opens. *)
Lemma close_does_not_cancel_the_debounce :
  let c1 := exec (Binance.subscribeTrades btcusdt)
              (Binance.constructor : Binance.Client Integral.number) in
  let c2 := exec Binance.close c1 in
  exists c3,
    Binance.advance 1 100 c2 = Some c3
    /\ Binance.emitted c2 = []
    /\ Binance.sockets c3
       = [Binance.SockConnect "wss://stream.binance.com:9443/stream?streams=btcusdt@aggTrade"]
    /\ Binance.emitted (exec Binance._onConnected c3) = [mkEvent "connected" None].
Proof. eexists. repeat split; reflexivity. Qed.

End Clients.

(** ** Bittrex: what holds through the life of a client *)
Module BittrexLife.
Import Js Model JsFacts MonadFacts Frames Bittrex BittrexFacts.

(** *** From the steps of a client to its life *)
Section Invariant.
Context {number : Type} `{Number number} {Un : Unicode} `{Libraries number}
  {Clk : Clock number}.
Local Abbreviation Client := (Bittrex.Client number).
Local Abbreviation Json := (Js.Json number).

(** A property of the client that every write of the methods maintains,
    those of [_onConnected] being asked for only when the life of the client
    may hold a [connected] event... *)
Variable Inv : Client -> Prop.
Variable allowed : Action number -> bool.
Hypothesis Inv_emitted : forall e c, Inv c -> Inv (push_emitted e c).
Hypothesis Inv_start : forall c,
  Inv c -> Inv (set_watcher (Watcher.start WatcherExpired (_watcher c) (loop c)) c).
Hypothesis Inv_stop : forall c,
  Inv c -> Inv (set_watcher (Watcher.stop (_watcher c) (loop c)) c).
Hypothesis Inv_subs : forall map m c, Inv c -> Inv (with_subs map m c).
Hypothesis Inv_count : forall remote_id count sc c,
  _subCount c = Some sc -> Inv c
  -> Inv (set_subCount (Some (count_write remote_id count sc)) c).
Hypothesis Inv_reset : allowed HubConnected = true ->
  forall c, Inv c -> Inv (set_subCount (Some ∅) c).
Hypothesis Inv_reads : forall n c, Inv c -> Inv (set_reads n c).
Hypothesis Inv_call : forall method remote_id wss c,
  _wss c = Some wss -> Inv c -> Inv (push_hub [HubCall wss "CoreHub" method remote_id] c).
Hypothesis Inv_end : forall wss c,
  _wss c = Some wss -> Inv c -> Inv (set_wss None (push_hub [HubEnd wss] c)).
Hypothesis Inv_connect : forall c, Inv c -> Inv (exec _connect c).
Hypothesis Inv_resumed : forall c, Inv c -> Inv (exec _connect_resumed c).
Hypothesis Inv_awaiting : forall c, Inv c -> Inv (set_awaiting 0 c).
Hypothesis Inv_done : forall res c, Inv c -> Inv (exec (cloudflare_done res) c).
Hypothesis Inv_clear : forall c,
  Inv c -> Inv (set_reconnectHandle (_reconnectHandle c)
                  (clearTimeout (_reconnectHandle c) (loop c)) c).
Hypothesis Inv_onDisconnected : forall c, Inv c -> Inv (exec _onDisconnected c).
Hypothesis Inv_dequeue : forall tm c,
  In tm (queue (loop c)) -> Inv c -> Inv (set_loop (dequeue tm (loop c)) c).
Hypothesis Inv_clock : forall t c, Inv c -> Inv (set_loop (set_clock t (loop c)) c).

Local Abbreviation stays := (fun c c' : Client => Inv c -> Inv c').

Lemma bittrex_stays_refl (c : Client) : stays c c.
Proof. intros Hc. exact Hc. Qed.

Lemma bittrex_stays_trans (c1 c2 c3 : Client) : stays c1 c2 -> stays c2 c3 -> stays c1 c3.
Proof. intros H12 H23 Hc. apply H23, H12, Hc. Qed.

Lemma bittrex_markAlive_stays (c : Client) :
  Inv c -> Inv (set_watcher (Watcher.markAlive WatcherExpired (_watcher c) (loop c)) c).
Proof.
  intros Hc. unfold Watcher.markAlive.
  destruct (Watcher.armed (_watcher c)); [apply Inv_start; exact Hc |].
  destruct c. exact Hc.
Qed.

Lemma bittrex_emit_stays name payload : keeps stays (emit name payload).
Proof.
  unfold emit. repeat keeps_step bittrex_stays_refl bittrex_stays_trans.
  - apply keeps_modify. intros c. apply Inv_emitted.
  - apply keeps_modify. intros c. apply bittrex_markAlive_stays.
Qed.

Lemma watcher_start_stays : keeps stays (watcher_start (number := number)).
Proof. intros c. apply Inv_start. Qed.

Lemma watcher_stop_stays : keeps stays (watcher_stop (number := number)).
Proof. intros c. apply Inv_stop. Qed.

Lemma wss_call_stays method remote_id :
  keeps stays (wss_call (number := number) method remote_id).
Proof.
  intros c Hc. unfold exec, wss_call, bind, gets.
  destruct (_wss c) as [wss |] eqn:Hw; simpl; [| exact Hc].
  apply Inv_call; assumption.
Qed.

Lemma bittrex_connect_stays : keeps stays (_connect (number := number)).
Proof. intros c. apply Inv_connect. Qed.

Lemma resumed_stays : keeps stays (_connect_resumed (number := number)).
Proof. intros c. apply Inv_resumed. Qed.

Lemma done_stays res : keeps stays (cloudflare_done (number := number) res).
Proof. intros c. apply Inv_done. Qed.

Lemma bittrex_onDisconnected_stays : keeps stays (_onDisconnected (number := number)).
Proof. intros c. apply Inv_onDisconnected. Qed.

Ltac steps :=
  repeat first [ apply bittrex_emit_stays | apply watcher_start_stays | apply watcher_stop_stays
               | apply wss_call_stays | apply bittrex_connect_stays | apply resumed_stays
               | apply done_stays | apply bittrex_onDisconnected_stays
               | apply keeps_modify; intros ?;
                 first [ apply Inv_subs | apply Inv_awaiting | apply Inv_clear
                       | apply Inv_reads ]
               | keeps_step bittrex_stays_refl bittrex_stays_trans ].

Lemma times_stays n (m : M Client unit) : keeps stays m -> keeps stays (times n m).
Proof.
  intros Hm. induction n as [| n IH]; simpl; [steps |].
  apply (keeps_bind _ bittrex_stays_trans); [exact Hm | intros _; exact IH].
Qed.

Lemma microtasks_stays : keeps stays (microtasks (number := number)).
Proof. unfold microtasks. steps; apply times_stays, resumed_stays. Qed.

Lemma job_stays (m : M Client unit) : keeps stays m -> keeps stays (job m).
Proof.
  intros Hm c Hc. specialize (Hm c Hc). unfold exec, job in *.
  destruct (m c) as [c' r]. simpl in *. apply microtasks_stays. exact Hm.
Qed.

Lemma bittrex_close_stays emitEvent : keeps stays (close (number := number) emitEvent).
Proof.
  unfold close. apply (keeps_bind _ bittrex_stays_trans); [apply watcher_stop_stays | intros _].
  intros c Hc. unfold exec, bind at 1, gets at 1.
  destruct (_wss c) as [wss |] eqn:Hw.
  - unfold bind at 1. unfold bind at 1. unfold try_ignore, modify at 1. unfold modify at 1.
    cbn [fst snd].
    assert (K : keeps stays (if emitEvent then emit "closed" None else ret tt)) by steps.
    apply K. apply Inv_end; assumption.
  - unfold bind at 1. unfold ret at 1.
    assert (K : keeps stays (if emitEvent then emit "closed" None else ret tt)) by steps.
    apply K. exact Hc.
Qed.

Lemma bittrex_reconnect_stays emitEvent : keeps stays (reconnect (number := number) emitEvent).
Proof.
  unfold reconnect. apply (keeps_bind _ bittrex_stays_trans); [apply bittrex_close_stays | intros _]. steps.
Qed.

Lemma subCount_set_stays remote_id count :
  keeps stays (subCount_set (number := number) remote_id count).
Proof.
  intros c Hc. unfold exec, subCount_set, bind, gets.
  destruct (_subCount c) as [sc |] eqn:Hsc; simpl; [| exact Hc].
  apply (Inv_count remote_id count sc c Hsc Hc).
Qed.

Lemma sendSub_stays remote_id : keeps stays (_sendSub (number := number) remote_id).
Proof.
  unfold _sendSub, subCount_at. repeat first [ apply subCount_set_stays | progress steps ].
Qed.

Lemma sendUnsub_stays remote_id : keeps stays (_sendUnsub (number := number) remote_id).
Proof.
  unfold _sendUnsub, subCount_at. repeat first [ apply subCount_set_stays | progress steps ].
Qed.

Lemma bittrex_subscribe_stays market map : keeps stays (_subscribe (number := number) market map).
Proof. unfold _subscribe. steps. apply sendSub_stays. Qed.

Lemma bittrex_unsubscribe_stays market map :
  keeps stays (_unsubscribe (number := number) market map).
Proof. unfold _unsubscribe. steps. apply sendUnsub_stays. Qed.

Lemma bittrex_onConnected_stays :
  allowed HubConnected = true -> keeps stays (_onConnected (number := number)).
Proof.
  intros Hallowed. unfold _onConnected.
  repeat first [ apply sendSub_stays
               | apply keeps_modify; intros ?; apply (Inv_reset Hallowed)
               | progress steps ].
Qed.

Lemma moment_utc_stays v : keeps stays (moment_utc v).
Proof.
  unfold moment_utc. steps.
Qed.

Lemma getTradeId_stays msg : keeps stays (_getTradeId msg).
Proof. unfold _getTradeId. repeat first [ apply moment_utc_stays | progress steps ]. Qed.

Lemma constructTrade_stays msg name : keeps stays (_constructTradeFromMessage msg name).
Proof.
  unfold _constructTradeFromMessage, deref.
  repeat first [ apply getTradeId_stays | apply moment_utc_stays | progress steps ].
Qed.

Lemma bittrex_point_stays p : keeps stays (point (number := number) p).
Proof. unfold point. steps. Qed.

Lemma level2_stays msg : keeps stays (level2_of (number := number) msg).
Proof. unfold level2_of, deref. repeat first [ apply bittrex_point_stays | progress steps ]. Qed.

Lemma onExchangeState_stays remote_id err result :
  keeps stays (_onExchangeState (number := number) remote_id err result).
Proof.
  unfold _onExchangeState, _constructLevel2Snapshot.
  repeat first [ apply level2_stays | progress steps ].
Qed.

Lemma bittrex_onMessage_stays utf8Data : keeps stays (_onMessage utf8Data).
Proof.
  unfold _onMessage, _constructLevel2Update.
  repeat first [ apply level2_stays | apply constructTrade_stays | progress steps ].
Qed.

Lemma bittrex_fire_stays cb : keeps stays (fire (number := number) cb).
Proof.
  destruct cb; unfold fire; [apply bittrex_reconnect_stays |].
  apply (keeps_bind _ bittrex_stays_trans); [apply bittrex_reconnect_stays | intros _; steps].
Qed.

Lemma bittrex_advance_stays fuel t : forall c c' : Client,
  Inv c -> advance fuel t c = Some c' -> Inv c'.
Proof.
  induction fuel as [| fuel IH]; intros c c' Hc; simpl;
    (destruct (next_due t (loop c)) as [tm |] eqn:Hn;
     [| intros [= <-]; apply Inv_clock; exact Hc]); [discriminate |].
  apply IH. apply job_stays; [apply bittrex_fire_stays |]. apply Inv_dequeue; [| exact Hc].
  unfold next_due in Hn. destruct (earliest (queue (loop c))) as [tm' |] eqn:He;
    [| discriminate]. apply BinanceFacts.earliest_in in He.
  destruct (due tm' <=? t); [injection Hn as <-; exact He | discriminate].
Qed.

Lemma bittrex_perform_stays fuel (a : Action number) (c c' : Client) :
  allowed a = true -> Inv c -> perform fuel a c = Some c' -> Inv c'.
Proof.
  intros Ha Hc. destruct a; simpl; try (intros [= <-]); try (apply job_stays; [| exact Hc]).
  - apply bittrex_subscribe_stays.
  - apply bittrex_unsubscribe_stays.
  - apply bittrex_reconnect_stays.
  - apply bittrex_close_stays.
  - apply done_stays.
  - apply bittrex_onConnected_stays, Ha.
  - apply bittrex_onDisconnected_stays.
  - apply bittrex_onMessage_stays.
  - apply onExchangeState_stays.
  - apply bittrex_advance_stays, Hc.
Qed.

(** ... holds through every life of a client that starts with it. *)
Lemma bittrex_play_stays fuel (actions : list (Action number)) : forall c c' : Client,
  forallb allowed actions = true -> Inv c -> play fuel actions c = Some c' -> Inv c'.
Proof.
  induction actions as [| a actions IH]; intros c c' Hall Hc; simpl.
  - intros [= <-]. exact Hc.
  - simpl in Hall. apply andb_true_iff in Hall as [Ha Hall].
    destruct (perform fuel a c) as [c1 |] eqn:Hp; [| discriminate].
    apply IH; [exact Hall |]. exact (bittrex_perform_stays fuel a c c1 Ha Hc Hp).
Qed.
End Invariant.

(** Every action is allowed in a life without restrictions. *)
Lemma all_allowed {number : Type} (actions : list (Action number)) :
  forallb (fun _ => true) actions = true.
Proof. induction actions as [| a actions IH]; [reflexivity | exact IH]. Qed.

(** *** No counters before [connected] *)
Section Counters.
Context {number : Type} `{Number number} {Un : Unicode} `{Libraries number}
  {Clk : Clock number}.
Local Abbreviation Client := (Bittrex.Client number).

Lemma counters_missing_stays fuel (actions : list (Action number)) (c c' : Client) :
  forallb before_connected actions = true ->
  _subCount c = None -> play fuel actions c = Some c' -> _subCount c' = None.
Proof.
  apply (bittrex_play_stays (fun x => _subCount x = None) before_connected).
  - intros e x Hx. exact Hx.
  - intros x Hx. exact Hx.
  - intros x Hx. exact Hx.
  - intros map m x Hx. destruct map; exact Hx.
  - intros remote_id count sc x Hsc Hx. congruence.
  - intros [=].
  - intros n x Hx. exact Hx.
  - intros method remote_id wss x _ Hx. exact Hx.
  - intros wss x _ Hx. exact Hx.
  - intros x. destruct x as [r [cf |] ts us wt [w |] sc rh l em hb cr hs aw rj rd]; simpl;
      intros Hx; exact Hx.
  - intros x. destruct x as [r [[| md |] |] ts us wt [w |] sc rh l em hb cr hs aw rj rd]; simpl;
      intros Hx; exact Hx.
  - intros x Hx. exact Hx.
  - intros res x. destruct x as [r [[| md |] |] ts us wt w sc rh l em hb cr hs aw rj rd]; simpl;
      intros Hx; exact Hx.
  - intros x Hx. exact Hx.
  - intros x. destruct x as [r cf ts us [iv [ar |]] w sc [rh |] l em hb cr hs aw rj rd]; simpl;
      intros Hx; exact Hx.
  - intros tm x _ Hx. exact Hx.
  - intros t x Hx. exact Hx.
Qed.

(** X17.  Until the hub reports [connected] for the first time, the
    counters do not exist, whatever the owner called and whatever else
    happened since the client was constructed.  Once the signalr client is
    created, a subscribe of a new market then throws a TypeError after it
    has recorded the market in its Map, and an unsubscribe of a held market
    throws after it has deleted it; neither sends anything. *)
Theorem counters_are_missing_before_connected (intervalMs : Z) (fuel : nat)
    (actions : list (Action number)) (c : Client) (market : Market) (map : Subs) (wss : nat) :
  play fuel actions (constructor intervalMs) = Some c ->
  forallb before_connected actions = true ->
  _wss c = Some wss ->
  _subCount c = None
  /\ (has (id market) (subs map c) = false ->
      _subscribe market map c
      = (with_subs map (set (id market) market (subs map c)) c, Thrown TypeError))
  /\ (has (id market) (subs map c) = true ->
      _unsubscribe market map c
      = (with_subs map (delete (id market) (subs map c)) c, Thrown TypeError)).
Proof.
  intros Hplay Hbefore Hw.
  assert (Hsc : _subCount c = None).
  { apply (counters_missing_stays fuel actions (constructor intervalMs) c Hbefore);
      [reflexivity | exact Hplay]. }
  split; [exact Hsc |]. split; intros Hhas.
  - rewrite (subscribe_connected c wss market map Hw Hhas).
    destruct (bittrex_with_subs_frame map (set (id market) market (subs map c)) c)
      as (_ & Hsc' & _).
    unfold _sendSub, subCount_at, bind, gets. rewrite Hsc', Hsc. reflexivity.
  - rewrite (unsubscribe_connected c wss market map Hw Hhas).
    destruct (bittrex_with_subs_frame map (delete (id market) (subs map c)) c)
      as (_ & Hsc' & _).
    unfold _sendUnsub, subCount_at, bind, gets. rewrite Hsc', Hsc. reflexivity.
Qed.
End Counters.

(** *** One handshake *)
Section Handshake.
Context {number : Type} `{Number number} {Un : Unicode} `{Libraries number}
  {Clk : Clock number}.
Local Abbreviation Client := (Bittrex.Client number).

Lemma handshake_cached_stays fuel (actions : list (Action number)) (c c' : Client) :
  handshake_cached c -> play fuel actions c = Some c' -> handshake_cached c'.
Proof.
  apply (bittrex_play_stays handshake_cached (fun _ => true)); [.. | apply all_allowed]; unfold handshake_cached.
  - intros e x Hx. exact Hx.
  - intros x Hx. exact Hx.
  - intros x Hx. exact Hx.
  - intros map m x Hx. destruct map; exact Hx.
  - intros remote_id count sc x _ Hx. exact Hx.
  - intros _ x Hx. exact Hx.
  - intros n x Hx. exact Hx.
  - intros method remote_id wss x _ Hx. exact Hx.
  - intros wss x _ Hx. exact Hx.
  - intros x. destruct x as [r [cf |] ts us wt [w |] sc rh l em hb cr hs aw rj rd]; simpl;
      intros Hx; first [exact Hx | rewrite Hx; reflexivity].
  - intros x. destruct x as [r [[| md |] |] ts us wt [w |] sc rh l em hb cr hs aw rj rd]; simpl;
      intros Hx; exact Hx.
  - intros x Hx. exact Hx.
  - intros res x. destruct x as [r [[| md |] |] ts us wt w sc rh l em hb cr hs aw rj rd]; simpl;
      intros Hx; exact Hx.
  - intros x Hx. exact Hx.
  - intros x. destruct x as [r cf ts us [iv [ar |]] w sc [rh |] l em hb cr hs aw rj rd]; simpl;
      intros Hx; exact Hx.
  - intros tm x _ Hx. exact Hx.
  - intros t x Hx. exact Hx.
Qed.

(** X23.  Whatever the owner calls, the handshake and the hub report and
    the timers run, in whatever order, a client makes the Cloudflare
    handshake at most once in its life: it is made by the first call that
    reaches [_connect], and its promise, pending, fulfilled or rejected,
    serves every later one. *)
Theorem handshake_is_made_once (intervalMs : Z) (fuel : nat) (actions : list (Action number))
    (c' : Client) :
  play fuel actions (constructor intervalMs) = Some c' ->
  (handshakes c' <= 1)%nat
  /\ (handshakes c' = 1%nat <-> is_Some (_cloudflare c')).
Proof.
  intros Hplay.
  assert (Hc : handshake_cached c').
  { apply (handshake_cached_stays fuel actions (constructor intervalMs) c'); [| exact Hplay].
    reflexivity. }
  unfold handshake_cached in Hc. rewrite Hc.
  destruct (_cloudflare c'); split; try lia; split; try discriminate; eauto.
  intros [? [=]].
Qed.
End Handshake.

(** *** One signalr client at a time *)
Section Hub.
Context {number : Type} `{Number number} {Un : Unicode} `{Libraries number}
  {Clk : Clock number}.
Local Abbreviation Client := (Bittrex.Client number).

Lemma hub_replay_app (ops1 ops2 : list HubOp) : forall live,
  replay live (ops1 ++ ops2)
  = match replay live ops1 with
    | Some live' => replay live' ops2
    | None => None
    end.
Proof.
  induction ops1 as [| [wss md | wss | wss hb method rid] ops1 IH]; intros live; simpl;
    [reflexivity | | |].
  - destruct live; [reflexivity | apply IH].
  - destruct live as [wss' |]; [| reflexivity].
    destruct (Nat.eqb wss wss'); [apply IH | reflexivity].
  - destruct live as [wss' |]; [| reflexivity].
    destruct (Nat.eqb wss wss'); [apply IH | reflexivity].
Qed.

Lemma one_hub_stays fuel (actions : list (Action number)) (c c' : Client) :
  one_hub c -> play fuel actions c = Some c' -> one_hub c'.
Proof.
  apply (bittrex_play_stays one_hub (fun _ => true)); [.. | apply all_allowed]; unfold one_hub.
  - intros e x Hx. exact Hx.
  - intros x Hx. exact Hx.
  - intros x Hx. exact Hx.
  - intros map m x Hx. destruct map; exact Hx.
  - intros remote_id count sc x _ Hx. exact Hx.
  - intros _ x Hx. exact Hx.
  - intros n x Hx. exact Hx.
  - intros method remote_id wss x Hw Hx. simpl.
    rewrite hub_replay_app, Hx, Hw. simpl. rewrite Nat.eqb_refl. reflexivity.
  - intros wss x Hw Hx. simpl.
    rewrite hub_replay_app, Hx, Hw. simpl. rewrite Nat.eqb_refl. reflexivity.
  - intros x. destruct x as [r [cf |] ts us wt [w |] sc rh l em hb cr hs aw rj rd]; simpl;
      intros Hx; exact Hx.
  - intros x. destruct x as [r [[| md |] |] ts us wt [w |] sc rh l em hb cr hs aw rj rd]; simpl;
      intros Hx; try exact Hx.
    rewrite hub_replay_app, Hx. reflexivity.
  - intros x Hx. exact Hx.
  - intros res x. destruct x as [r [[| md |] |] ts us wt w sc rh l em hb cr hs aw rj rd]; simpl;
      intros Hx; exact Hx.
  - intros x Hx. exact Hx.
  - intros x. destruct x as [r cf ts us [iv [ar |]] w sc [rh |] l em hb cr hs aw rj rd]; simpl;
      intros Hx; exact Hx.
  - intros tm x _ Hx. exact Hx.
  - intros t x Hx. exact Hx.
Qed.

(** X24.  Whatever the owner calls, the handshake and the hub report and
    the timers run, in whatever order, the client never starts a signalr
    client while it holds another, and it ends and calls no client but the
    one it holds: the log of hub operations is in order, and [_wss] is the
    client the log leaves started. *)
Theorem signalr_clients_are_started_one_at_a_time (intervalMs : Z) (fuel : nat)
    (actions : list (Action number)) (c' : Client) :
  play fuel actions (constructor intervalMs) = Some c' ->
  replay None (hub c') = Some (_wss c').
Proof. apply (one_hub_stays fuel actions (constructor intervalMs) c'). reflexivity. Qed.
End Hub.

(** *** One retry timer at most *)
Section Retry.
Context {number : Type} `{Number number} {Un : Unicode} `{Libraries number}
  {Clk : Clock number}.
Local Abbreviation Client := (Bittrex.Client number).

(** [clearTimeout] filters the queue, whatever the handle. *)
Lemma clearTimeout_queue {C} (h : option nat) (l : EventLoop C) :
  queue (clearTimeout h l)
  = List.filter (fun t => match h with
                          | Some n => negb (Nat.eqb (handle t) n)
                          | None => true
                          end) (queue l)
  /\ fresh (clearTimeout h l) = fresh l /\ now (clearTimeout h l) = now l.
Proof.
  destruct h; simpl; [repeat split; reflexivity |].
  rewrite BinanceLife.filter_all. repeat split; reflexivity.
Qed.

Lemma filter_twice {A} (f g : A -> bool) (l : list A) :
  List.filter f (List.filter g l) = List.filter (fun x => (g x && f x)%bool) l.
Proof.
  induction l as [| a l IH]; simpl; [reflexivity |].
  destruct (g a); simpl; [destruct (f a); rewrite IH; reflexivity | exact IH].
Qed.

(** Taking timers off the queue. *)
Lemma retry_held_fewer (c c' : Client) (f : Timer Callback -> bool) :
  fresh (loop c') = fresh (loop c) ->
  queue (loop c') = List.filter f (queue (loop c)) ->
  _reconnectHandle c' = _reconnectHandle c ->
  retry_held c -> retry_held c'.
Proof.
  unfold retry_held. intros -> -> -> (Hfresh & Hdup & Hheld).
  rewrite List.Forall_forall in Hfresh, Hheld.
  split; [| split].
  - apply List.Forall_forall. intros tm [Hin _]%filter_In. apply Hfresh, Hin.
  - apply BinanceLife.NoDup_handles_filter, Hdup.
  - apply List.Forall_forall. intros tm [Hin _]%filter_In. apply Hheld, Hin.
Qed.

(** Arming a timer, after taking timers off the queue. *)
Lemma retry_held_more (c c' : Client) (f : Timer Callback -> bool) (d : Z) (cb : Callback) :
  fresh (loop c') = S (fresh (loop c)) ->
  queue (loop c')
  = (List.filter f (queue (loop c)) ++ [mkTimer (fresh (loop c)) d cb])%list ->
  match cb with
  | WatcherExpired => _reconnectHandle c' = _reconnectHandle c
  | RetryElapsed =>
      _reconnectHandle c' = Some (fresh (loop c))
      /\ forall tm, In tm (List.filter f (queue (loop c))) -> callback tm <> RetryElapsed
  end ->
  retry_held c -> retry_held c'.
Proof.
  unfold retry_held. intros -> -> Hcb (Hfresh & Hdup & Hheld).
  rewrite List.Forall_forall in Hfresh, Hheld.
  split; [| split].
  - apply Forall_app. split.
    + apply List.Forall_forall. intros tm [Hin _]%filter_In. specialize (Hfresh tm Hin). lia.
    + constructor; [simpl; lia | constructor].
  - rewrite List.map_app. simpl. apply NoDup_app. split; [| split].
    + apply BinanceLife.NoDup_handles_filter, Hdup.
    + intros h Hin Hh. apply list_elem_of_In, in_map_iff in Hin as (tm & <- & Hin).
      apply filter_In in Hin as [Hin _]. specialize (Hfresh tm Hin).
      apply list_elem_of_In in Hh. destruct Hh as [Hh | []]. lia.
    + apply NoDup_singleton.
  - apply Forall_app. split.
    + apply List.Forall_forall. intros tm Hin Htm. destruct cb.
      * destruct Hcb as [_ Hnone]. contradiction (Hnone tm Hin Htm).
      * rewrite Hcb. apply filter_In in Hin as [Hin _]. apply Hheld; assumption.
    + constructor; [| constructor]. simpl. intros ->. apply Hcb.
Qed.

Lemma retry_stop_held (c : Client) :
  retry_held c -> retry_held (set_watcher (Watcher.stop (_watcher c) (loop c)) c).
Proof.
  destruct (clearTimeout_queue (Watcher.armed (_watcher c)) (loop c)) as (Hq & Hf & _).
  apply (retry_held_fewer c (set_watcher (Watcher.stop (_watcher c) (loop c)) c) _ Hf Hq).
  reflexivity.
Qed.

Lemma retry_start_held (c : Client) :
  retry_held c
  -> retry_held (set_watcher (Watcher.start WatcherExpired (_watcher c) (loop c)) c).
Proof.
  destruct (clearTimeout_queue (Watcher.armed (_watcher c)) (loop c)) as (Hq & Hf & Hn).
  apply (retry_held_more c
           (set_watcher (Watcher.start WatcherExpired (_watcher c) (loop c)) c)
           (fun t => match Watcher.armed (_watcher c) with
                     | Some n => negb (Nat.eqb (handle t) n)
                     | None => true
                     end)
           (now (loop c) + Watcher.intervalMs (_watcher c)) WatcherExpired).
  - rewrite <- Hf. reflexivity.
  - rewrite <- Hq, <- Hf, <- Hn. reflexivity.
  - reflexivity.
Qed.

Lemma retry_clear_held (c : Client) :
  retry_held c
  -> retry_held (set_reconnectHandle (_reconnectHandle c)
                   (clearTimeout (_reconnectHandle c) (loop c)) c).
Proof.
  destruct (clearTimeout_queue (_reconnectHandle c) (loop c)) as (Hq & Hf & _).
  apply (retry_held_fewer c (set_reconnectHandle (_reconnectHandle c)
                               (clearTimeout (_reconnectHandle c) (loop c)) c) _ Hf Hq).
  reflexivity.
Qed.

(** What [_onDisconnected] leaves of the timers. *)
Lemma onDisconnected_timers (c : Client) :
  let l := clearTimeout (Watcher.armed (_watcher c))
             (clearTimeout (_reconnectHandle c) (loop c)) in
  loop (exec _onDisconnected c)
  = mkLoop (now l) (S (fresh l))
      (queue l ++ [mkTimer (fresh l) (now l + _retryTimeoutMs c) RetryElapsed])
  /\ _reconnectHandle (exec _onDisconnected c) = Some (fresh l).
Proof.
  destruct c as [r cf ts us [iv ar] w sc rh l em hb cr hs aw rj rd].
  destruct rh, ar; split; reflexivity.
Qed.

Lemma retry_onDisconnected_held (c : Client) :
  retry_held c -> retry_held (exec _onDisconnected c).
Proof.
  intros Hc. destruct (onDisconnected_timers c) as [Hl Hr]. cbv zeta in Hl, Hr.
  destruct (clearTimeout_queue (_reconnectHandle c) (loop c)) as (Hq1 & Hf1 & Hn1).
  destruct (clearTimeout_queue (Watcher.armed (_watcher c))
              (clearTimeout (_reconnectHandle c) (loop c))) as (Hq2 & Hf2 & Hn2).
  rewrite Hq1, filter_twice in Hq2. rewrite Hf1 in Hf2. rewrite Hn1 in Hn2.
  rewrite Hq2, Hf2, Hn2 in Hl. rewrite Hf2 in Hr.
  refine (retry_held_more c _ _ (now (loop c) + _retryTimeoutMs c) RetryElapsed
            _ _ _ Hc).
  - rewrite Hl. reflexivity.
  - rewrite Hl. reflexivity.
  - split; [exact Hr |].
    intros tm [Hin Hkeep]%filter_In Htm.
    destruct Hc as (_ & _ & Hheld). rewrite List.Forall_forall in Hheld.
    specialize (Hheld tm Hin Htm). rewrite Hheld, Nat.eqb_refl in Hkeep. discriminate.
Qed.

Lemma retry_held_stays fuel (actions : list (Action number)) (c c' : Client) :
  retry_held c -> play fuel actions c = Some c' -> retry_held c'.
Proof.
  apply (bittrex_play_stays retry_held (fun _ => true)); [.. | apply all_allowed].
  - intros e x Hx. exact Hx.
  - apply retry_start_held.
  - apply retry_stop_held.
  - intros map m x Hx. destruct map; exact Hx.
  - intros remote_id count sc x _ Hx. exact Hx.
  - intros _ x Hx. exact Hx.
  - intros n x Hx. exact Hx.
  - intros method remote_id wss x _ Hx. exact Hx.
  - intros wss x _ Hx. exact Hx.
  - intros x. destruct x as [r [cf |] ts us wt [w |] sc rh l em hb cr hs aw rj rd];
      intros Hx; exact Hx.
  - intros x. destruct x as [r [[| md |] |] ts us wt [w |] sc rh l em hb cr hs aw rj rd];
      intros Hx; exact Hx.
  - intros x Hx. exact Hx.
  - intros res x. destruct x as [r [[| md |] |] ts us wt w sc rh l em hb cr hs aw rj rd];
      intros Hx; exact Hx.
  - apply retry_clear_held.
  - apply retry_onDisconnected_held.
  - intros tm x _.
    apply (retry_held_fewer x _ (fun t => negb (Nat.eqb (handle t) (handle tm))));
      reflexivity.
  - intros t x. apply (retry_held_fewer x _ (fun _ => true)); simpl;
      rewrite ?BinanceLife.filter_all; reflexivity.
Qed.

(** X25.  Whatever the owner calls, the handshake and the hub report and
    the timers run, in whatever order, at most one retry timer is armed at
    any time: every disconnect clears the timer of the disconnect before it
    arms its own, however often the signalr client reports it. *)
Theorem one_retry_timer_at_most (intervalMs : Z) (fuel : nat)
    (actions : list (Action number)) (c' : Client) :
  play fuel actions (constructor intervalMs) = Some c' ->
  (length (retries c') <= 1)%nat.
Proof.
  intros Hplay.
  assert (Hheld : retry_held c').
  { apply (retry_held_stays fuel actions (constructor intervalMs) c'); [| exact Hplay].
    repeat split; constructor. }
  destruct Hheld as (_ & Hdup & Hheld). rewrite List.Forall_forall in Hheld.
  destruct (retries c') as [| a [| b rest]] eqn:Hd; simpl; try lia.
  exfalso.
  assert (Ha : In a (retries c')) by (rewrite Hd; simpl; auto).
  assert (Hb : In b (retries c')) by (rewrite Hd; simpl; auto).
  unfold retries in Ha, Hb. apply filter_In in Ha as [Ha Hca], Hb as [Hb Hcb].
  assert (Hab : handle a = handle b).
  { assert (Some (handle a) = Some (handle b)) as [= E]; [| exact E].
    rewrite <- (Hheld a Ha), <- (Hheld b Hb); [reflexivity | |].
    - destruct (callback b); [reflexivity | discriminate].
    - destruct (callback a); [reflexivity | discriminate]. }
  pose proof (BinanceLife.NoDup_handles_filter
                (fun tm => match callback tm with
                           | RetryElapsed => true
                           | WatcherExpired => false
                           end) _ Hdup) as Hdup'.
  fold (retries c') in Hdup'. rewrite Hd in Hdup'. simpl in Hdup'.
  apply NoDup_cons in Hdup' as [Hnin _]. apply Hnin. rewrite Hab. left.
Qed.
End Retry.

Import Scenario.

Lemma counters_are_missing_before_connected_witness :
  _subCount bittrex_starting = None
  /\ _subscribe eth_ltc TradeSubs bittrex_starting
     = (with_subs TradeSubs (set (id eth_ltc) eth_ltc (subs TradeSubs bittrex_starting))
          bittrex_starting, Thrown TypeError)
  /\ _unsubscribe btc_eth TradeSubs bittrex_starting
     = (with_subs TradeSubs (delete (id btc_eth) (subs TradeSubs bittrex_starting))
          bittrex_starting, Thrown TypeError).
Proof.
  pose (day := [Subscribe TradeSubs btc_eth;
                Handshake (Some (mkMetadata "cf=1" "agent"))] : list (Action Integral.number)).
  assert (Hplay : play 4 day (constructor 90000) = Some bittrex_starting)
    by (vm_compute; reflexivity).
  destruct (counters_are_missing_before_connected 90000 4 day bittrex_starting eth_ltc
              TradeSubs 0 Hplay ltac:(reflexivity) ltac:(reflexivity)) as (Hnone & Hsub & _).
  destruct (counters_are_missing_before_connected 90000 4 day bittrex_starting btc_eth
              TradeSubs 0 Hplay ltac:(reflexivity) ltac:(reflexivity)) as (_ & _ & Hunsub).
  split; [exact Hnone |]. split; [apply Hsub | apply Hunsub]; reflexivity.
Defined.

Lemma handshake_is_made_once_witness :
  (handshakes bittrex_evening <= 1)%nat
  /\ (handshakes bittrex_evening = 1%nat <-> is_Some (_cloudflare bittrex_evening)).
Proof.
  apply (handshake_is_made_once 90000 4 bittrex_day bittrex_evening).
  vm_compute. reflexivity.
Defined.

Lemma signalr_clients_are_started_one_at_a_time_witness :
  replay None (hub bittrex_evening) = Some (_wss bittrex_evening).
Proof.
  apply (signalr_clients_are_started_one_at_a_time 90000 4 bittrex_day bittrex_evening).
  vm_compute. reflexivity.
Defined.

Lemma one_retry_timer_at_most_witness :
  (length (retries bittrex_evening) <= 1)%nat.
Proof.
  apply (one_retry_timer_at_most 90000 4 bittrex_day bittrex_evening).
  vm_compute. reflexivity.
Defined.

End BittrexLife.

(** ** The ticker record: its ids *)
Module TickerIds.
Import Js JsFacts Ticker.

Section Strings.

Lemma append_cons (ch : ascii) (a b : string) : String ch a +:+ b = String ch (a +:+ b).
Proof. reflexivity. Qed.

(** Two texts that agree, each cut at the first occurrence of a
    character, agree before the cut and after it. *)
Lemma cut_agrees (ch : ascii) (a : string) : forall (a' b b' : string),
  includes ch a = false ->
  includes ch a' = false ->
  a +:+ String ch b = a' +:+ String ch b' ->
  a = a' /\ b = b'.
Proof.
  induction a as [| c a IH]; intros [| c' a'] b b' Ha Ha' Heq.
  - injection Heq as ->. split; reflexivity.
  - rewrite append_cons in Heq. injection Heq as <- _.
    simpl in Ha'. rewrite Ascii.eqb_refl in Ha'. discriminate.
  - rewrite append_cons in Heq. injection Heq as -> _.
    simpl in Ha. rewrite Ascii.eqb_refl in Ha. discriminate.
  - rewrite !append_cons in Heq. injection Heq as -> Heq.
    simpl in Ha, Ha'. apply orb_false_iff in Ha as [_ Ha], Ha' as [_ Ha'].
    destruct (IH a' b b' Ha Ha' Heq) as [-> ->]. split; reflexivity.
Qed.
End Strings.

Section Facts.
Context {number : Type} `{Number number}.
Local Abbreviation Ticker := (Ticker.Ticker number).
Local Abbreviation Json := (Js.Json number).

(** X26.  A ticker built from an object whose exchange, base and quote are
    strings has the market id [base/quote] and the full id
    [exchange:base/quote]; the constructor does not throw on an object,
    whatever else it holds or lacks. *)
Theorem ticker_ids_of_an_object (props : list (string * Json)) (e b q : string) :
  assoc_prop "exchange" props = Some (JStr e) ->
  assoc_prop "base" props = Some (JStr b) ->
  assoc_prop "quote" props = Some (JStr q) ->
  exists t : Ticker,
    constructor (Some (JObj props)) = Returned t
    /\ marketId t = b +:+ "/" +:+ q
    /\ fullId t = e +:+ ":" +:+ b +:+ "/" +:+ q.
Proof.
  intros He Hb Hq. eexists. split; [reflexivity |].
  unfold marketId, fullId, template. simpl. rewrite He, Hb, Hq. split; reflexivity.
Qed.

(** X27.  The full id is the exchange, a colon and the market id, and it
    tells markets apart as long as no exchange holds a colon and no base a
    slash: two tickers with one full id then agree on exchange, base and
    quote, as they read in the id. *)
Theorem fullId_identifies_the_market (t1 t2 : Ticker) :
  includes ":" (template (exchange t1)) = false ->
  includes ":" (template (exchange t2)) = false ->
  includes "/" (template (base t1)) = false ->
  includes "/" (template (base t2)) = false ->
  fullId t1 = fullId t2 ->
  fullId t1 = template (exchange t1) +:+ ":" +:+ marketId t1
  /\ template (exchange t1) = template (exchange t2)
  /\ template (base t1) = template (base t2)
  /\ template (quote t1) = template (quote t2)
  /\ marketId t1 = marketId t2.
Proof.
  intros He1 He2 Hb1 Hb2 Hid. split; [reflexivity |].
  unfold fullId in Hid.
  change (":" +:+ ?x) with (String ":" x) in Hid.
  apply (cut_agrees ":" _ _ _ _ He1 He2) in Hid as [Hexchange Hid].
  change ("/" +:+ ?x) with (String "/" x) in Hid.
  pose proof Hid as Hmarket.
  apply (cut_agrees "/" _ _ _ _ Hb1 Hb2) in Hid as [Hbase Hquote].
  repeat split; assumption.
Qed.

End Facts.

Import Scenario.

Lemma ticker_ids_of_an_object_witness :
  exists t : Ticker.Ticker Integral.number,
    constructor (Some ticker_object) = Returned t
    /\ marketId t = "BTC" +:+ "/" +:+ "USDT"
    /\ fullId t = "Binance" +:+ ":" +:+ "BTC" +:+ "/" +:+ "USDT".
Proof.
  exact (ticker_ids_of_an_object
           [("exchange", JStr "Binance"); ("base", JStr "BTC"); ("quote", JStr "USDT");
            ("tradeId", num 100); ("unix", num 123456785); ("price", JStr "0.001");
            ("amount", JStr "100")]
           "Binance" "BTC" "USDT" eq_refl eq_refl eq_refl).
Defined.

Lemma fullId_identifies_the_market_witness :
  let t1 := mkTicker (Some (JStr "Binance")) (Some (JStr "USDT")) (Some (JStr "BTC"))
              (Some (num 100)) undefined (Some (JStr "0.001")) undefined undefined undefined in
  let t2 := mkTicker (Some (JStr "Binance")) (Some (JStr "USDT")) (Some (JStr "BTC"))
              (Some (num 101)) undefined (Some (JStr "0.002")) undefined undefined undefined in
  fullId t1 = template (exchange t1) +:+ ":" +:+ marketId t1
  /\ template (exchange t1) = template (exchange t2)
  /\ template (base t1) = template (base t2)
  /\ template (quote t1) = template (quote t2)
  /\ marketId t1 = marketId t2.
Proof.
  exact (fullId_identifies_the_market
           (mkTicker (Some (JStr "Binance")) (Some (JStr "USDT")) (Some (JStr "BTC"))
              (Some (num 100)) undefined (Some (JStr "0.001")) undefined undefined undefined)
           (mkTicker (Some (JStr "Binance")) (Some (JStr "USDT")) (Some (JStr "BTC"))
              (Some (num 101)) undefined (Some (JStr "0.002")) undefined undefined undefined)
           eq_refl eq_refl eq_refl eq_refl eq_refl).
Defined.

(** Without the condition the ids collide: the base "A/B" with the quote
    "C" and the base "A" with the quote "B/C" have one market id. *)
Example market_ids_collide :
  marketId (mkTicker (number := Integral.number) undefined (Some (JStr "C"))
              (Some (JStr "A/B")) undefined undefined undefined undefined undefined undefined)
  = marketId (mkTicker (number := Integral.number) undefined (Some (JStr "B/C"))
                (Some (JStr "A")) undefined undefined undefined undefined undefined undefined).
Proof. reflexivity. Qed.

(** A ticker built from an object without base and quote. *)
Example ticker_without_market :
  (fun t => marketId t) <$>
    match constructor (Some (JObj [("exchange", JStr "Binance")] : Js.Json Integral.number)) with
    | Returned t => Some t
    | Thrown _ => None
    end
  = Some "undefined/undefined".
Proof. reflexivity. Qed.

End TickerIds.
